(** * build_run.py: a shallow embedding and its verified properties

    The program is a command-line wrapper that sequences three Docker
    daemon operations: build an image, (re)run a container from it, and
    push the image.  The embedding follows [src/build_run.py] line by
    line.  The daemon is an interface ([Docker]); the program runs in a
    small state-and-exception monad whose state holds the daemon, the
    text printed so far and the list of requests issued so far. *)

From stdpp Require Import strings pretty list gmap.
From Stdlib Require Import Ascii ZArith Lia.

Local Open Scope Z_scope.

(** ** Python string operations used by the program *)

Definition nl : string := String.String (Ascii.ascii_of_nat 10) "".
Definition tab : string := String.String (Ascii.ascii_of_nat 9) "".
Definition cr : string := String.String (Ascii.ascii_of_nat 13) "".

(** [s.replace(a, b)] for one-character [a] and [b]. *)
Fixpoint replace (a b : ascii) (s : string) : string :=
  match s with
  | "" => ""
  | String.String c s' => String.String (if Ascii.eqb c a then b else c) (replace a b s')
  end.

(** [needle in hay] on strings: [needle] occurs as a substring. *)
Fixpoint contains (needle hay : string) : bool :=
  String.prefix needle hay ||
  match hay with
  | "" => false
  | String.String _ hay' => contains needle hay'
  end.

(** [s.lower()]: only the letters A-Z change.  No other character has a
    lowercase form among the letters of the word the program compares
    with, so bytes above 127 are left as they are. *)
Definition lower_char (c : ascii) : ascii :=
  let n := Ascii.nat_of_ascii c in
  if ((65 <=? n) && (n <=? 90))%nat then Ascii.ascii_of_nat (n + 32) else c.

Fixpoint lower (s : string) : string :=
  match s with
  | "" => ""
  | String.String c s' => String.String (lower_char c) (lower s')
  end.

(** [s.split(sep)] for a one-character separator: never empty. *)
Fixpoint split (sep : ascii) (s : string) : list string :=
  match s with
  | "" => [""]
  | String.String c s' =>
      if Ascii.eqb c sep then "" :: split sep s'
      else match split sep s' with
           | [] => [String.String c ""]
           | w :: ws => String.String c w :: ws
           end
  end.

(** [str(n)] for an integer is its decimal numeral: stdpp's [pretty]. *)
Definition str_int (n : Z) : string := pretty n.

(** An insertion-ordered dict, as Python's: setting a key that is present
    replaces its value in place, a new key goes to the end. *)
Fixpoint dict_set {V : Type} (k : string) (v : V) (d : list (string * V))
  : list (string * V) :=
  match d with
  | [] => [(k, v)]
  | (k', v') :: d' =>
      if String.eqb k' k then (k, v) :: d' else (k', v') :: dict_set k v d'
  end.

(** ** Values the program prints and the records it exchanges *)

(** What [print] is given when the program dumps its keyword arguments:
    the value is kept as data, its Python rendering is not spelled out. *)
Inductive pyval :=
| PStr (s : string)
| PBool (b : bool)
| PDict (d : list (string * string))
| PDictOfDict (d : list (string * list (string * string))).

(** One entry per [print] call. *)
Inductive output :=
| Print (text : string)               (* print(text) *)
| PrintNoEnd (text : string)          (* print(text, end='', flush=True) *)
| PrintArg (key : string) (v : pyval) (* print(f'\t{key}: {kwargs[key]}') *)
| PrintLog (text : string).
  (* [print(f'\t{line.strip()}') for line in text.splitlines()
      if line.strip().strip('\n') != ''] *)

(** A decoded event of a build or push stream: a JSON object, read only
    through [key in event] and [event[key]]; a value is kept as the text
    an f-string shows for it. *)
Abbreviation event := (gmap string string).

(** The exceptions the daemon's client library raises. *)
Inductive failure :=
| ApiFailure (explanation : string)   (* docker.errors.APIError and subclasses *)
| OtherFailure (what : string).       (* anything else, e.g. a connection error *)

(** A generator returned by the client: the events it yields, and the
    exception that ends the iteration, if any. *)
Record stream := Stream { items : list event; fault : option failure }.

(** An entry of [api_client.containers(...)]: the program reads ['Id'],
    ['State'] and ['Created']; [Name] is the container's name. *)
Record container := Container {
  Id : string;
  Name : string;
  State : string;
  Created : Z
}.

Record build_kwargs_t := BuildKwargs {
  bk_path : string;
  bk_tag : string;
  bk_dockerfile : string;
  bk_buildargs : list (string * string);
  bk_nocache : bool;
  bk_pull : bool;
  bk_rm : bool;
  bk_decode : bool
}.

Record run_kwargs_t := RunKwargs {
  rk_image : string;
  rk_name : string;
  rk_user : string;
  rk_ports : list (string * string);
  rk_volumes : list (string * list (string * string));
  rk_detach : bool
}.

(** [client.containers.run] returns a container object when detached and
    the container's logs otherwise. *)
Inductive run_result :=
| Handle (id : string)
| Logs (text : string).

(** ** The daemon, as the program sees it

    One operation per request of the client library.  Each takes the
    daemon's state and returns a reply and the next state. *)
Inductive reply (A : Type) :=
| Reply (a : A)
| Fail (f : failure).
Arguments Reply {A} a.
Arguments Fail {A} f.

Class Docker (D : Type) := {
  (* api_client.build(path=..., tag=..., ...) *)
  daemon_build : build_kwargs_t → D → reply stream * D;
  (* api_client.containers(all=..., filters={'name': ...}) *)
  daemon_containers : bool → string → D → reply (list container) * D;
  (* api_client.stop(id) *)
  daemon_stop : string → D → reply unit * D;
  (* api_client.rename(id, name) *)
  daemon_rename : string → string → D → reply unit * D;
  (* client.containers.run(image=..., name=..., ...) *)
  daemon_run : run_kwargs_t → D → reply run_result * D;
  (* api_client.tag(image, repository, tag=...) *)
  daemon_tag : string → string → string → D → reply bool * D;
  (* api_client.push(repository, tag=..., stream=True, decode=True) *)
  daemon_push : string → string → D → reply stream * D;
  (* what the passing of [secs] seconds does to the daemon: sleep(secs) *)
  daemon_sleep : Z → D → D
}.

(** The requests issued, in order. *)
Inductive call :=
| CBuild (kw : build_kwargs_t)
| CContainers (all : bool) (name_filter : string)
| CStop (id : string)
| CRename (id new_name : string)
| CRun (kw : run_kwargs_t)
| CTag (image repository tag : string)
| CPush (repository tag : string)
| CSleep (secs : Z).

(** ** Exceptions and the monad of the program *)

Inductive exn :=
| BuildRunError (code : Z) (message : string)
| APIError (explanation : string)
| IndexError
| AttributeError
| TimestampError   (* what datetime.fromtimestamp raises for a timestamp it
                      cannot represent: ValueError, OverflowError or OSError *)
| OtherError (what : string).

Definition exn_of_failure (f : failure) : exn :=
  match f with
  | ApiFailure e => APIError e
  | OtherFailure w => OtherError w
  end.

(** [BuildRunError.__str__] *)
Definition BuildRunError_str (code : Z) (message : string) : string :=
  "BuildRunError: " +:+ str_int code +:+ " - " +:+ message.

Inductive outcome (A : Type) :=
| Done (a : A)
| Raised (e : exn)
| OutOfFuel.
Arguments Done {A} a.
Arguments Raised {A} e.
Arguments OutOfFuel {A}.

Record world (D : Type) := World {
  daemon : D;
  calls : list call;
  stdout : list output
}.
Arguments World {D}.
Arguments daemon {D}.
Arguments calls {D}.
Arguments stdout {D}.

Definition M (D A : Type) : Type := world D → outcome A * world D.

Global Instance M_ret {D} : MRet (M D) := λ A a w, (Done a, w).

Global Instance M_bind {D} : MBind (M D) := λ A B k m w,
  match m w with
  | (Done a, w') => k a w'
  | (Raised e, w') => (Raised e, w')
  | (OutOfFuel, w') => (OutOfFuel, w')
  end.

Definition raise {D A} (e : exn) : M D A := λ w, (Raised e, w).

Definition out_of_fuel {D A} : M D A := λ w, (OutOfFuel, w).

(** [try: m except docker.errors.APIError: h] *)
Definition try_except_APIError {D A} (m : M D A) (h : M D A) : M D A :=
  λ w, match m w with
       | (Raised (APIError _), w') => h w'
       | r => r
       end.

(** [try: m except BuildRunError as e: h e] *)
Definition try_except_BuildRunError {D A} (m : M D A)
    (h : Z → string → M D A) : M D A :=
  λ w, match m w with
       | (Raised (BuildRunError code message), w') => h code message w'
       | r => r
       end.

Definition emit {D} (o : output) : M D unit :=
  λ w, (Done tt, World (daemon w) (calls w) (stdout w ++ [o])).

Definition print {D} (text : string) : M D unit := emit (Print text).

Definition when {D} (b : bool) (m : M D unit) : M D unit :=
  if b then m else mret tt.

(** Issue a request: record it, let the daemon answer, raise on failure. *)
Definition request {D A} (c : call) (op : D → reply A * D) : M D A :=
  λ w, let '(r, d') := op (daemon w) in
       let w' := World d' (calls w ++ [c]) (stdout w) in
       match r with
       | Reply a => (Done a, w')
       | Fail f => (Raised (exn_of_failure f), w')
       end.

Section Requests.
Context {D : Type} {docker : Docker D}.

Definition api_build (kw : build_kwargs_t) : M D stream :=
  request (CBuild kw) (daemon_build kw).
Definition api_containers (all : bool) (name_filter : string)
  : M D (list container) :=
  request (CContainers all name_filter) (daemon_containers all name_filter).
Definition api_stop (id : string) : M D unit :=
  request (CStop id) (daemon_stop id).
Definition api_rename (id new_name : string) : M D unit :=
  request (CRename id new_name) (daemon_rename id new_name).
Definition containers_run (kw : run_kwargs_t) : M D run_result :=
  request (CRun kw) (daemon_run kw).
Definition api_tag (image repository tag : string) : M D bool :=
  request (CTag image repository tag) (daemon_tag image repository tag).
Definition api_push (repository tag : string) : M D stream :=
  request (CPush repository tag) (daemon_push repository tag).
Definition sleep (secs : Z) : M D unit :=
  λ w, (Done tt, World (daemon_sleep secs (daemon w))
                       (calls w ++ [CSleep secs]) (stdout w)).

End Requests.

(** ** The program *)

(** The parameters of [BuildRun.main], as click hands them over. *)
Record options := Options {
  user : string;
  dir : string;
  cache : bool;
  pull : bool;
  rm : bool;
  detach : bool;
  env : string;
  wait : Z;
  push : bool;
  run : bool;
  build : bool;
  repo_name : string;
  port : list string;
  volume : list string;
  dockerfile : option string;
  verbose : Z
}.

(** The defaults of the click options; [-u] and [-d] are required. *)
Definition default_options (u d : string) : options :=
  {| user := u; dir := d; cache := true; pull := true; rm := false;
     detach := true; env := "dev"; wait := 5; push := false; run := true;
     build := true; repo_name := "benjilev08"; port := []; volume := [];
     dockerfile := None; verbose := 0 |}.

(** name = f'{user}_{env}' and tag = f'{user}:{env}' *)
Definition name (o : options) : string := user o +:+ "_" +:+ env o.
Definition tag (o : options) : string := user o +:+ ":" +:+ env o.

(** The filter the program hands to [containers]: f'^{name}$'. *)
Definition name_filter (n : string) : string := "^" +:+ n +:+ "$".

Definition build_kwargs (o : options) : build_kwargs_t :=
  {| bk_path := dir o;
     bk_tag := tag o;
     bk_dockerfile :=
       match dockerfile o with
       | None => "Dockerfile." +:+ env o
       | Some f => f
       end;
     bk_buildargs := [("USER", user o)];
     bk_nocache := negb (cache o);
     bk_pull := pull o;
     bk_rm := rm o;
     bk_decode := true |}.

Definition build_kwargs_items (kw : build_kwargs_t) : list (string * pyval) :=
  [("path", PStr (bk_path kw)); ("tag", PStr (bk_tag kw));
   ("dockerfile", PStr (bk_dockerfile kw));
   ("buildargs", PDict (bk_buildargs kw));
   ("nocache", PBool (bk_nocache kw)); ("pull", PBool (bk_pull kw));
   ("rm", PBool (bk_rm kw)); ("decode", PBool (bk_decode kw))].

Definition run_kwargs_items (kw : run_kwargs_t) : list (string * pyval) :=
  [("image", PStr (rk_image kw)); ("name", PStr (rk_name kw));
   ("user", PStr (rk_user kw)); ("ports", PDict (rk_ports kw));
   ("volumes", PDictOfDict (rk_volumes kw));
   ("detach", PBool (rk_detach kw))].

(** {p.split(':')[0]: p.split(':')[1] for p in port}: [None] stands for
    the IndexError of an entry without a colon. *)
Fixpoint ports_dict (port : list string) (acc : list (string * string))
  : option (list (string * string)) :=
  match port with
  | [] => Some acc
  | p :: port' =>
      match split ":" p with
      | k :: v :: _ => ports_dict port' (dict_set k v acc)
      | _ => None
      end
  end.

(** {v.split(':')[0]: {'bind': v.split(':')[1]} for v in volume} *)
Fixpoint volumes_dict (volume : list string)
    (acc : list (string * list (string * string)))
  : option (list (string * list (string * string))) :=
  match volume with
  | [] => Some acc
  | v :: volume' =>
      match split ":" v with
      | k :: b :: _ => volumes_dict volume' (dict_set k [("bind", b)] acc)
      | _ => None
      end
  end.

Definition run_kwargs (o : options) : option run_kwargs_t :=
  match ports_dict (port o) [] with
  | None => None
  | Some ports =>
      match volumes_dict (volume o) [] with
      | None => None
      | Some volumes =>
          Some {| rk_image := tag o; rk_name := name o; rk_user := user o;
                  rk_ports := ports; rk_volumes := volumes;
                  rk_detach := detach o |}
      end
  end.

(** str(datetime.fromtimestamp(t)): the local-time rendering of a
    timestamp, which depends on the host's time zone; [None] where
    [datetime.fromtimestamp] raises (a year outside 1..9999, a value the
    platform's time functions cannot take). *)
Class LocalTime := fromtimestamp : Z → option string.

(** .replace(' ', '_').replace(':', '_') *)
Definition name_safe (s : string) : string := replace ":" "_" (replace " " "_" s).

(** f'{name}_{created}'.replace(' ', '_').replace(':', '_') and
    f'{name}_{created}_{count}'.replace(' ', '_').replace(':', '_'), for
    the text [created] of the creation time. *)
Definition candidate_text (n created : string) : string :=
  name_safe (n +:+ "_" +:+ created).

Definition numbered_text (n created : string) (count : Z) : string :=
  name_safe (n +:+ "_" +:+ created +:+ "_" +:+ str_int count).

(** ** The steps of [BuildRun.main] *)

Section Program.
Context {D : Type} {docker : Docker D} {local_time : LocalTime}.

(** [print(f'\t{key}: {kwargs[key]}') for key in kwargs.keys()] *)
Fixpoint print_args (kvs : list (string * pyval)) : M D unit :=
  match kvs with
  | [] => mret tt
  | (k, v) :: kvs' => emit (PrintArg k v);; print_args kvs'
  end.

(** Raise what ended the iteration over a generator, if anything did. *)
Definition end_of_stream (s : stream) : M D unit :=
  match fault s with
  | Some f => raise (exn_of_failure f)
  | None => mret tt
  end.

(** Lines 51-55: the loop over the build events. *)
Fixpoint build_log (image : list event) (build_success : bool) : M D bool :=
  match image with
  | [] => mret build_success
  | i :: image' =>
      match i !! "stream" with
      | Some text =>
          emit (PrintLog text);;
          build_log image'
            (if contains "Successfully built" text then true else build_success)
      | None => build_log image' build_success
      end
  end.

(** Lines 28-58. *)
Definition build_step (o : options) : M D unit :=
  let kw := build_kwargs o in
  when (2 <=? verbose o)
    (print "Build Args:";; print_args (build_kwargs_items kw));;
  image ← api_build kw;
  build_success ←
    (if 1 <=? verbose o then
       print (nl +:+ "Build Log:");;
       b ← build_log (items image) false;
       end_of_stream image;;
       mret b
     else mret false);
  if build_success : bool then mret tt
  else raise (BuildRunError 101 "Build Failed").

(** datetime.fromtimestamp(t) inside an f-string: the text, or the
    exception. *)
Definition timestamp (t : Z) : M D string :=
  match fromtimestamp t with
  | Some text => mret text
  | None => raise TimestampError
  end.

(** Lines 89 and 92: the candidate names for a container.  Each
    evaluates [datetime.fromtimestamp(container["Created"])] anew. *)
Definition rename_candidate (n : string) (c : container) : M D string :=
  created ← timestamp (Created c);
  mret (candidate_text n created).

Definition rename_numbered (n : string) (c : container) (count : Z) : M D string :=
  created ← timestamp (Created c);
  mret (numbered_text n created count).

(** Lines 91-93: while a container of that name is listed, try the next
    counter.  The loop runs as long as the daemon keeps answering with a
    non-empty list, so the embedding takes fuel. *)
Fixpoint find_free (fuel : nat) (n : string) (c : container)
    (rename : string) (count : Z) : M D string :=
  match fuel with
  | O => out_of_fuel
  | S fuel' =>
      listed ← api_containers true (name_filter rename);
      match listed with
      | [] => mret rename
      | _ :: _ =>
          rename' ← rename_numbered n c count;
          find_free fuel' n c rename' (count + 1)
      end
  end.

Definition is_running (c : container) : bool :=
  String.eqb (lower (State c)) "running".

(** Lines 84-97: the body of the loop over the matching containers. *)
Definition reconcile_one (fuel : nat) (o : options) (c : container) : M D unit :=
  let container_id := Id c in
  when (is_running c)
    (when (1 <=? verbose o)
       (print (tab +:+ "Stopping running container: " +:+ container_id));;
     api_stop container_id);;
  rename0 ← rename_candidate (name o) c;
  rename ← find_free fuel (name o) c rename0 1;
  when (1 <=? verbose o)
    (print (tab +:+ "Renaming to " +:+ rename +:+ " (id: " +:+ container_id +:+ ")"));;
  api_rename container_id rename.

(** Line 83: for container in all_containers. *)
Fixpoint reconcile_all (fuel : nat) (o : options) (all_containers : list container)
  : M D unit :=
  match all_containers with
  | [] => mret tt
  | c :: rest => reconcile_one fuel o c;; reconcile_all fuel o rest
  end.

(** Lines 74-100. *)
Definition reconcile (fuel : nat) (o : options) : M D unit :=
  all_containers ← api_containers true (name_filter (name o));
  match all_containers with
  | [] => when (1 <=? verbose o)
            (print ("No existing containers for " +:+ name o +:+ "."))
  | _ :: _ =>
      when (1 <=? verbose o)
        (print (nl +:+ "Containers exist for " +:+ name o +:+ "..."));;
      reconcile_all fuel o all_containers
  end.

(** Lines 112-120: the countdown.  [n] bounds the number of rounds; the
    caller passes [wait + 1], which is what the loop can use. *)
Fixpoint liveness_poll (n : nat) (nm : string) (wait : Z) : M D bool :=
  if 0 <=? wait then
    match n with
    | O => out_of_fuel
    | S n' =>
        listed ← api_containers false (name_filter nm);
        match listed with
        | _ :: _ =>
            emit (PrintNoEnd (cr +:+ tab +:+ str_int wait +:+ ": Running"));;
            sleep 1;;
            liveness_poll n' nm (wait - 1)
        | [] =>
            print (cr +:+ tab +:+ str_int wait +:+ ": Died    ");;
            mret false
        end
    end
  else mret true.

(** Lines 103-122. *)
Definition report_and_wait (o : options) (container : run_result) : M D unit :=
  id ← match container with
       | Handle id => mret id
       | Logs _ => raise AttributeError
       end;
  print (nl +:+ "Started container: " +:+ id);;
  print (nl +:+ "Connect with:");;
  print (tab +:+ "docker exec -it " +:+ name o +:+ " bash");;
  print (nl +:+ "View logs with:");;
  print (tab +:+ "docker logs " +:+ name o);;
  print ("Waiting " +:+ str_int (wait o) +:+ " seconds to ensure container stays up...");;
  run_success ← liveness_poll (Z.to_nat (wait o + 1)) (name o) (wait o);
  when run_success (print (cr +:+ tab +:+ "Success!     ")).

(** Lines 60-102: build the keyword arguments, clear the name, run. *)
Definition launch (fuel : nat) (o : options) : M D run_result :=
  kw ← match run_kwargs o with
       | Some kw => mret kw
       | None => raise IndexError
       end;
  when (2 <=? verbose o)
    (print (nl +:+ "Run Args:");; print_args (run_kwargs_items kw));;
  reconcile fuel o;;
  containers_run kw.

(** Lines 60-122. *)
Definition run_step (fuel : nat) (o : options) : M D unit :=
  container ← launch fuel o;
  when (1 <=? verbose o) (report_and_wait o container).

(** Line 131: the comprehension over the push events. *)
Fixpoint push_log (o : options) (lines : list event) : M D unit :=
  match lines with
  | [] => mret tt
  | line :: lines' =>
      match (2 <=? verbose o), line !! "status", line !! "progressDetail" with
      | true, Some status, Some detail =>
          print (tab +:+ status +:+ ": " +:+ detail)
      | _, _, _ => mret tt
      end;;
      push_log o lines'
  end.

(** f'{repo_name}/{user}:{env}' *)
Definition push_target (o : options) : string :=
  repo_name o +:+ "/" +:+ user o +:+ ":" +:+ env o.

(** Lines 124-135. *)
Definition push_step (o : options) : M D unit :=
  tagged ← api_tag (tag o) (repo_name o +:+ "/" +:+ user o) (env o);
  (if tagged : bool then
     when (1 <=? verbose o) (print ("Tagged image as " +:+ push_target o))
   else raise (BuildRunError 102 ("Failed to tag image as " +:+ push_target o)));;
  try_except_APIError
    (lines ← api_push (repo_name o +:+ "/" +:+ user o) (env o);
     push_log o (items lines);;
     end_of_stream lines)
    (raise (BuildRunError 103 ("Failed to push " +:+ push_target o)));;
  when (1 <=? verbose o) (print ("Pushed image: " +:+ push_target o)).

(** [BuildRun.main]. *)
Definition BuildRun_main (fuel : nat) (o : options) : M D unit :=
  when (build o) (build_step o);;
  when (run o) (run_step fuel o);;
  when (push o) (push_step o).

(** The click command [main]. *)
Definition main (fuel : nat) (o : options) : M D unit :=
  try_except_BuildRunError (BuildRun_main fuel o)
    (λ code message, print (BuildRunError_str code message)).

End Program.

(** ** A model of the daemon

    Modelled from the spec: the Docker Engine itself is outside the
    repository; section 6 of the spec gives the operations the program
    relies on (list containers filtered by exact name, stop, rename, run,
    tag, push, build as a stream of log events).  [fake] is a daemon with
    exactly that behaviour: it keeps the containers, answers a listing by
    exact name, stops and renames by id, refuses a name that is taken or
    that is not name-safe (section 4.2: spaces and colons are replaced
    "for name-safety"), and plays back a scripted build log, tag answer
    and push log. *)
Record fake := Fake {
  fk_containers : list container;     (* every container, running or not *)
  fk_uptime : gmap string nat;        (* id -> seconds left before the process exits *)
  fk_clock : Z;                       (* the daemon's time, in seconds *)
  fk_next_uptime : option nat;        (* lifetime of the next process started *)
  fk_build : reply stream;            (* what a build request answers *)
  fk_tag : reply bool;                (* what a tag request answers *)
  fk_push : reply stream              (* what a push request answers *)
}.

Definition with_containers (d : fake) (cs : list container) : fake :=
  {| fk_containers := cs; fk_uptime := fk_uptime d; fk_clock := fk_clock d;
     fk_next_uptime := fk_next_uptime d; fk_build := fk_build d;
     fk_tag := fk_tag d; fk_push := fk_push d |}.

(** A filter [^n$] selects the containers named exactly [n]. *)
Definition matches (name_filter_ : string) (c : container) : bool :=
  String.eqb name_filter_ (name_filter (Name c)).

Definition listed (all : bool) (f : string) (c : container) : bool :=
  matches f c && (all || String.eqb (State c) "running").

Definition has_id (id : string) (c : container) : bool := String.eqb (Id c) id.
Definition has_name (n : string) (c : container) : bool := String.eqb (Name c) n.

Definition set_state (st : string) (c : container) : container :=
  {| Id := Id c; Name := Name c; State := st; Created := Created c |}.
Definition set_name (n : string) (c : container) : container :=
  {| Id := Id c; Name := n; State := State c; Created := Created c |}.

(** Apply [f] to the containers with the given id. *)
Definition update (id : string) (f : container → container)
    (cs : list container) : list container :=
  (λ c, if has_id id c then f c else c) <$> cs.

Definition fake_stop (id : string) (d : fake) : reply unit * fake :=
  if existsb (has_id id) (fk_containers d)
  then (Reply tt, with_containers d (update id (set_state "exited") (fk_containers d)))
  else (Fail (ApiFailure "No such container"), d).

(** A name the daemon accepts has no space and no colon. *)
Definition valid_name (n : string) : bool := String.eqb (name_safe n) n.

Definition fake_rename (id new_name : string) (d : fake) : reply unit * fake :=
  if existsb (has_id id) (fk_containers d) then
    if valid_name new_name then
      if existsb (has_name new_name) (fk_containers d)
      then (Fail (ApiFailure "Conflict"), d)
      else (Reply tt, with_containers d (update id (set_name new_name) (fk_containers d)))
    else (Fail (ApiFailure "Invalid container name"), d)
  else (Fail (ApiFailure "No such container"), d).

(** An id no container has: longer than each of theirs. *)
Definition fresh_id (cs : list container) : string :=
  foldr (λ c acc, Id c +:+ acc) "0" cs.

Definition fake_run (kw : run_kwargs_t) (d : fake) : reply run_result * fake :=
  if negb (valid_name (rk_name kw))
  then (Fail (ApiFailure "Invalid container name"), d)
  else if existsb (has_name (rk_name kw)) (fk_containers d)
  then (Fail (ApiFailure "Conflict"), d)
  else
    let id := fresh_id (fk_containers d) in
    let c := {| Id := id; Name := rk_name kw;
                State := if rk_detach kw then "running" else "exited";
                Created := fk_clock d |} in
    let up := match fk_next_uptime d with
              | Some n => <[id := n]> (fk_uptime d)
              | None => fk_uptime d
              end in
    (Reply (if rk_detach kw then Handle id else Logs ""),
     {| fk_containers := fk_containers d ++ [c]; fk_uptime := up;
        fk_clock := fk_clock d; fk_next_uptime := fk_next_uptime d;
        fk_build := fk_build d; fk_tag := fk_tag d; fk_push := fk_push d |}).

(** One second passes: a process whose time is up exits. *)
Definition tick (d : fake) : fake :=
  let up := (λ n, Nat.pred n) <$> fk_uptime d in
  {| fk_containers :=
       (λ c, match up !! Id c with
             | Some O => set_state "exited" c
             | _ => c
             end) <$> fk_containers d;
     fk_uptime := up; fk_clock := fk_clock d + 1;
     fk_next_uptime := fk_next_uptime d; fk_build := fk_build d;
     fk_tag := fk_tag d; fk_push := fk_push d |}.

Definition fake_sleep (secs : Z) (d : fake) : fake :=
  Nat.iter (Z.to_nat secs) tick d.

Global Instance fake_docker : Docker fake := {|
  daemon_build := λ _ d, (fk_build d, d);
  daemon_containers := λ all f d, (Reply (filter (λ c, listed all f c = true) (fk_containers d)), d);
  daemon_stop := fake_stop;
  daemon_rename := fake_rename;
  daemon_run := fake_run;
  daemon_tag := λ _ _ _ d, (fk_tag d, d);
  daemon_push := λ _ _ d, (fk_push d, d);
  daemon_sleep := fake_sleep
|}.

(** A host whose local time is UTC: the text Python shows for
    [datetime.fromtimestamp(t)], 'YYYY-MM-DD HH:MM:SS', from
    0001-01-02 00:00:00 to 9999-12-31 23:59:59; outside that range
    [datetime.fromtimestamp] raises. *)
Definition pad2 (n : Z) : string :=
  if n <? 10 then "0" +:+ pretty n else pretty n.

Definition pad4 (n : Z) : string :=
  if n <? 10 then "000" +:+ pretty n
  else if n <? 100 then "00" +:+ pretty n
  else if n <? 1000 then "0" +:+ pretty n
  else pretty n.

Definition utc_date (days : Z) : Z * Z * Z :=
  let z := days + 719468 in
  let era := z / 146097 in
  let doe := z - era * 146097 in
  let yoe := (doe - doe / 1460 + doe / 36524 - doe / 146096) / 365 in
  let doy := doe - (365 * yoe + yoe / 4 - yoe / 100) in
  let mp := (5 * doy + 2) / 153 in
  let d := doy - (153 * mp + 2) / 5 + 1 in
  let m := if mp <? 10 then mp + 3 else mp - 9 in
  let y := yoe + era * 400 + (if m <=? 2 then 1 else 0) in
  (y, m, d).

Definition utc_text (t : Z) : string :=
  let '(y, m, d) := utc_date (t / 86400) in
  let s := t mod 86400 in
  pad4 y +:+ "-" +:+ pad2 m +:+ "-" +:+ pad2 d +:+ " " +:+
  pad2 (s / 3600) +:+ ":" +:+ pad2 (s mod 3600 / 60) +:+ ":" +:+ pad2 (s mod 60).

Definition utc_fromtimestamp (t : Z) : option string :=
  if (-62135510400 <=? t) && (t <=? 253402300799) then Some (utc_text t)
  else None.

Definition utc : LocalTime := utc_fromtimestamp.

Definition start {D} (d : D) : world D := World d [] [].

(** Daemons for the examples: the containers and the three scripted
    answers are given, no process ever exits by itself. *)
Definition scripted (cs : list container) (b : reply stream) (t : reply bool)
    (p : reply stream) : fake :=
  {| fk_containers := cs; fk_uptime := ∅; fk_clock := 1700000000;
     fk_next_uptime := None; fk_build := b; fk_tag := t; fk_push := p |}.

Definition good_build : reply stream :=
  Reply (Stream [{["stream" := "Step 1/1 : FROM scratch"]};
                 {["stream" := "Successfully built 0123abcd"]}] None).

Definition quiet_daemon (cs : list container) : fake :=
  scripted cs good_build (Reply true) (Reply (Stream [] None)).

(** ** Vocabulary of the statements *)

(** Some event of the build stream carries the success marker. *)
Definition has_marker (image : list event) : bool :=
  existsb (λ i, match i !! "stream" with
                | Some text => contains "Successfully built" text
                | None => false
                end) image.

(** The exception a stream request ends in: at the call or while the
    events are read. *)
Definition stream_failure (r : reply stream) : option failure :=
  match r with
  | Fail f => Some f
  | Reply s => fault s
  end.

(** The fake daemon is well formed: ids are unique and every name is one
    the daemon accepts. *)
Definition wf (d : fake) : Prop :=
  NoDup (Id <$> fk_containers d) ∧
  Forall (λ c, valid_name (Name c) = true) (fk_containers d).

(** The containers of a given name. *)
Definition holders (n : string) (cs : list container) : list container :=
  filter (λ c, has_name n c = true) cs.

(** What a sequence of requests does to the fake daemon. *)
Definition apply_call (d : fake) (c : call) : fake :=
  match c with
  | CStop id => snd (fake_stop id d)
  | CRename id new_name => snd (fake_rename id new_name d)
  | CRun kw => snd (fake_run kw d)
  | CSleep secs => fake_sleep secs d
  | _ => d
  end.

Definition replay (cs : list call) (d : fake) : fake := foldl apply_call d cs.

Definition stop_ids (cs : list call) : list string :=
  omap (λ c, match c with CStop id => Some id | _ => None end) cs.

Definition rename_ids (cs : list call) : list string :=
  omap (λ c, match c with CRename id _ => Some id | _ => None end) cs.

Definition is_probe (c : call) : Prop :=
  match c with CContainers true _ => True | _ => False end.

(** The counter appended to the k-th name tried: nothing, then _1, _2, ... *)
Definition counter_suffix (k : nat) : string :=
  match k with
  | O => ""
  | S _ => "_" +:+ str_int (Z.of_nat k)
  end.

(** The k-th name tried for a container: the candidate itself, then the
    candidate with the counter appended. *)
Definition nth_candidate (n created : string) (k : nat) : string :=
  match k with
  | O => n +:+ "_" +:+ name_safe created
  | S _ => n +:+ "_" +:+ name_safe created +:+ "_" +:+ str_int (Z.of_nat k)
  end.

(** The creation time of a container is one [datetime.fromtimestamp]
    accepts. *)
Definition representable {local_time : LocalTime} (c : container) : Prop :=
  is_Some (fromtimestamp (Created c)).

(** The text of a container's creation time, where it has one. *)
Definition created_text {local_time : LocalTime} (c : container) : string :=
  default "" (fromtimestamp (Created c)).

Section PollVocabulary.
Context {D : Type} {docker : Docker D}.

(** The answer to one poll for the name [nm]. *)
Definition poll_answer (nm : string) (d : D) : reply (list container) :=
  fst (daemon_containers false (name_filter nm) d).

Definition is_listed (nm : string) (d : D) : bool :=
  match poll_answer nm d with
  | Reply (_ :: _) => true
  | _ => false
  end.

Definition is_absent (nm : string) (d : D) : bool :=
  match poll_answer nm d with
  | Reply [] => true
  | _ => false
  end.

(** The daemon after a poll that found the name and the second slept. *)
Definition after_round (nm : string) (d : D) : D :=
  daemon_sleep 1 (snd (daemon_containers false (name_filter nm) d)).

(** The daemon at the k-th poll of a countdown started in [d]. *)
Definition poll_state (nm : string) (k : nat) (d : D) : D :=
  Nat.iter k (after_round nm) d.

(** The requests of [k] rounds that found the name. *)
Definition rounds (nm : string) (k : nat) : list call :=
  concat (replicate k [CContainers false (name_filter nm); CSleep 1]).

(** The progress lines of [k] rounds of a countdown from [wait]. *)
Fixpoint running_lines (k : nat) (wait : Z) : list output :=
  match k with
  | O => []
  | S k' => PrintNoEnd (cr +:+ tab +:+ str_int wait +:+ ": Running")
            :: running_lines k' (wait - 1)
  end.

End PollVocabulary.

(** What the loop over the build events prints. *)
Definition build_log_output (image : list event) : list output :=
  omap (λ i : event, PrintLog <$> i !! "stream") image.

(** What the comprehension over the push events prints. *)
Definition push_log_output (o : options) (lines : list event) : list output :=
  omap (λ line : event,
          match (2 <=? verbose o), line !! "status", line !! "progressDetail" with
          | true, Some status, Some detail =>
              Some (Print (tab +:+ status +:+ ": " +:+ detail))
          | _, _, _ => None
          end) lines.

(** The three errors of the tool, for the options [o]. *)
Definition tool_errors (o : options) : list (Z * string) :=
  [(101, "Build Failed");
   (102, "Failed to tag image as " +:+ repo_name o +:+ "/" +:+ user o +:+ ":" +:+ env o);
   (103, "Failed to push " +:+ repo_name o +:+ "/" +:+ user o +:+ ":" +:+ env o)].

(** An exception is one of the tool's three errors, or not the tool's. *)
Definition expected_exn (o : options) (e : exn) : Prop :=
  match e with
  | BuildRunError code message => (code, message) ∈ tool_errors o
  | _ => True
  end.

(** A program is tidy for [P] when it only ever appends to the list of
    requests and every exception it raises satisfies [P]. *)
Definition tidy {D A : Type} (P : exn → Prop) (m : M D A) : Prop :=
  ∀ w : world D,
    (∃ cs, calls (snd (m w)) = calls w ++ cs) ∧
    (∀ e, fst (m w) = Raised e → P e).

(** The lines [report_and_wait] prints before the countdown. *)
Definition started_lines (o : options) (id : string) : list output :=
  [Print (nl +:+ "Started container: " +:+ id);
   Print (nl +:+ "Connect with:");
   Print (tab +:+ "docker exec -it " +:+ name o +:+ " bash");
   Print (nl +:+ "View logs with:");
   Print (tab +:+ "docker logs " +:+ name o);
   Print ("Waiting " +:+ str_int (wait o) +:+ " seconds to ensure container stays up...")].

(** The world a countdown ends in, when the name was listed at the first
    [k] polls of the [n] the window allows and, if [k < n], absent at the
    next one. *)
Definition countdown_end {D : Type} {docker : Docker D}
    (nm : string) (wait : Z) (n k : nat) (w : world D) : world D :=
  if decide (k = n) then
    World (poll_state nm n (daemon w))
          (calls w ++ rounds nm n)
          (stdout w ++ running_lines n wait)
  else
    World (snd (daemon_containers false (name_filter nm) (poll_state nm k (daemon w))))
          (calls w ++ rounds nm k ++ [CContainers false (name_filter nm)])
          (stdout w ++ running_lines k wait
             ++ [Print (cr +:+ tab +:+ str_int (wait - Z.of_nat k) +:+ ": Died    ")]).

(** The k-th name the loop of lines 89-93 tries for a container whose
    creation time has a text. *)
Definition tried {local_time : LocalTime} (n : string) (c : container) (k : nat)
  : string :=
  match k with
  | O => candidate_text n (created_text c)
  | S _ => numbered_text n (created_text c) (Z.of_nat k)
  end.

(** The listings of one search for a free name, up to the k-th name. *)
Definition probes {local_time : LocalTime} (n : string) (c : container)
    (from upto : nat) : list call :=
  (λ i, CContainers true (name_filter (tried n c i)))
    <$> seq from (S upto - from).

(** Every rename request of a trace asks for a name that no container of
    the daemon has at that moment. *)
Fixpoint renames_fresh (tr : list call) (d : fake) : Prop :=
  match tr with
  | [] => True
  | c :: tr' =>
      match c with
      | CRename _ new_name => new_name ∉ Name <$> fk_containers d
      | _ => True
      end ∧ renames_fresh tr' (apply_call d c)
  end.

(** The containers after the loop body of lines 84-97 ran for [c] and
    renamed it to [r]. *)
Definition stopped (c : container) (cs : list container) : list container :=
  if is_running c then update (Id c) (set_state "exited") cs else cs.

Definition renamed (c : container) (r : string) (cs : list container)
  : list container :=
  update (Id c) (set_name r) (stopped c cs).

(** The course of the loop of line 83 on the fake daemon: the containers
    still to process, the daemon's containers before, the requests, and
    the daemon's containers after. *)
Inductive reconciled {local_time : LocalTime} (n : string)
  : list container → list container → list call → list container → Prop :=
| reconciled_nil cs : reconciled n [] cs [] cs
| reconciled_cons c rest cs j tr cs' :
    Id c ∈ Id <$> cs →
    tried n c j ∉ Name <$> cs →
    (∀ i, (i < j)%nat → tried n c i ∈ Name <$> cs) →
    reconciled n rest (renamed c (tried n c j) cs) tr cs' →
    reconciled n (c :: rest) cs
      ((if is_running c then [CStop (Id c)] else [])
         ++ probes n c 0 j ++ CRename (Id c) (tried n c j) :: tr)
      cs'.

(** What lines 70-72 print. *)
Definition run_args_output (o : options) (kw : run_kwargs_t) : list output :=
  if 2 <=? verbose o
  then Print (nl +:+ "Run Args:")
       :: map (λ kv, PrintArg kv.1 kv.2) (run_kwargs_items kw)
  else [].

(** The world in which line 74 lists the containers: the run arguments
    have been printed, the daemon has not been asked anything. *)
Definition args_shown {D : Type} (o : options) (kw : run_kwargs_t)
    (w : world D) : world D :=
  World (daemon w) (calls w) (stdout w ++ run_args_output o kw).

(** What lines 85-88 print for one container. *)
Definition stop_output (o : options) (c : container) : list output :=
  if is_running c && (1 <=? verbose o)
  then [Print (tab +:+ "Stopping running container: " +:+ Id c)] else [].

(** What the body of the loop prints for one container. *)
Definition one_output (o : options) (c : container) (r : string) : list output :=
  (if is_running c && (1 <=? verbose o)
   then [Print (tab +:+ "Stopping running container: " +:+ Id c)] else [])
  ++ (if 1 <=? verbose o
      then [Print (tab +:+ "Renaming to " +:+ r +:+ " (id: " +:+ Id c +:+ ")")]
      else []).

(** A request of the reconciliation: a stop, a rename, or a listing of
    all containers of some name. *)
Definition is_reconcile_call (c : call) : Prop :=
  match c with
  | CStop _ | CRename _ _ | CContainers true _ => True
  | _ => False
  end.

(** ** Examples *)

(** [-u alice -d . --no-build] with the given verbosity and wait. *)
Definition run_only (v w : Z) : options :=
  {| user := "alice"; dir := "."; cache := true; pull := true; rm := false;
     detach := true; env := "dev"; wait := w; push := false; run := true;
     build := false; repo_name := "benjilev08"; port := []; volume := [];
     dockerfile := None; verbose := v |}.

(** A daemon whose next process exits after [n] seconds. *)
Definition short_lived (cs : list container) (n : nat) : fake :=
  {| fk_containers := cs; fk_uptime := ∅; fk_clock := 1700000000;
     fk_next_uptime := Some n; fk_build := good_build; fk_tag := Reply true;
     fk_push := Reply (Stream [] None) |}.

(** The example of the spec: 'alice_dev', running, created at T1, and a
    container left by an earlier disambiguation under 'alice_dev_<T1>'. *)
Definition T1 : Z := 1577934245.

Definition alice_dev : container :=
  {| Id := "4f2a"; Name := "alice_dev"; State := "running"; Created := T1 |}.

Definition alice_dev_old : container :=
  {| Id := "9c1e"; Name := "alice_dev_2020-01-02_03_04_05"; State := "exited";
     Created := T1 |}.

(** A container that holds the canonical name and has exited. *)
Definition alice_dev_exited : container :=
  {| Id := "b7d0"; Name := "alice_dev"; State := "exited"; Created := T1 |}.

(** A running container under the canonical name whose creation time is
    the first second of year 10000, which [datetime] cannot hold. *)
Definition alice_dev_undated : container :=
  {| Id := "e3c5"; Name := "alice_dev"; State := "running";
     Created := 253402300800 |}.

(** ** Vocabulary of the further properties *)

(** A request about the image: build, tag or push. *)
Definition is_image_call (c : call) : Prop :=
  match c with
  | CBuild _ | CTag _ _ _ | CPush _ _ => True
  | _ => False
  end.

(** A listing of the running containers, as the countdown issues it. *)
Definition is_poll (c : call) : bool :=
  match c with
  | CContainers false _ => true
  | _ => false
  end.

(** A program that prints nothing. *)
Definition silent {D A : Type} (m : M D A) : Prop :=
  ∀ w : world D, stdout (snd (m w)) = stdout w.

(** [-u alice -d . --no-build -vv] with the given --port entries. *)
Definition with_ports (ps : list string) : options :=
  {| user := "alice"; dir := "."; cache := true; pull := true; rm := false;
     detach := true; env := "dev"; wait := 5; push := false; run := true;
     build := false; repo_name := "benjilev08"; port := ps; volume := [];
     dockerfile := None; verbose := 2 |}.

(** [-u alice -d . --no-run --push -v]. *)
Definition build_and_push : options :=
  {| user := "alice"; dir := "."; cache := true; pull := true; rm := false;
     detach := true; env := "dev"; wait := 5; push := true; run := false;
     build := true; repo_name := "benjilev08"; port := []; volume := [];
     dockerfile := None; verbose := 1 |}.

(** [-u alice -d . --no-detach -v]: build, then run without detaching, with
    the log shown. *)
Definition build_no_detach : options :=
  {| user := "alice"; dir := "."; cache := true; pull := true; rm := false;
     detach := false; env := "dev"; wait := 5; push := false; run := true;
     build := true; repo_name := "benjilev08"; port := []; volume := [];
     dockerfile := None; verbose := 1 |}.

(** A program all of whose requests satisfy [P]. *)
Definition issues {D A : Type} (P : call → Prop) (m : M D A) : Prop :=
  ∀ w : world D, ∃ l, calls (snd (m w)) = calls w ++ l ∧ Forall P l.

(** * Properties *)

(** ** Running the monad *)

Section Laws.
Context {D : Type} {docker : Docker D} {local_time : LocalTime}.

Lemma bind_unfold {A B} (m : M D A) (k : A → M D B) (w : world D) :
  (m ≫= k) w =
  match m w with
  | (Done a, w') => k a w'
  | (Raised e, w') => (Raised e, w')
  | (OutOfFuel, w') => (OutOfFuel, w')
  end.
Proof. reflexivity. Qed.

Lemma bind_done {A B} (m : M D A) (k : A → M D B) w a w' :
  m w = (Done a, w') → (m ≫= k) w = k a w'.
Proof. intros E. rewrite bind_unfold, E. reflexivity. Qed.

Lemma bind_raised {A B} (m : M D A) (k : A → M D B) w e w' :
  m w = (Raised e, w') → (m ≫= k) w = (Raised e, w').
Proof. intros E. rewrite bind_unfold, E. reflexivity. Qed.

Lemma when_true (m : M D unit) : when true m = m.
Proof. reflexivity. Qed.

Lemma when_false (m : M D unit) w : when false m w = (Done tt, w).
Proof. reflexivity. Qed.

Lemma emit_eq (o : output) (w : world D) :
  emit o w = (Done tt, World (daemon w) (calls w) (stdout w ++ [o])).
Proof. reflexivity. Qed.

Lemma request_reply {A} c (op : D → reply A * D) w a d' :
  op (daemon w) = (Reply a, d') →
  request c op w = (Done a, World d' (calls w ++ [c]) (stdout w)).
Proof. intros E. unfold request. rewrite E. reflexivity. Qed.

Lemma request_fail {A} c (op : D → reply A * D) w f d' :
  op (daemon w) = (Fail f, d') →
  request c op w = (Raised (exn_of_failure f), World d' (calls w ++ [c]) (stdout w)).
Proof. intros E. unfold request. rewrite E. reflexivity. Qed.

End Laws.

(** ** Strings *)

Lemma app_cons (x : ascii) (a b : string) :
  String.String x a +:+ b = String.String x (a +:+ b).
Proof. reflexivity. Qed.

Lemma app_nil_l (b : string) : "" +:+ b = b.
Proof. reflexivity. Qed.

Lemma length_app (a b : string) :
  String.length (a +:+ b) = (String.length a + String.length b)%nat.
Proof.
  induction a as [|c a IH]; [reflexivity|]. rewrite app_cons. simpl. now rewrite IH.
Qed.

Lemma app_assoc_s (a b c : string) : (a +:+ b) +:+ c = a +:+ (b +:+ c).
Proof.
  induction a as [|x a IH]; [reflexivity|]. rewrite !app_cons. now rewrite IH.
Qed.

Lemma prefix_spec (n h : string) :
  String.prefix n h = true ↔ ∃ b, h = n +:+ b.
Proof.
  revert h. induction n as [|c n IH]; intros h.
  - split; [intros _; exists h; reflexivity | intros _; now destruct h].
  - destruct h as [|c' h]; simpl.
    + split; [discriminate | intros [b Hb]; discriminate].
    + destruct (Ascii.ascii_dec c c') as [->|Hne].
      * rewrite IH. split; intros [b Hb]; exists b;
          rewrite ?app_cons in *; congruence.
      * split; [discriminate | intros [b Hb]; rewrite app_cons in Hb; congruence].
Qed.

(** [contains] is substring occurrence, as Python's [in]. *)
Lemma contains_spec (n h : string) :
  contains n h = true ↔ ∃ a b, h = a +:+ n +:+ b.
Proof.
  induction h as [|c h IH].
  - change (contains n "") with (String.prefix n "" || false).
    rewrite orb_false_r, prefix_spec. split.
    + intros [b Hb]. exists "", b. exact Hb.
    + intros [a [b Hb]]. destruct a; [exists b; exact Hb | discriminate].
  - change (contains n (String.String c h))
      with (String.prefix n (String.String c h) || contains n h).
    rewrite orb_true_iff, prefix_spec, IH. split.
    + intros [[b Hb] | [a [b Hb]]].
      * exists "", b. exact Hb.
      * exists (String.String c a), b. rewrite app_cons. now rewrite Hb.
    + intros [a [b Hb]]. destruct a as [|c' a].
      * left. exists b. exact Hb.
      * right. exists a, b. rewrite app_cons in Hb. congruence.
Qed.

Lemma replace_app (x y : ascii) (a b : string) :
  replace x y (a +:+ b) = replace x y a +:+ replace x y b.
Proof.
  induction a as [|c a IH]; [reflexivity|].
  rewrite app_cons. simpl. rewrite app_cons. now rewrite IH.
Qed.

Lemma replace_length (x y : ascii) (s : string) :
  String.length (replace x y s) = String.length s.
Proof. induction s as [|c s IH]; simpl; [reflexivity | now rewrite IH]. Qed.

Lemma name_safe_app (a b : string) :
  name_safe (a +:+ b) = name_safe a +:+ name_safe b.
Proof. unfold name_safe. now rewrite !replace_app. Qed.

Lemma name_safe_length (s : string) :
  String.length (name_safe s) = String.length s.
Proof. unfold name_safe. now rewrite !replace_length. Qed.

Lemma name_safe_idem (s : string) : name_safe (name_safe s) = name_safe s.
Proof.
  unfold name_safe. induction s as [|c s IH]; simpl; [reflexivity|].
  rewrite IH. f_equal.
  destruct (Ascii.eqb_spec c " ") as [->|H1]; [reflexivity|].
  destruct (Ascii.eqb_spec c ":") as [->|H2]; [reflexivity|].
  destruct (Ascii.eqb_spec c " "); [contradiction|].
  destruct (Ascii.eqb_spec c ":"); [contradiction|]. reflexivity.
Qed.

Lemma valid_name_safe (s : string) : valid_name (name_safe s) = true.
Proof. unfold valid_name. rewrite name_safe_idem. apply String.eqb_refl. Qed.

Lemma valid_name_eq (s : string) : valid_name s = true → name_safe s = s.
Proof. unfold valid_name. apply String.eqb_eq. Qed.

Lemma name_safe_digit (x : N) (s : string) :
  name_safe (String.String (pretty_N_char x) s)
  = String.String (pretty_N_char x) (name_safe s).
Proof. unfold pretty_N_char. repeat case_match; reflexivity. Qed.

Lemma name_safe_pretty_N_go (x : N) (s : string) :
  name_safe s = s → name_safe (pretty_N_go x s) = pretty_N_go x s.
Proof.
  revert s. induction (N.lt_wf_0 x) as [x _ IH]; intros s Hs.
  destruct (decide (x = 0)%N) as [->|Hx].
  - now rewrite pretty_N_go_0.
  - rewrite pretty_N_go_step by lia. apply IH.
    + apply N.div_lt; lia.
    + now rewrite name_safe_digit, Hs.
Qed.

Lemma name_safe_pretty_N (x : N) : name_safe (pretty x) = pretty x.
Proof.
  unfold pretty, pretty_N. case_decide; [reflexivity|].
  now apply name_safe_pretty_N_go.
Qed.

(** A decimal numeral has no space and no colon. *)
Lemma name_safe_str_int (z : Z) : name_safe (str_int z) = str_int z.
Proof.
  unfold str_int, pretty, pretty_Z. destruct z as [|p|p].
  - reflexivity.
  - apply (name_safe_pretty_N (Npos p)).
  - rewrite name_safe_app. f_equal. apply (name_safe_pretty_N (Npos p)).
Qed.

Lemma str_int_inj (a b : Z) : str_int a = str_int b → a = b.
Proof. apply pretty_Z_inj. Qed.

Lemma name_filter_inj (a b : string) : name_filter a = name_filter b → a = b.
Proof.
  unfold name_filter. intros E. apply (inj (String.app "^")) in E.
  revert b E. induction a as [|c a IH]; intros [|c' b] E; simpl in E.
  - reflexivity.
  - destruct b; discriminate.
  - destruct a; discriminate.
  - injection E as -> E. f_equal. now apply IH.
Qed.

(** ** The build, push and top-level steps, for every daemon *)

Section Loops.
Context {D : Type} {docker : Docker D} {local_time : LocalTime}.

Lemma print_eq (text : string) (w : world D) :
  print text w = (Done tt, World (daemon w) (calls w) (stdout w ++ [Print text])).
Proof. reflexivity. Qed.

Lemma world_eta (w : world D) : World (daemon w) (calls w) (stdout w) = w.
Proof. now destruct w. Qed.

Lemma print_args_eq (kvs : list (string * pyval)) (w : world D) :
  print_args kvs w =
  (Done tt, World (daemon w) (calls w)
                  (stdout w ++ map (λ kv, PrintArg kv.1 kv.2) kvs)).
Proof.
  revert w. induction kvs as [|[k v] kvs IH]; intros w; simpl.
  - now rewrite app_nil_r, world_eta.
  - rewrite bind_unfold, emit_eq, IH. simpl. now rewrite <- app_assoc.
Qed.

Lemma build_log_eq (image : list event) (b : bool) (w : world D) :
  build_log image b w =
  (Done (b || has_marker image),
   World (daemon w) (calls w) (stdout w ++ build_log_output image)).
Proof.
  revert b w. induction image as [|i image IH]; intros b w; simpl.
  - now rewrite orb_false_r, app_nil_r, world_eta.
  - unfold build_log_output. simpl. destruct (i !! "stream") as [text|]; simpl.
    + rewrite bind_unfold, emit_eq, IH. simpl. rewrite <- app_assoc. simpl.
      f_equal. f_equal.
      destruct (contains "Successfully built" text), b; reflexivity.
    + now rewrite IH.
Qed.

Lemma push_log_output_cons (o : options) (line : event) (lines : list event) :
  push_log_output o (line :: lines) =
  match (2 <=? verbose o), line !! "status", line !! "progressDetail" with
  | true, Some status, Some detail => [Print (tab +:+ status +:+ ": " +:+ detail)]
  | _, _, _ => []
  end ++ push_log_output o lines.
Proof.
  unfold push_log_output. simpl.
  destruct (2 <=? verbose o), (line !! "status"), (line !! "progressDetail");
    reflexivity.
Qed.

Lemma push_log_eq (o : options) (lines : list event) (w : world D) :
  push_log o lines w =
  (Done tt, World (daemon w) (calls w) (stdout w ++ push_log_output o lines)).
Proof.
  revert w. induction lines as [|line lines IH]; intros w.
  - simpl. now rewrite app_nil_r, world_eta.
  - rewrite push_log_output_cons. cbn [push_log]. rewrite bind_unfold.
    destruct (2 <=? verbose o), (line !! "status"), (line !! "progressDetail");
      rewrite ?print_eq; cbn [mret M_ret]; rewrite IH; cbn [daemon calls stdout];
      rewrite <- ?app_assoc, ?world_eta; reflexivity.
Qed.

End Loops.

(** Unfold the monad and the requests, so that a step reads as a
    cascade of matches on the daemon's answers. *)
Ltac mrun :=
  cbv beta delta [mbind M_bind mret M_ret raise request when print emit
    api_build api_tag api_push api_containers api_stop api_rename
    containers_run sleep try_except_APIError try_except_BuildRunError
    end_of_stream out_of_fuel] iota zeta.

Ltac mloops :=
  rewrite ?print_args_eq, ?build_log_eq, ?push_log_eq;
  cbn [daemon calls stdout fst snd].

Section Generic.
Context {D : Type} {docker : Docker D} {local_time : LocalTime}.

(** *** The build step *)

(** The build request is the only request of the step, whatever comes back. *)
Lemma build_step_calls (o : options) (w : world D) :
  calls (snd (build_step o w)) = calls w ++ [CBuild (build_kwargs o)].
Proof.
  unfold build_step. mrun.
  destruct (2 <=? verbose o); mloops;
    (destruct (daemon_build (build_kwargs o) (daemon w)) as [[s|f] d']; [|reflexivity]);
    (destruct (1 <=? verbose o); [|reflexivity]); mloops;
    (destruct (fault s); [reflexivity|]);
    destruct (has_marker (items s)); reflexivity.
Qed.

(** With the log shown (verbose >= 1) and a stream that ends normally, the
    step fails exactly when no event carries the marker. *)
Lemma build_step_verbose (o : options) (w : world D) (s : stream) (d' : D) :
  1 ≤ verbose o →
  daemon_build (build_kwargs o) (daemon w) = (Reply s, d') →
  fault s = None →
  fst (build_step o w) =
  if has_marker (items s) then Done tt
  else Raised (BuildRunError 101 "Build Failed").
Proof.
  intros Hv Hb Hf. unfold build_step. mrun.
  assert ((1 <=? verbose o) = true) as -> by lia.
  destruct (2 <=? verbose o); mloops; rewrite Hb; mloops; rewrite Hf;
    destruct (has_marker (items s)); reflexivity.
Qed.

(** With the log hidden (verbose < 1) the events are never read, and the
    step fails whatever the stream holds. *)
Lemma build_step_quiet (o : options) (w : world D) (s : stream) (d' : D) :
  verbose o < 1 →
  daemon_build (build_kwargs o) (daemon w) = (Reply s, d') →
  build_step o w =
  (Raised (BuildRunError 101 "Build Failed"),
   World d' (calls w ++ [CBuild (build_kwargs o)]) (stdout w)).
Proof.
  intros Hv Hb. unfold build_step. mrun.
  assert ((1 <=? verbose o) = false) as -> by lia.
  assert ((2 <=? verbose o) = false) as -> by lia.
  now rewrite Hb.
Qed.

(** *** The push step *)

Lemma push_step_tag_false (o : options) (w : world D) (d' : D) :
  daemon_tag (tag o) (repo_name o +:+ "/" +:+ user o) (env o) (daemon w)
    = (Reply false, d') →
  push_step o w =
  (Raised (BuildRunError 102 ("Failed to tag image as " +:+ push_target o)),
   World d' (calls w ++ [CTag (tag o) (repo_name o +:+ "/" +:+ user o) (env o)])
         (stdout w)).
Proof. intros Ht. unfold push_step. mrun. now rewrite Ht. Qed.

Lemma push_step_tag_fail (o : options) (w : world D) (f : failure) (d' : D) :
  daemon_tag (tag o) (repo_name o +:+ "/" +:+ user o) (env o) (daemon w)
    = (Fail f, d') →
  push_step o w =
  (Raised (exn_of_failure f),
   World d' (calls w ++ [CTag (tag o) (repo_name o +:+ "/" +:+ user o) (env o)])
         (stdout w)).
Proof. intros Ht. unfold push_step. mrun. now rewrite Ht. Qed.

(** After a successful tag the step issues the push request and ends as
    the push stream ends. *)
Lemma push_step_tagged (o : options) (w : world D) (d1 d2 : D) (r : reply stream) :
  daemon_tag (tag o) (repo_name o +:+ "/" +:+ user o) (env o) (daemon w)
    = (Reply true, d1) →
  daemon_push (repo_name o +:+ "/" +:+ user o) (env o) d1 = (r, d2) →
  calls (snd (push_step o w)) =
    calls w ++ [CTag (tag o) (repo_name o +:+ "/" +:+ user o) (env o);
                CPush (repo_name o +:+ "/" +:+ user o) (env o)] ∧
  daemon (snd (push_step o w)) = d2 ∧
  fst (push_step o w) =
    match stream_failure r with
    | None => Done tt
    | Some (ApiFailure _) =>
        Raised (BuildRunError 103 ("Failed to push " +:+ push_target o))
    | Some (OtherFailure what) => Raised (OtherError what)
    end.
Proof.
  intros Ht Hp. unfold push_step. mrun. rewrite Ht.
  destruct (1 <=? verbose o); mloops; rewrite Hp;
    (destruct r as [s|[e|what]]; cbn [stream_failure exn_of_failure];
     [mloops; destruct (fault s) as [[e|what]|]; cbn [exn_of_failure]|..]);
    rewrite <- ?app_assoc; auto.
Qed.

End Generic.

(** ** Every step only appends requests and raises only expected exceptions *)

Section Tidy.
Context {D : Type} {docker : Docker D} {local_time : LocalTime}.
Variable P : exn → Prop.
Hypothesis P_failure : ∀ f, P (exn_of_failure f).

Lemma tidy_ret {A} (a : A) : tidy (D:=D) P (mret a).
Proof. intros w. split; [exists []; simpl; now rewrite app_nil_r | discriminate]. Qed.

Lemma tidy_raise {A} (e : exn) : P e → tidy (D:=D) (A:=A) P (raise e).
Proof.
  intros He w. split; [exists []; simpl; now rewrite app_nil_r|].
  simpl. intros e' [= <-]. exact He.
Qed.

Lemma tidy_out_of_fuel {A} : tidy (D:=D) (A:=A) P out_of_fuel.
Proof. intros w. split; [exists []; simpl; now rewrite app_nil_r | discriminate]. Qed.

Lemma tidy_bind {A B} (m : M D A) (k : A → M D B) :
  tidy P m → (∀ a, tidy P (k a)) → tidy P (m ≫= k).
Proof.
  intros Hm Hk w. destruct (Hm w) as [[cs Hcs] He]. rewrite bind_unfold.
  destruct (m w) as [[a|e|] w1]; simpl in *.
  - destruct (Hk a w1) as [[cs' Hcs'] He']. split; [|exact He'].
    exists (cs ++ cs'). now rewrite Hcs', Hcs, app_assoc.
  - split; [eauto|]. intros e' [= <-]. now apply He.
  - split; [eauto|discriminate].
Qed.

Lemma tidy_emit (o : output) : tidy (D:=D) P (emit o).
Proof. intros w. split; [exists []; simpl; now rewrite app_nil_r | discriminate]. Qed.

Lemma tidy_print (text : string) : tidy (D:=D) P (print text).
Proof. apply tidy_emit. Qed.

Lemma tidy_sleep (secs : Z) : tidy P (sleep secs).
Proof. intros w. split; [eexists; reflexivity | discriminate]. Qed.

Lemma tidy_request {A} (c : call) (op : D → reply A * D) : tidy P (request c op).
Proof.
  intros w. unfold request. destruct (op (daemon w)) as [[a|f] d']; simpl.
  - split; [eexists; reflexivity | discriminate].
  - split; [eexists; reflexivity | intros e [= <-]; apply P_failure].
Qed.

Lemma tidy_when (b : bool) (m : M D unit) : tidy P m → tidy P (when b m).
Proof. intros Hm. destruct b; [exact Hm | apply tidy_ret]. Qed.

Lemma tidy_try_APIError {A} (m h : M D A) :
  tidy P m → tidy P h → tidy P (try_except_APIError m h).
Proof.
  intros Hm Hh w. unfold try_except_APIError.
  destruct (Hm w) as [[cs Hcs] He].
  destruct (m w) as [[a|e|] w1]; simpl in *; try (split; [eauto|]; eauto; fail).
  destruct e; try (split; [eauto|]; eauto; fail).
  destruct (Hh w1) as [[cs' Hcs'] He']. split; [|exact He'].
  exists (cs ++ cs'). now rewrite Hcs', Hcs, app_assoc.
Qed.

Lemma tidy_print_args kvs : tidy (D:=D) P (print_args kvs).
Proof.
  intros w. rewrite print_args_eq. split; [exists []; simpl; now rewrite app_nil_r | discriminate].
Qed.

Lemma tidy_build_log image b : tidy (D:=D) P (build_log image b).
Proof.
  intros w. rewrite build_log_eq. split; [exists []; simpl; now rewrite app_nil_r | discriminate].
Qed.

Lemma tidy_push_log o lines : tidy (D:=D) P (push_log o lines).
Proof.
  intros w. rewrite push_log_eq. split; [exists []; simpl; now rewrite app_nil_r | discriminate].
Qed.

Lemma tidy_end_of_stream s : tidy (D:=D) P (end_of_stream s).
Proof.
  unfold end_of_stream. destruct (fault s); [apply tidy_raise, P_failure | apply tidy_ret].
Qed.

End Tidy.

Ltac tidy_step :=
  match goal with
  | |- tidy _ (_ ≫= _) => apply tidy_bind; [|intros ?]
  | |- tidy _ (mret _) => apply tidy_ret
  | |- tidy _ (emit _) => apply tidy_emit
  | |- tidy _ (print _) => apply tidy_print
  | |- tidy _ (sleep _) => apply tidy_sleep
  | |- tidy _ (request _ _) => apply tidy_request
  | |- tidy _ (when _ _) => apply tidy_when
  | |- tidy _ out_of_fuel => apply tidy_out_of_fuel
  | |- tidy _ (print_args _) => apply tidy_print_args
  | |- tidy _ (build_log _ _) => apply tidy_build_log
  | |- tidy _ (push_log _ _) => apply tidy_push_log
  | |- tidy _ (end_of_stream _) => apply tidy_end_of_stream
  | |- tidy _ (try_except_APIError _ _) => apply tidy_try_APIError
  | |- tidy _ (raise _) => apply tidy_raise
  | |- tidy _ (match ?x with _ => _ end) => destruct x
  end.

Ltac tidy_auto := repeat (tidy_step; try assumption; try exact I).

Section TidySteps.
Context {D : Type} {docker : Docker D} {local_time : LocalTime}.
Variable P : exn → Prop.
Hypothesis P_failure : ∀ f, P (exn_of_failure f).
Hypothesis P_index : P IndexError.
Hypothesis P_attribute : P AttributeError.
Hypothesis P_timestamp : P TimestampError.

Lemma tidy_timestamp t : tidy P (timestamp (D:=D) t).
Proof. unfold timestamp. tidy_auto. Qed.

Lemma tidy_rename_candidate n c : tidy P (rename_candidate (D:=D) n c).
Proof.
  unfold rename_candidate.
  apply tidy_bind; [apply tidy_timestamp | intros ?; apply tidy_ret].
Qed.

Lemma tidy_rename_numbered n c count : tidy P (rename_numbered (D:=D) n c count).
Proof.
  unfold rename_numbered.
  apply tidy_bind; [apply tidy_timestamp | intros ?; apply tidy_ret].
Qed.

Lemma tidy_find_free fuel n c rename count :
  tidy P (find_free fuel n c rename count).
Proof.
  revert rename count. induction fuel as [|fuel IH]; intros rename count; simpl.
  - apply tidy_out_of_fuel.
  - unfold api_containers.
    apply tidy_bind; [tidy_auto | intros [|? ?]; [apply tidy_ret|]].
    apply tidy_bind; [apply tidy_rename_numbered | intros ?; apply IH].
Qed.

Lemma tidy_reconcile_one fuel o c : tidy P (reconcile_one fuel o c).
Proof.
  unfold reconcile_one, api_stop, api_rename.
  apply tidy_bind; [tidy_auto | intros _].
  apply tidy_bind; [apply tidy_rename_candidate | intros ?].
  apply tidy_bind; [apply tidy_find_free | intros ?].
  tidy_auto.
Qed.

Lemma tidy_reconcile_all fuel o cs : tidy P (reconcile_all fuel o cs).
Proof.
  induction cs as [|c cs IH]; simpl; [apply tidy_ret|].
  apply tidy_bind; [apply tidy_reconcile_one | intros _; exact IH].
Qed.

Lemma tidy_reconcile fuel o : tidy P (reconcile fuel o).
Proof.
  unfold reconcile, api_containers. tidy_auto. apply tidy_reconcile_all.
Qed.

Lemma tidy_liveness_poll n nm wait : tidy P (liveness_poll n nm wait).
Proof.
  revert wait. induction n as [|n IH]; intros wait; simpl.
  - destruct (0 <=? wait); [apply tidy_out_of_fuel | apply tidy_ret].
  - destruct (0 <=? wait); [|apply tidy_ret].
    unfold api_containers. tidy_auto. apply IH.
Qed.

Lemma tidy_report_and_wait o container : tidy P (report_and_wait o container).
Proof.
  unfold report_and_wait. tidy_auto. apply tidy_liveness_poll.
Qed.

Lemma tidy_launch fuel o : tidy P (launch fuel o).
Proof.
  unfold launch, containers_run. tidy_auto. apply tidy_reconcile.
Qed.

Lemma tidy_run_step fuel o : tidy P (run_step fuel o).
Proof.
  unfold run_step. tidy_auto; [apply tidy_launch | apply tidy_report_and_wait].
Qed.

End TidySteps.

(** ** The whole of [BuildRun.main] *)

Section Main.
Context {D : Type} {docker : Docker D} {local_time : LocalTime}.

Lemma expected_failure (o : options) (f : failure) :
  expected_exn o (exn_of_failure f).
Proof. destruct f; exact I. Qed.

Lemma tidy_build_step (o : options) : tidy (expected_exn o) (build_step o).
Proof.
  pose proof (expected_failure o) as Hf.
  unfold build_step, api_build. tidy_auto.
  simpl. unfold tool_errors. apply list_elem_of_here.
Qed.

Lemma tidy_push_step (o : options) : tidy (expected_exn o) (push_step o).
Proof.
  pose proof (expected_failure o) as Hf.
  unfold push_step, api_tag, api_push. tidy_auto.
  - simpl. unfold tool_errors, push_target. do 1 apply list_elem_of_further.
    apply list_elem_of_here.
  - simpl. unfold tool_errors, push_target. do 2 apply list_elem_of_further.
    apply list_elem_of_here.
Qed.

Lemma tidy_BuildRun_main (fuel : nat) (o : options) :
  tidy (expected_exn o) (BuildRun_main fuel o).
Proof.
  pose proof (expected_failure o) as Hf.
  unfold BuildRun_main. tidy_auto.
  - apply tidy_build_step.
  - now apply tidy_run_step.
  - apply tidy_push_step.
Qed.

(** The first request of a run that builds is the build request. *)
Lemma BuildRun_main_build_first (fuel : nat) (o : options) (w : world D) :
  build o = true →
  ∃ rest, calls (snd (BuildRun_main fuel o w))
          = calls w ++ CBuild (build_kwargs o) :: rest.
Proof.
  intros Hb. unfold BuildRun_main. rewrite Hb, when_true, bind_unfold.
  pose proof (build_step_calls o w) as Hc.
  destruct (build_step o w) as [[[]|e|] w1]; simpl in Hc;
    try (exists []; simpl; exact Hc).
  assert (tidy (expected_exn o)
            (when (run o) (run_step fuel o);; when (push o) (push_step o)))
    as Ht.
  { pose proof (expected_failure o). tidy_auto.
    - now apply tidy_run_step.
    - apply tidy_push_step. }
  destruct (Ht w1) as [[cs Hcs] _]. exists cs.
  rewrite Hcs, Hc, <- app_assoc. reflexivity.
Qed.

(** [main] prints a tool error and ends normally; anything else it
    leaves as it is. *)
Lemma main_unfold (fuel : nat) (o : options) (w : world D) :
  main fuel o w =
  match BuildRun_main fuel o w with
  | (Raised (BuildRunError code message), w') =>
      (Done tt, World (daemon w') (calls w')
                      (stdout w' ++ [Print (BuildRunError_str code message)]))
  | r => r
  end.
Proof.
  unfold main, try_except_BuildRunError.
  destruct (BuildRun_main fuel o w) as [[[]|[]|] w']; reflexivity.
Qed.

End Main.

(** ** The countdown after the start *)

Section Poll.
Context {D : Type} {docker : Docker D} {local_time : LocalTime}.

Lemma poll_state_S (nm : string) (k : nat) (d : D) :
  poll_state nm (S k) d = poll_state nm k (after_round nm d).
Proof. unfold poll_state. now rewrite Nat.iter_succ_r. Qed.

Lemma is_listed_answer (nm : string) (d : D) :
  is_listed nm d = true →
  ∃ c cs, fst (daemon_containers false (name_filter nm) d) = Reply (c :: cs).
Proof.
  unfold is_listed, poll_answer.
  destruct (fst (daemon_containers false (name_filter nm) d)) as [[|c cs]|f];
    try discriminate. eauto.
Qed.

Lemma is_absent_answer (nm : string) (d : D) :
  is_absent nm d = true →
  fst (daemon_containers false (name_filter nm) d) = Reply [].
Proof.
  unfold is_absent, poll_answer.
  destruct (fst (daemon_containers false (name_filter nm) d)) as [[|c cs]|f];
    try discriminate. reflexivity.
Qed.

(** The countdown, round by round: [n] is the number of rounds the window
    allows, [k] the number of polls that find the name. *)
Lemma liveness_poll_eq (nm : string) (n : nat) :
  ∀ (k : nat) (wait : Z) (w : world D),
    n = Z.to_nat (wait + 1) →
    (k ≤ n)%nat →
    (∀ j, (j < k)%nat → is_listed nm (poll_state nm j (daemon w)) = true) →
    (k = n ∨ is_absent nm (poll_state nm k (daemon w)) = true) →
    liveness_poll n nm wait w
    = (Done (bool_decide (k = n)), countdown_end nm wait n k w).
Proof.
  induction n as [|n IH]; intros k wait w Hn Hk Hlisted Hend.
  - assert (k = 0%nat) as -> by lia.
    assert ((0 <=? wait) = false) as Hw by lia.
    unfold countdown_end. simpl. rewrite Hw. simpl.
    now rewrite !app_nil_r, world_eta.
  - assert ((0 <=? wait) = true) as Hw by lia.
    cbn [liveness_poll]. rewrite Hw. unfold api_containers. mrun.
    destruct k as [|k].
    + destruct Hend as [Hend|Hend]; [discriminate|].
      apply is_absent_answer in Hend. simpl in Hend.
      unfold countdown_end. simpl.
      destruct (daemon_containers false (name_filter nm) (daemon w)) as [r d1].
      simpl in Hend. subst r. simpl. rewrite Z.sub_0_r. reflexivity.
    + pose proof (Hlisted 0%nat ltac:(lia)) as H0.
      apply is_listed_answer in H0 as (c & cs & H0). simpl in H0.
      destruct (daemon_containers false (name_filter nm) (daemon w)) as [r d1] eqn:Hd.
      simpl in H0. subst r. cbn [daemon calls stdout].
      set (w1 := World (daemon_sleep 1 d1)
                   ((calls w ++ [CContainers false (name_filter nm)]) ++ [CSleep 1])
                   (stdout w ++ [PrintNoEnd (cr +:+ tab +:+ str_int wait +:+ ": Running")])).
      assert (daemon w1 = after_round nm (daemon w)) as Hw1.
      { unfold after_round. now rewrite Hd. }
      rewrite (IH k (wait - 1) w1); [|lia|lia| |].
      * f_equal.
        { f_equal. apply bool_decide_ext. lia. }
        unfold countdown_end. rewrite Hw1, <- !poll_state_S.
        destruct (decide (k = n)) as [->|Hne].
        -- rewrite decide_True by reflexivity. simpl. f_equal.
           ++ now rewrite <- !app_assoc.
           ++ now rewrite <- !app_assoc.
        -- rewrite decide_False by lia. simpl. f_equal.
           ++ now rewrite <- !app_assoc.
           ++ rewrite <- !app_assoc. simpl.
              replace (wait - 1 - Z.of_nat k) with (wait - Z.of_nat (S k)) by lia.
              reflexivity.
      * intros j Hj. rewrite Hw1, <- poll_state_S. apply Hlisted. lia.
      * destruct Hend as [Hend|Hend]; [left; lia | right].
        now rewrite Hw1, <- poll_state_S.
Qed.

(** The whole of lines 103-122 for a container object. *)
Lemma report_and_wait_eq (o : options) (id : string) (k : nat) (w : world D) :
  let n := Z.to_nat (wait o + 1) in
  (k ≤ n)%nat →
  (∀ j, (j < k)%nat → is_listed (name o) (poll_state (name o) j (daemon w)) = true) →
  (k = n ∨ is_absent (name o) (poll_state (name o) k (daemon w)) = true) →
  report_and_wait o (Handle id) w =
  (Done tt,
   let w1 := World (daemon w) (calls w) (stdout w ++ started_lines o id) in
   let w2 := countdown_end (name o) (wait o) n k w1 in
   World (daemon w2) (calls w2)
         (stdout w2 ++ if decide (k = n)
                       then [Print (cr +:+ tab +:+ "Success!     ")] else [])).
Proof.
  intros n Hk Hlisted Hend. unfold report_and_wait. mrun.
  cbn [daemon calls stdout].
  set (w1 := World (daemon w) (calls w) _).
  assert (w1 = World (daemon w) (calls w) (stdout w ++ started_lines o id)) as ->.
  { unfold w1, started_lines. now rewrite <- !app_assoc. }
  rewrite (liveness_poll_eq (name o) n k); [|reflexivity|exact Hk|exact Hlisted|exact Hend].
  destruct (decide (k = n)) as [Heq|Hne].
  - rewrite bool_decide_eq_true_2 by exact Heq. reflexivity.
  - rewrite bool_decide_eq_false_2 by exact Hne.
    now rewrite app_nil_r, world_eta.
Qed.

(** At verbosity 0 the run step ends with the run request. *)
Lemma run_step_quiet (fuel : nat) (o : options) (w : world D) :
  verbose o < 1 →
  run_step fuel o w =
  match launch fuel o w with
  | (Done _, w1) => (Done tt, w1)
  | (Raised e, w1) => (Raised e, w1)
  | (OutOfFuel, w1) => (OutOfFuel, w1)
  end.
Proof.
  intros Hv. unfold run_step. rewrite bind_unfold.
  assert ((1 <=? verbose o) = false) as -> by lia. reflexivity.
Qed.

End Poll.

(** ** Reconciliation against the model daemon *)

Section Fake.
Context {local_time : LocalTime}.

Lemma with_containers_id (d : fake) : with_containers d (fk_containers d) = d.
Proof. now destruct d. Qed.

Lemma existsb_has_id (id : string) (cs : list container) :
  existsb (has_id id) cs = true ↔ id ∈ Id <$> cs.
Proof.
  rewrite existsb_exists, list_elem_of_fmap. unfold has_id.
  split; intros [c [H1 H2]]; exists c.
  - apply list_elem_of_In in H1. apply String.eqb_eq in H2. now split.
  - apply list_elem_of_In in H2. split; [exact H2|]. apply String.eqb_eq. now symmetry.
Qed.

Lemma existsb_has_name (n : string) (cs : list container) :
  existsb (has_name n) cs = false ↔ n ∉ Name <$> cs.
Proof.
  rewrite <- not_true_iff_false, existsb_exists, list_elem_of_fmap. unfold has_name.
  split; intros Hn [c [H1 H2]]; apply Hn; exists c.
  - apply list_elem_of_In in H2. split; [exact H2|]. apply String.eqb_eq. now symmetry.
  - apply list_elem_of_In in H1. apply String.eqb_eq in H2. now split.
Qed.

Lemma holders_nil (n : string) (cs : list container) :
  holders n cs = [] ↔ n ∉ Name <$> cs.
Proof.
  unfold holders. rewrite list_elem_of_fmap. split.
  - intros Hf [c [-> Hc]].
    apply (filter_nil_not_elem_of _ _ c Hf); [|exact Hc].
    unfold has_name. apply String.eqb_refl.
  - intros Hn. induction cs as [|c cs IH]; [reflexivity|].
    rewrite filter_cons_False.
    + apply IH. intros [c' [-> Hc']]. apply Hn. exists c'. split; [reflexivity|].
      now apply list_elem_of_further.
    + unfold has_name. intros Hc%String.eqb_eq. apply Hn. exists c.
      split; [now symmetry | apply list_elem_of_here].
Qed.

Lemma holders_cons_inv (n : string) (cs : list container) c rest :
  holders n cs = c :: rest → n ∈ Name <$> cs.
Proof.
  intros Hh. destruct (decide (n ∈ Name <$> cs)) as [Hin|Hn]; [exact Hin|].
  apply holders_nil in Hn. congruence.
Qed.

(** A listing with [all=True] and the filter [^r$] answers with the
    containers named [r]. *)
Lemma listing_all (r : string) (cs : list container) :
  filter (λ c, listed true (name_filter r) c = true) cs = holders r cs.
Proof.
  unfold holders. apply list_filter_iff. intros c.
  unfold listed, matches, has_name. rewrite andb_true_r, !String.eqb_eq.
  split; [intros E%name_filter_inj; now symmetry | now intros ->].
Qed.

Lemma api_containers_fake (r : string) (w : world fake) :
  api_containers true (name_filter r) w =
  (Done (holders r (fk_containers (daemon w))),
   World (daemon w) (calls w ++ [CContainers true (name_filter r)]) (stdout w)).
Proof. unfold api_containers, request. simpl. now rewrite listing_all. Qed.

Lemma names_update_state (id st : string) (cs : list container) :
  Name <$> update id (set_state st) cs = Name <$> cs.
Proof.
  unfold update. rewrite <- list_fmap_compose. apply list_fmap_ext.
  intros i c _. simpl. now destruct (has_id id c).
Qed.

Lemma ids_update (id : string) (f : container → container) (cs : list container) :
  (∀ c, Id (f c) = Id c) → Id <$> update id f cs = Id <$> cs.
Proof.
  intros Hf. unfold update. rewrite <- list_fmap_compose. apply list_fmap_ext.
  intros i c _. simpl. destruct (has_id id c); [apply Hf | reflexivity].
Qed.

Lemma names_stopped (c : container) (cs : list container) :
  Name <$> stopped c cs = Name <$> cs.
Proof. unfold stopped. destruct (is_running c); [apply names_update_state | reflexivity]. Qed.

Lemma ids_stopped (c : container) (cs : list container) :
  Id <$> stopped c cs = Id <$> cs.
Proof. unfold stopped. destruct (is_running c); [now apply ids_update | reflexivity]. Qed.

Lemma ids_renamed (c : container) (r : string) (cs : list container) :
  Id <$> renamed c r cs = Id <$> cs.
Proof. unfold renamed. rewrite ids_update by reflexivity. apply ids_stopped. Qed.

Lemma created_renamed (c : container) (r : string) (cs : list container) :
  Created <$> renamed c r cs = Created <$> cs.
Proof.
  unfold renamed, stopped, update.
  destruct (is_running c); rewrite <- !list_fmap_compose; apply list_fmap_ext;
    intros i x _; simpl; repeat (destruct (has_id _ _); simpl); reflexivity.
Qed.

Lemma length_renamed (c : container) (r : string) (cs : list container) :
  length (renamed c r cs) = length cs.
Proof. rewrite <- (length_fmap Id), ids_renamed. apply length_fmap. Qed.

(** *** The names the loop tries *)

Lemma app_nil_r_s (s : string) : s +:+ "" = s.
Proof. induction s as [|c s IH]; [reflexivity|]. rewrite app_cons. now rewrite IH. Qed.

Lemma tried_eq (n : string) (c : container) (k : nat) :
  tried n c k =
  name_safe (n +:+ "_" +:+ created_text c) +:+ counter_suffix k.
Proof.
  destruct k as [|k]; unfold tried, candidate_text, numbered_text, counter_suffix.
  - now rewrite app_nil_r_s.
  - rewrite <- (name_safe_str_int (Z.of_nat (S k))) at 2.
    change "_" with (name_safe "_") at 4.
    rewrite <- !name_safe_app. f_equal. now rewrite !app_assoc_s.
Qed.

Lemma tried_safe (n created : string) (c : container) (k : nat) :
  name_safe n = n → fromtimestamp (Created c) = Some created →
  tried n c k = nth_candidate n created k.
Proof.
  intros Hn Hc. rewrite tried_eq. unfold created_text. rewrite Hc. simpl.
  rewrite !name_safe_app, Hn.
  change (name_safe "_") with "_".
  destruct k; unfold nth_candidate, counter_suffix.
  - now rewrite app_nil_r_s.
  - now rewrite !app_assoc_s.
Qed.

Lemma counter_suffix_inj (i j : nat) :
  counter_suffix i = counter_suffix j → i = j.
Proof.
  destruct i as [|i], j as [|j]; unfold counter_suffix; try reflexivity;
    try discriminate.
  intros E. apply (inj (String.app "_")) in E. apply str_int_inj in E. lia.
Qed.

Lemma tried_inj (n : string) (c : container) (i j : nat) :
  tried n c i = tried n c j → i = j.
Proof.
  rewrite !tried_eq. intros E. apply (inj (String.app _)) in E.
  now apply counter_suffix_inj.
Qed.

Lemma tried_valid (n : string) (c : container) (k : nat) :
  valid_name (tried n c k) = true.
Proof. destruct k; apply valid_name_safe. Qed.

(** A name tried is longer than the canonical name, so it differs from it. *)
Lemma tried_ne (n : string) (c : container) (k : nat) : tried n c k ≠ n.
Proof.
  rewrite tried_eq. intros E. apply (f_equal String.length) in E.
  rewrite !length_app, name_safe_length, !length_app in E. simpl in E. lia.
Qed.

End Fake.

(** *** The search for a free name *)

Section Search.
Context {local_time : LocalTime}.

(** Among the first [length cs + 1] names tried, one is free: they are
    pairwise distinct and the daemon has only [length cs] containers. *)
Lemma some_name_free (n : string) (c : container) (cs : list container) :
  ∃ j, (j ≤ length cs)%nat ∧ tried n c j ∉ Name <$> cs.
Proof.
  set (cands := tried n c <$> seq 0 (S (length cs))).
  destruct (decide (Exists (λ r, r ∉ Name <$> cs) cands)) as [Hex|Hall].
  - apply Exists_exists in Hex as [r [Hr Hfree]].
    apply list_elem_of_fmap in Hr as [j [-> Hj]].
    apply elem_of_seq in Hj. exists j. split; [lia | exact Hfree].
  - exfalso. apply not_Exists_Forall in Hall; [|intros r; apply _].
    assert (NoDup cands) as Hnd.
    { apply NoDup_fmap_2_strong; [|apply NoDup_seq].
      intros i j _ _. apply tried_inj. }
    assert (cands ⊆+ Name <$> cs) as Hsub.
    { apply NoDup_submseteq; [exact Hnd|]. intros r Hr.
      rewrite Forall_forall in Hall. specialize (Hall r Hr). simpl in Hall.
      destruct (decide (r ∈ Name <$> cs)); [assumption | contradiction]. }
    apply submseteq_length in Hsub.
    unfold cands in Hsub. rewrite !length_fmap, length_seq in Hsub. lia.
Qed.

Lemma probes_one (n : string) (c : container) (k : nat) :
  probes n c k k = [CContainers true (name_filter (tried n c k))].
Proof.
  unfold probes. replace (S k - k)%nat with 1%nat by lia. reflexivity.
Qed.

Lemma probes_step (n : string) (c : container) (k j : nat) :
  (k < j)%nat →
  probes n c k j = CContainers true (name_filter (tried n c k)) :: probes n c (S k) j.
Proof.
  intros Hkj. unfold probes.
  replace (S j - k)%nat with (S (S j - S k)) by lia. reflexivity.
Qed.

(** *** The text of the creation time *)

Lemma timestamp_some {D : Type} (t : Z) (text : string) (w : world D) :
  fromtimestamp t = Some text → timestamp t w = (Done text, w).
Proof. intros E. unfold timestamp. now rewrite E. Qed.

Lemma timestamp_none {D : Type} (t : Z) (w : world D) :
  fromtimestamp t = None → timestamp t w = (Raised TimestampError, w).
Proof. intros E. unfold timestamp. now rewrite E. Qed.

Lemma not_representable (c : container) :
  ¬ representable c → fromtimestamp (Created c) = None.
Proof.
  unfold representable. destruct (fromtimestamp (Created c)); [|reflexivity].
  intros H. destruct H. now eexists.
Qed.

Lemma rename_candidate_ok {D : Type} (n : string) (c : container) (w : world D) :
  representable c → rename_candidate n c w = (Done (tried n c 0), w).
Proof.
  intros [text E]. unfold rename_candidate.
  rewrite (bind_done _ _ _ _ _ (timestamp_some _ _ w E)).
  unfold tried, created_text. now rewrite E.
Qed.

Lemma rename_numbered_ok {D : Type} (n : string) (c : container) (k : nat)
    (w : world D) :
  representable c →
  rename_numbered n c (Z.of_nat k + 1) w = (Done (tried n c (S k)), w).
Proof.
  intros [text E]. unfold rename_numbered.
  rewrite (bind_done _ _ _ _ _ (timestamp_some _ _ w E)).
  unfold tried, created_text. rewrite E. simpl.
  now replace (Z.of_nat k + 1) with (Z.pos (Pos.of_succ_nat k)) by lia.
Qed.

Lemma rename_candidate_raises {D : Type} (n : string) (c : container)
    (w : world D) :
  ¬ representable c → rename_candidate n c w = (Raised TimestampError, w).
Proof.
  intros E%not_representable. unfold rename_candidate.
  now rewrite (bind_raised _ _ _ _ _ (timestamp_none _ w E)).
Qed.

(** The loop of lines 91-93 on the model daemon, started at the k-th
    name: it returns the first free name from there on, having listed each
    name it passed. *)
Lemma find_free_fake (n : string) (c : container) (fuel : nat) :
  representable c →
  ∀ (k : nat) (w : world fake),
    (∃ j, (k ≤ j < k + fuel)%nat ∧ tried n c j ∉ (Name <$> fk_containers (daemon w))) →
    ∃ j, (k ≤ j)%nat ∧
         (tried n c j ∉ (Name <$> fk_containers (daemon w))) ∧
         (∀ i, (k ≤ i < j)%nat → tried n c i ∈ (Name <$> fk_containers (daemon w))) ∧
         find_free fuel n c (tried n c k) (Z.of_nat k + 1) w =
         (Done (tried n c j),
          World (daemon w) (calls w ++ probes n c k j) (stdout w)).
Proof.
  intros Hc.
  induction fuel as [|fuel IH]; intros k w [j0 [Hj0 Hfree0]]; [lia|].
  cbn [find_free]. rewrite bind_unfold, api_containers_fake.
  destruct (holders (tried n c k) (fk_containers (daemon w))) as [|c' rest] eqn:Hh.
  - apply holders_nil in Hh. exists k. split; [lia|]. split; [exact Hh|].
    split; [intros i Hi; lia|]. now rewrite probes_one.
  - apply holders_cons_inv in Hh.
    assert (j0 ≠ k) as Hne by (intros ->; contradiction).
    set (w1 := World (daemon w)
                 (calls w ++ [CContainers true (name_filter (tried n c k))]) (stdout w)).
    destruct (IH (S k) w1) as (j & Hkj & Hfree & Htaken & Hrun).
    { exists j0. split; [lia | exact Hfree0]. }
    exists j. split; [lia|]. split; [exact Hfree|]. split.
    + intros i Hi. destruct (decide (i = k)) as [->|Hik]; [exact Hh|].
      apply Htaken. lia.
    + rewrite (bind_done _ _ _ _ _ (rename_numbered_ok n c k _ Hc)).
      replace (Z.of_nat k + 1 + 1) with (Z.of_nat (S k) + 1) by lia.
      fold w1. rewrite Hrun. unfold w1. simpl.
      rewrite (probes_step n c k j) by lia. now rewrite <- app_assoc.
Qed.

(** *** One container *)

Lemma fake_stop_ok (id : string) (d : fake) :
  id ∈ Id <$> fk_containers d →
  fake_stop id d =
  (Reply tt, with_containers d (update id (set_state "exited") (fk_containers d))).
Proof.
  intros Hid%existsb_has_id. unfold fake_stop. now rewrite Hid.
Qed.

Lemma fake_rename_ok (id r : string) (d : fake) :
  id ∈ Id <$> fk_containers d →
  valid_name r = true →
  r ∉ Name <$> fk_containers d →
  fake_rename id r d =
  (Reply tt, with_containers d (update id (set_name r) (fk_containers d))).
Proof.
  intros Hid%existsb_has_id Hv Hfree%existsb_has_name.
  unfold fake_rename. now rewrite Hid, Hv, Hfree.
Qed.

(** Lines 85-88 on the model daemon, for a container it knows. *)
Lemma stop_if_running_fake (o : options) (c : container) (w : world fake) :
  Id c ∈ Id <$> fk_containers (daemon w) →
  when (is_running c)
    (when (1 <=? verbose o)
       (print (tab +:+ "Stopping running container: " +:+ Id c));;
     api_stop (Id c)) w =
  (Done tt,
   World (with_containers (daemon w) (stopped c (fk_containers (daemon w))))
         (calls w ++ (if is_running c then [CStop (Id c)] else []))
         (stdout w ++ stop_output o c)).
Proof.
  intros Hid. unfold stopped, stop_output. destruct (is_running c); simpl.
  - unfold api_stop. mrun.
    destruct (1 <=? verbose o); cbn [daemon calls stdout]; unfold daemon_stop;
      simpl; rewrite (fake_stop_ok (Id c) (daemon w) Hid); rewrite ?app_nil_r;
      reflexivity.
  - now rewrite with_containers_id, !app_nil_r, world_eta.
Qed.

(** The body of the loop, for a container the daemon knows and whose
    creation time has a text: it stops the container if the listing showed
    it running, finds the first free name and renames the container to
    it. *)
Lemma reconcile_one_fake (fuel : nat) (o : options) (c : container) (w : world fake) :
  representable c →
  Id c ∈ Id <$> fk_containers (daemon w) →
  (length (fk_containers (daemon w)) < fuel)%nat →
  ∃ j,
    (tried (name o) c j ∉ (Name <$> fk_containers (daemon w))) ∧
    (∀ i, (i < j)%nat → tried (name o) c i ∈ (Name <$> fk_containers (daemon w))) ∧
    reconcile_one fuel o c w =
    (Done tt,
     World (with_containers (daemon w)
              (renamed c (tried (name o) c j) (fk_containers (daemon w))))
           (calls w ++ (if is_running c then [CStop (Id c)] else [])
              ++ probes (name o) c 0 j
              ++ [CRename (Id c) (tried (name o) c j)])
           (stdout w ++ one_output o c (tried (name o) c j))).
Proof.
  intros Hc Hid Hfuel.
  set (d := daemon w). set (cs := fk_containers d).
  set (w1 := World (with_containers d (stopped c cs))
               (calls w ++ (if is_running c then [CStop (Id c)] else []))
               (stdout w ++ stop_output o c)).
  pose proof (stop_if_running_fake o c w Hid) as Hstop. fold d cs w1 in Hstop.
  destruct (find_free_fake (name o) c fuel Hc 0 w1) as (j & _ & Hfree & Htaken & Hrun).
  { destruct (some_name_free (name o) c cs) as [j [Hj Hfree]].
    exists j. split; [fold d cs in Hfuel; lia|].
    simpl. now rewrite names_stopped. }
  simpl in Hfree, Htaken. rewrite names_stopped in Hfree.
  exists j. split; [exact Hfree|]. split.
  { intros i Hi. specialize (Htaken i ltac:(lia)).
    now rewrite names_stopped in Htaken. }
  unfold reconcile_one. rewrite (bind_done _ _ _ _ _ Hstop).
  rewrite (bind_done _ _ _ _ _ (rename_candidate_ok (name o) c w1 Hc)).
  change (find_free fuel (name o) c (tried (name o) c 0) 1)
    with (find_free fuel (name o) c (tried (name o) c 0) (Z.of_nat 0 + 1)).
  rewrite (bind_done _ _ _ _ _ Hrun).
  unfold api_rename. mrun. unfold w1, one_output, stop_output, renamed.
  assert (fake_rename (Id c) (tried (name o) c j) (with_containers d (stopped c cs))
          = (Reply tt, with_containers d
                         (update (Id c) (set_name (tried (name o) c j)) (stopped c cs))))
    as Hren.
  { rewrite fake_rename_ok; cbn [fk_containers with_containers].
    - reflexivity.
    - now rewrite ids_stopped.
    - apply tried_valid.
    - now rewrite names_stopped. }
  destruct (1 <=? verbose o);
    cbn [daemon calls stdout daemon_rename fake_docker]; rewrite Hren;
    rewrite <- ?app_assoc, ?andb_false_r, ?andb_true_r, ?app_nil_r; reflexivity.
Qed.

(** The body of the loop, for a container the daemon knows and whose
    creation time has no text: the container is stopped if the listing
    showed it running, then line 89 raises; nothing is listed and nothing
    renamed. *)
Lemma reconcile_one_raises (fuel : nat) (o : options) (c : container)
    (w : world fake) :
  ¬ representable c →
  Id c ∈ Id <$> fk_containers (daemon w) →
  reconcile_one fuel o c w =
  (Raised TimestampError,
   World (with_containers (daemon w) (stopped c (fk_containers (daemon w))))
         (calls w ++ (if is_running c then [CStop (Id c)] else []))
         (stdout w ++ stop_output o c)).
Proof.
  intros Hc Hid. unfold reconcile_one.
  rewrite (bind_done _ _ _ _ _ (stop_if_running_fake o c w Hid)).
  now rewrite (bind_raised _ _ _ _ _ (rename_candidate_raises (name o) c _ Hc)).
Qed.

End Search.

(** *** The loop over the matching containers *)

Section Loop.
Context {local_time : LocalTime}.

Lemma reconcile_all_fake (fuel : nat) (o : options) :
  ∀ (snapshot : list container) (w : world fake),
    Forall representable snapshot →
    (∀ c, c ∈ snapshot → Id c ∈ Id <$> fk_containers (daemon w)) →
    (length (fk_containers (daemon w)) < fuel)%nat →
    ∃ tr cs' os,
      reconcile_all fuel o snapshot w =
      (Done tt, World (with_containers (daemon w) cs') (calls w ++ tr) (stdout w ++ os)) ∧
      reconciled (name o) snapshot (fk_containers (daemon w)) tr cs'.
Proof.
  induction snapshot as [|c rest IH]; intros w Hrep Hids Hfuel.
  - exists [], (fk_containers (daemon w)), []. split; [|constructor].
    simpl. now rewrite with_containers_id, !app_nil_r, world_eta.
  - apply Forall_cons in Hrep as [Hc Hrep].
    destruct (reconcile_one_fake fuel o c w) as (j & Hfree & Htaken & Hone);
      [exact Hc | apply Hids, list_elem_of_here | exact Hfuel |].
    set (r := tried (name o) c j) in *.
    set (w1 := World (with_containers (daemon w) (renamed c r (fk_containers (daemon w))))
                 (calls w ++ (if is_running c then [CStop (Id c)] else [])
                    ++ probes (name o) c 0 j ++ [CRename (Id c) r])
                 (stdout w ++ one_output o c r)) in *.
    destruct (IH w1) as (tr & cs' & os & Hrest & Hrec).
    { exact Hrep. }
    { intros c' Hc'. simpl. rewrite ids_renamed.
      apply Hids. now apply list_elem_of_further. }
    { simpl. now rewrite length_renamed. }
    exists ((if is_running c then [CStop (Id c)] else [])
              ++ probes (name o) c 0 j ++ CRename (Id c) r :: tr),
           cs', (one_output o c r ++ os).
    split.
    + cbn [reconcile_all]. rewrite (bind_done _ _ _ _ _ Hone), Hrest.
      unfold w1. cbn [daemon calls stdout]. rewrite <- !app_assoc. reflexivity.
    + simpl in Hrec. constructor; try assumption.
      apply Hids, list_elem_of_here.
Qed.

(** The loop stops at the first container whose creation time has no
    text: those before it are reconciled, that one is stopped if it was
    listed as running, and line 89 raises. *)
Lemma reconcile_all_raises (fuel : nat) (o : options) (c : container)
    (post : list container) :
  ∀ (pre : list container) (w : world fake),
    Forall representable pre →
    ¬ representable c →
    (∀ x, x ∈ pre ++ [c] → Id x ∈ Id <$> fk_containers (daemon w)) →
    (length (fk_containers (daemon w)) < fuel)%nat →
    ∃ tr cs' os,
      reconcile_all fuel o (pre ++ c :: post) w =
      (Raised TimestampError,
       World (with_containers (daemon w) (stopped c cs'))
             (calls w ++ tr ++ (if is_running c then [CStop (Id c)] else []))
             (stdout w ++ os)) ∧
      reconciled (name o) pre (fk_containers (daemon w)) tr cs'.
Proof.
  induction pre as [|p pre IH]; intros w Hrep Hc Hids Hfuel.
  - exists [], (fk_containers (daemon w)), (stop_output o c).
    split; [|constructor]. cbn [app reconcile_all].
    rewrite (bind_raised _ _ _ _ _
               (reconcile_one_raises fuel o c w Hc
                  (Hids c ltac:(apply list_elem_of_here)))).
    reflexivity.
  - apply Forall_cons in Hrep as [Hp Hrep].
    destruct (reconcile_one_fake fuel o p w) as (j & Hfree & Htaken & Hone);
      [exact Hp | apply Hids, list_elem_of_here | exact Hfuel |].
    set (r := tried (name o) p j) in *.
    set (w1 := World (with_containers (daemon w) (renamed p r (fk_containers (daemon w))))
                 (calls w ++ (if is_running p then [CStop (Id p)] else [])
                    ++ probes (name o) p 0 j ++ [CRename (Id p) r])
                 (stdout w ++ one_output o p r)) in *.
    destruct (IH w1) as (tr & cs' & os & Hrest & Hrec).
    { exact Hrep. }
    { exact Hc. }
    { intros x Hx. simpl. rewrite ids_renamed.
      apply Hids. now apply list_elem_of_further. }
    { simpl. now rewrite length_renamed. }
    exists ((if is_running p then [CStop (Id p)] else [])
              ++ probes (name o) p 0 j ++ CRename (Id p) r :: tr),
           cs', (one_output o p r ++ os).
    split.
    + cbn [app reconcile_all]. rewrite (bind_done _ _ _ _ _ Hone), Hrest.
      unfold w1. cbn [daemon calls stdout]. rewrite <- !app_assoc. reflexivity.
    + simpl in Hrec. constructor; try assumption.
      apply Hids, list_elem_of_here.
Qed.

(** A list of containers either has a text for every creation time, or
    has a first container without one. *)
Lemma first_unrepresentable (l : list container) :
  Forall representable l ∨
  ∃ pre c post, l = pre ++ c :: post ∧ Forall representable pre ∧ ¬ representable c.
Proof.
  induction l as [|x l IH]; [left; constructor|].
  destruct (fromtimestamp (Created x)) as [text|] eqn:E.
  - destruct IH as [IH | (pre & c & post & -> & Hpre & Hc)].
    + left. constructor; [now exists text | exact IH].
    + right. exists (x :: pre), c, post. split; [reflexivity|].
      split; [|exact Hc]. constructor; [now exists text | exact Hpre].
  - right. exists [], x, l. split; [reflexivity|]. split; [constructor|].
    unfold representable. rewrite E. intros [? ?]. discriminate.
Qed.

(** What lines 80-82 print. *)
Lemma found_message_fake (o : options) (w : world fake) :
  when (1 <=? verbose o)
    (print (nl +:+ "Containers exist for " +:+ name o +:+ "...")) w =
  (Done tt,
   World (daemon w) (calls w)
         (stdout w ++ if 1 <=? verbose o
                      then [Print (nl +:+ "Containers exist for " +:+ name o +:+ "...")]
                      else [])).
Proof.
  destruct (1 <=? verbose o); simpl; rewrite ?app_nil_r; [reflexivity|].
  now rewrite world_eta.
Qed.

(** Lines 74-100 on the model daemon, when every container listed has a
    text for its creation time. *)
Lemma reconcile_fake (fuel : nat) (o : options) (w : world fake) :
  Forall representable (holders (name o) (fk_containers (daemon w))) →
  (length (fk_containers (daemon w)) < fuel)%nat →
  ∃ tr cs' os,
    reconcile fuel o w =
    (Done tt,
     World (with_containers (daemon w) cs')
           (calls w ++ CContainers true (name_filter (name o)) :: tr)
           (stdout w ++ os)) ∧
    reconciled (name o) (holders (name o) (fk_containers (daemon w)))
               (fk_containers (daemon w)) tr cs'.
Proof.
  intros Hrep Hfuel. unfold reconcile. rewrite bind_unfold, api_containers_fake.
  destruct (holders (name o) (fk_containers (daemon w))) as [|c rest] eqn:Hh.
  - exists [], (fk_containers (daemon w)),
      (if 1 <=? verbose o
       then [Print ("No existing containers for " +:+ name o +:+ ".")] else []).
    split; [|constructor].
    rewrite with_containers_id.
    destruct (1 <=? verbose o); simpl; rewrite ?app_nil_r; reflexivity.
  - set (w1 := World (daemon w)
                 (calls w ++ [CContainers true (name_filter (name o))])
                 (stdout w ++ if 1 <=? verbose o
                              then [Print (nl +:+ "Containers exist for " +:+ name o +:+ "...")]
                              else [])).
    destruct (reconcile_all_fake fuel o (c :: rest) w1) as (tr & cs' & os & Hall & Hrec).
    { exact Hrep. }
    { intros c' Hc'. simpl. apply list_elem_of_fmap_2.
      rewrite <- Hh in Hc'. unfold holders in Hc'.
      now apply list_elem_of_filter in Hc' as [_ Hc']. }
    { exact Hfuel. }
    exists tr, cs',
      ((if 1 <=? verbose o
        then [Print (nl +:+ "Containers exist for " +:+ name o +:+ "...")] else []) ++ os).
    split; [|exact Hrec].
    rewrite bind_unfold.
    assert (when (1 <=? verbose o)
              (print (nl +:+ "Containers exist for " +:+ name o +:+ "..."))
              (World (daemon w)
                 (calls w ++ [CContainers true (name_filter (name o))]) (stdout w))
            = (Done tt, w1)) as ->.
    { unfold w1. destruct (1 <=? verbose o); simpl; rewrite ?app_nil_r; reflexivity. }
    rewrite Hall. unfold w1. cbn [daemon calls stdout].
    rewrite <- !app_assoc. reflexivity.
Qed.

(** Lines 74-100 on the model daemon, when some container listed has no
    text for its creation time. *)
Lemma reconcile_raises (fuel : nat) (o : options) (w : world fake)
    (pre : list container) (c : container) (post : list container) :
  holders (name o) (fk_containers (daemon w)) = pre ++ c :: post →
  Forall representable pre →
  ¬ representable c →
  (length (fk_containers (daemon w)) < fuel)%nat →
  ∃ tr cs' os,
    reconcile fuel o w =
    (Raised TimestampError,
     World (with_containers (daemon w) (stopped c cs'))
           (calls w ++ CContainers true (name_filter (name o))
              :: tr ++ (if is_running c then [CStop (Id c)] else []))
           (stdout w ++ os)) ∧
    reconciled (name o) pre (fk_containers (daemon w)) tr cs'.
Proof.
  intros Hh Hpre Hc Hfuel.
  unfold reconcile. rewrite bind_unfold, api_containers_fake, Hh.
  remember (pre ++ c :: post) as l eqn:Hl in |- *.
  destruct l as [|x l]; [now destruct pre|]. rewrite Hl. clear x l Hl.
  set (w1 := World (daemon w)
               (calls w ++ [CContainers true (name_filter (name o))]) (stdout w)).
  rewrite (bind_done _ _ _ _ _ (found_message_fake o w1)).
  set (w2 := World _ _ _).
  destruct (reconcile_all_raises fuel o c post pre w2 Hpre Hc)
    as (tr & cs' & os & Hall & Hrec).
  { intros x Hx. simpl. apply list_elem_of_fmap_2.
    assert (x ∈ holders (name o) (fk_containers (daemon w))) as Hin.
    { rewrite Hh. apply elem_of_app in Hx as [Hx|Hx%list_elem_of_singleton].
      - apply elem_of_app. now left.
      - subst x. apply elem_of_app. right. apply list_elem_of_here. }
    unfold holders in Hin. now apply list_elem_of_filter in Hin as [_ Hin]. }
  { exact Hfuel. }
  exists tr, cs',
    ((if 1 <=? verbose o
      then [Print (nl +:+ "Containers exist for " +:+ name o +:+ "...")] else []) ++ os).
  split; [|exact Hrec].
  rewrite Hall. unfold w2, w1. cbn [daemon calls stdout].
  rewrite <- !app_assoc. reflexivity.
Qed.

(** When no container has the canonical name, reconciliation is the one
    listing. *)
Lemma reconcile_no_match (fuel : nat) (o : options) (w : world fake) :
  holders (name o) (fk_containers (daemon w)) = [] →
  reconcile fuel o w =
  (Done tt,
   World (daemon w) (calls w ++ [CContainers true (name_filter (name o))])
         (stdout w ++ if 1 <=? verbose o
                      then [Print ("No existing containers for " +:+ name o +:+ ".")]
                      else [])).
Proof.
  intros Hh. unfold reconcile. rewrite bind_unfold, api_containers_fake, Hh.
  destruct (1 <=? verbose o); simpl; rewrite ?app_nil_r; reflexivity.
Qed.

End Loop.

(** *** What the loop leaves behind *)

Section Outcome.
Context {local_time : LocalTime}.

(** A container after the body of the loop ran for [c]: renamed if it has
    the id of [c], as it was otherwise. *)
Lemma elem_of_renamed (x c : container) (r : string) (cs : list container) :
  x ∈ renamed c r cs →
  ∃ x0, x0 ∈ cs ∧ Id x = Id x0 ∧
        ((Id x0 = Id c ∧ Name x = r) ∨ (Id x0 ≠ Id c ∧ x = x0)).
Proof.
  unfold renamed, stopped, update. intros Hx.
  apply list_elem_of_fmap in Hx as [x1 [-> Hx1]].
  assert (∃ x0, x0 ∈ cs ∧ Id x1 = Id x0 ∧ (Id x0 ≠ Id c → x1 = x0))
    as (x0 & Hx0 & Hid & Hsame).
  { destruct (is_running c).
    - apply list_elem_of_fmap in Hx1 as [x0 [-> Hx0]]. exists x0.
      split; [exact Hx0|]. unfold has_id.
      destruct (String.eqb_spec (Id x0) (Id c)) as [E|E]; simpl.
      + split; [reflexivity|]. intros Hne. contradiction.
      + split; [reflexivity|]. intros _. reflexivity.
    - exists x1. auto. }
  exists x0. split; [exact Hx0|]. unfold has_id.
  destruct (String.eqb_spec (Id x1) (Id c)) as [E|E]; simpl.
  - split; [exact Hid|]. left. split; [congruence | reflexivity].
  - split; [exact Hid|]. right. rewrite Hid in E. split; [exact E | now apply Hsame].
Qed.

Lemma renamed_other (x c : container) (r : string) (cs : list container) :
  x ∈ cs → Id x ≠ Id c → x ∈ renamed c r cs.
Proof.
  intros Hx Hne. unfold renamed, stopped, update.
  assert ((has_id (Id c) x) = false) as Hf.
  { unfold has_id. now apply String.eqb_neq. }
  apply list_elem_of_fmap. exists x. rewrite Hf. split; [reflexivity|].
  destruct (is_running c); [|exact Hx].
  apply list_elem_of_fmap. exists x. now rewrite Hf.
Qed.

(** No container is created or deleted, and none changes its id or its
    creation time. *)
Lemma reconciled_ids n snapshot cs tr cs' :
  reconciled n snapshot cs tr cs' →
  Id <$> cs' = Id <$> cs ∧ Created <$> cs' = Created <$> cs.
Proof.
  induction 1 as [cs|c rest cs j tr cs' Hid Hfree Htaken Hrec [IH1 IH2]].
  - split; reflexivity.
  - rewrite IH1, IH2, ids_renamed, created_renamed. split; reflexivity.
Qed.

Lemma stop_ids_probes n c i j : stop_ids (probes n c i j) = [].
Proof. unfold probes, stop_ids. induction (seq i (S j - i)); [reflexivity | exact IHl]. Qed.

Lemma rename_ids_probes n c i j : rename_ids (probes n c i j) = [].
Proof. unfold probes, rename_ids. induction (seq i (S j - i)); [reflexivity | exact IHl]. Qed.

Lemma stop_ids_app (a b : list call) : stop_ids (a ++ b) = stop_ids a ++ stop_ids b.
Proof. apply omap_app. Qed.

Lemma rename_ids_app (a b : list call) :
  rename_ids (a ++ b) = rename_ids a ++ rename_ids b.
Proof. apply omap_app. Qed.

Lemma stop_ids_rename id r tr : stop_ids (CRename id r :: tr) = stop_ids tr.
Proof. reflexivity. Qed.

Lemma rename_ids_rename id r tr :
  rename_ids (CRename id r :: tr) = id :: rename_ids tr.
Proof. reflexivity. Qed.

(** The stop requests are those for the containers listed as running, the
    rename requests those for every container listed, in the order listed. *)
Lemma reconciled_requests n snapshot cs tr cs' :
  reconciled n snapshot cs tr cs' →
  stop_ids tr = Id <$> filter (λ c, is_running c = true) snapshot ∧
  rename_ids tr = Id <$> snapshot.
Proof.
  induction 1 as [cs|c rest cs j tr cs' Hid Hfree Htaken Hrec [IH1 IH2]].
  - split; reflexivity.
  - rewrite !stop_ids_app, !rename_ids_app, stop_ids_probes, rename_ids_probes,
      stop_ids_rename, rename_ids_rename, IH1, IH2.
    split.
    + destruct (is_running c) eqn:Hr.
      * rewrite filter_cons_True by exact Hr. reflexivity.
      * rewrite filter_cons_False by congruence. reflexivity.
    + destruct (is_running c); reflexivity.
Qed.

Lemma replay_app (a b : list call) (d : fake) :
  replay (a ++ b) d = replay b (replay a d).
Proof. unfold replay. apply foldl_app. Qed.

Lemma replay_probes n c i j (d : fake) : replay (probes n c i j) d = d.
Proof. unfold probes, replay. induction (seq i (S j - i)); [reflexivity | exact IHl]. Qed.

Lemma renames_fresh_app (a b : list call) (d : fake) :
  renames_fresh (a ++ b) d ↔ renames_fresh a d ∧ renames_fresh b (replay a d).
Proof.
  revert d. induction a as [|x a IH]; intros d; simpl.
  - tauto.
  - rewrite IH. unfold replay. simpl. tauto.
Qed.

Lemma renames_fresh_probes n c i j (d : fake) : renames_fresh (probes n c i j) d.
Proof.
  unfold probes. induction (seq i (S j - i)); simpl; [exact I | split; [exact I | exact IHl]].
Qed.

(** The requests replayed on the daemon give the containers the loop left,
    and every rename asked for a name that was free when it was issued. *)
Lemma reconciled_replay n snapshot cs tr cs' :
  reconciled n snapshot cs tr cs' →
  ∀ d, fk_containers d = cs →
       replay tr d = with_containers d cs' ∧ renames_fresh tr d.
Proof.
  induction 1 as [cs|c rest cs j tr cs' Hid Hfree Htaken Hrec IH]; intros d Hd.
  - subst cs. rewrite with_containers_id. split; [reflexivity | exact I].
  - subst cs.
    set (d0 := with_containers d (stopped c (fk_containers d))).
    assert (replay (if is_running c then [CStop (Id c)] else []) d = d0) as Hs.
    { unfold d0, stopped. destruct (is_running c).
      - unfold replay. simpl. now rewrite fake_stop_ok.
      - now rewrite with_containers_id. }
    set (d1 := with_containers d (renamed c (tried n c j) (fk_containers d))).
    assert (apply_call d0 (CRename (Id c) (tried n c j)) = d1) as Hr.
    { unfold d0, d1, renamed. simpl. rewrite fake_rename_ok; simpl.
      - reflexivity.
      - now rewrite ids_stopped.
      - apply tried_valid.
      - now rewrite names_stopped. }
    destruct (IH d1 eq_refl) as [IHr IHf].
    split.
    + rewrite replay_app, Hs, replay_app, replay_probes.
      unfold replay at 1. cbn [foldl]. rewrite Hr. exact IHr.
    + apply renames_fresh_app. split.
      { destruct (is_running c); simpl; auto. }
      rewrite Hs. apply renames_fresh_app. split; [apply renames_fresh_probes|].
      rewrite replay_probes. cbn [renames_fresh]. split.
      * unfold d0. simpl. now rewrite names_stopped.
      * rewrite Hr. exact IHf.
Qed.

(** If every holder of the canonical name is in the list to process, no
    container holds it at the end. *)
Lemma reconciled_no_holder n snapshot cs tr cs' :
  reconciled n snapshot cs tr cs' →
  (∀ x, x ∈ cs → Name x = n → Id x ∈ Id <$> snapshot) →
  ∀ x, x ∈ cs' → Name x ≠ n.
Proof.
  induction 1 as [cs|c rest cs j tr cs' Hid Hfree Htaken Hrec IH]; intros Hall x Hx Hn.
  - specialize (Hall x Hx Hn). simpl in Hall. now apply not_elem_of_nil in Hall.
  - revert x Hx Hn. apply IH. intros x Hx Hn.
    apply elem_of_renamed in Hx as (x0 & Hx0 & Hidx & [[Hc Hr]|[Hc ->]]).
    + exfalso. rewrite Hr in Hn. now apply tried_ne in Hn.
    + specialize (Hall x0 Hx0 Hn). rewrite fmap_cons in Hall.
      apply elem_of_cons in Hall as [E|Hin]; [contradiction | exact Hin].
Qed.

(** Names stay names the daemon accepts. *)
Lemma reconciled_valid n snapshot cs tr cs' :
  reconciled n snapshot cs tr cs' →
  Forall (λ c, valid_name (Name c) = true) cs →
  Forall (λ c, valid_name (Name c) = true) cs'.
Proof.
  induction 1 as [cs|c rest cs j tr cs' Hid Hfree Htaken Hrec IH]; intros Hv.
  - exact Hv.
  - apply IH. rewrite Forall_forall in *. intros x Hx.
    apply elem_of_renamed in Hx as (x0 & Hx0 & Hidx & [[Hc Hr]|[Hc ->]]).
    + rewrite Hr. apply tried_valid.
    + now apply Hv.
Qed.

(** A container whose id is not in the list to process is left as it is. *)
Lemma reconciled_untouched n snapshot cs tr cs' :
  reconciled n snapshot cs tr cs' →
  ∀ x, x ∈ cs → Id x ∉ Id <$> snapshot → x ∈ cs'.
Proof.
  induction 1 as [cs|c rest cs j tr cs' Hid Hfree Htaken Hrec IH]; intros x Hx Hn.
  - exact Hx.
  - rewrite fmap_cons in Hn. apply not_elem_of_cons in Hn as [Hne Hn].
    apply IH; [|exact Hn]. now apply renamed_other.
Qed.

(** A processed container shares its name with no container of another
    id. *)
Lemma reconciled_unique n snapshot cs tr cs' :
  reconciled n snapshot cs tr cs' →
  ∀ S : string → Prop,
    (∀ x y, x ∈ cs → y ∈ cs → S (Id x) → Name x = Name y → Id x = Id y) →
    ∀ x y, x ∈ cs' → y ∈ cs' → S (Id x) ∨ Id x ∈ Id <$> snapshot →
           Name x = Name y → Id x = Id y.
Proof.
  induction 1 as [cs|c rest cs j tr cs' Hid Hfree Htaken Hrec IH]; intros S HU x y Hx Hy HS Hn.
  - destruct HS as [HS|HS]; [now apply (HU x y) | now apply not_elem_of_nil in HS].
  - apply (IH (λ id, S id ∨ id = Id c)); try assumption.
    + clear x y Hx Hy HS Hn. intros x y Hx Hy HS Hn.
      apply elem_of_renamed in Hx as (x0 & Hx0 & Hidx & [[Hcx Hrx]|[Hcx ->]]);
      apply elem_of_renamed in Hy as (y0 & Hy0 & Hidy & [[Hcy Hry]|[Hcy ->]]).
      * congruence.
      * exfalso. apply Hfree. rewrite <- Hrx, Hn. now apply list_elem_of_fmap_2.
      * exfalso. apply Hfree. rewrite <- Hry, <- Hn. now apply list_elem_of_fmap_2.
      * destruct HS as [HS|HS]; [now apply (HU x0 y0) | contradiction].
    + rewrite fmap_cons in HS. destruct HS as [HS|HS]; [left; now left|].
      apply elem_of_cons in HS as [HS|HS]; [left; now right | now right].
Qed.

End Outcome.

(** *** Reconciliation and the run request *)

Section Launch.
Context {local_time : LocalTime}.

Lemma reconciled_calls n snapshot cs tr cs' :
  reconciled n snapshot cs tr cs' → Forall is_reconcile_call tr.
Proof.
  induction 1 as [cs|c rest cs j tr cs' Hid Hfree Htaken Hrec IH].
  - constructor.
  - apply Forall_app. split.
    + destruct (is_running c); repeat constructor.
    + apply Forall_app. split.
      * unfold probes. apply Forall_fmap, Forall_forall. intros i _. exact I.
      * constructor; [exact I | exact IH].
Qed.

Lemma NoDup_ids_eq (cs : list container) (x y : container) :
  NoDup (Id <$> cs) → x ∈ cs → y ∈ cs → Id x = Id y → x = y.
Proof.
  induction cs as [|c cs IH]; intros Hnd Hx Hy E.
  - now apply not_elem_of_nil in Hx.
  - rewrite fmap_cons in Hnd. apply NoDup_cons in Hnd as [Hc Hnd].
    apply elem_of_cons in Hx as [->|Hx]; apply elem_of_cons in Hy as [->|Hy].
    + reflexivity.
    + exfalso. apply Hc. rewrite E. now apply list_elem_of_fmap_2.
    + exfalso. apply Hc. rewrite <- E. now apply list_elem_of_fmap_2.
    + now apply IH.
Qed.

Lemma request_calls {D A : Type} (c : call) (op : D → reply A * D) (w : world D) :
  calls (snd (request c op w)) = calls w ++ [c].
Proof. unfold request. destruct (op (daemon w)) as [[a|f] d']; reflexivity. Qed.

Lemma holders_elem (n : string) (cs : list container) (x : container) :
  x ∈ holders n cs ↔ Name x = n ∧ x ∈ cs.
Proof.
  unfold holders. rewrite list_elem_of_filter. unfold has_name.
  now rewrite String.eqb_eq.
Qed.

(** Lines 60-74: with the keyword arguments built and shown, [launch]
    is reconciliation followed by the run request. *)
Lemma launch_unfold {D : Type} {docker : Docker D} (fuel : nat) (o : options)
    (kw : run_kwargs_t) (w : world D) :
  run_kwargs o = Some kw →
  launch fuel o w = (reconcile fuel o;; containers_run kw) (args_shown o kw w).
Proof.
  intros Hkw. unfold launch. rewrite Hkw.
  assert (when (2 <=? verbose o)
            (print (nl +:+ "Run Args:");; print_args (run_kwargs_items kw)) w
          = (Done tt, args_shown o kw w)) as Hwhen.
  { unfold args_shown, run_args_output. destruct (2 <=? verbose o); cbn [when].
    - rewrite bind_unfold, print_eq, print_args_eq. cbn [daemon calls stdout].
      now rewrite <- app_assoc.
    - cbn [mret M_ret]. now rewrite app_nil_r, world_eta. }
  rewrite bind_unfold. cbn [mret M_ret].
  now rewrite (bind_done _ _ _ _ _ Hwhen).
Qed.

(** Lines 60-102 on the model daemon: the run request is issued in the
    world reconciliation leaves. *)
Lemma launch_fake (fuel : nat) (o : options) (kw : run_kwargs_t) (w : world fake) :
  run_kwargs o = Some kw →
  Forall representable (holders (name o) (fk_containers (daemon w))) →
  (length (fk_containers (daemon w)) < fuel)%nat →
  ∃ tr cs' os,
    reconciled (name o) (holders (name o) (fk_containers (daemon w)))
               (fk_containers (daemon w)) tr cs' ∧
    launch fuel o w =
    containers_run kw
      (World (with_containers (daemon w) cs')
             (calls w ++ CContainers true (name_filter (name o)) :: tr)
             (stdout w ++ os)).
Proof.
  intros Hkw Hrep Hfuel. rewrite (launch_unfold fuel o kw w Hkw).
  destruct (reconcile_fake fuel o (args_shown o kw w) Hrep Hfuel)
    as (tr & cs' & os & Hrun & Hrec).
  exists tr, cs', (run_args_output o kw ++ os).
  split; [exact Hrec|].
  rewrite (bind_done _ _ _ _ _ Hrun).
  unfold args_shown. cbn [daemon calls stdout]. now rewrite <- app_assoc.
Qed.

(** Lines 60-102 on the model daemon when a container listed has no text
    for its creation time: the exception of line 89 ends [launch]. *)
Lemma launch_raises (fuel : nat) (o : options) (kw : run_kwargs_t) (w : world fake)
    (pre : list container) (c : container) (post : list container) :
  run_kwargs o = Some kw →
  holders (name o) (fk_containers (daemon w)) = pre ++ c :: post →
  Forall representable pre →
  ¬ representable c →
  (length (fk_containers (daemon w)) < fuel)%nat →
  ∃ tr cs' os,
    reconciled (name o) pre (fk_containers (daemon w)) tr cs' ∧
    launch fuel o w =
    (Raised TimestampError,
     World (with_containers (daemon w) (stopped c cs'))
           (calls w ++ CContainers true (name_filter (name o))
              :: tr ++ (if is_running c then [CStop (Id c)] else []))
           (stdout w ++ os)).
Proof.
  intros Hkw Hh Hpre Hc Hfuel. rewrite (launch_unfold fuel o kw w Hkw).
  destruct (reconcile_raises fuel o (args_shown o kw w) pre c post Hh Hpre Hc Hfuel)
    as (tr & cs' & os & Hrun & Hrec).
  exists tr, cs', (run_args_output o kw ++ os).
  split; [exact Hrec|].
  rewrite (bind_raised _ _ _ _ _ Hrun).
  unfold args_shown. cbn [daemon calls stdout]. now rewrite <- app_assoc.
Qed.

(** After the loop ran over the holders of the canonical name, nobody
    holds it. *)
Lemma reconciled_clears n cs tr cs' :
  reconciled n (holders n cs) cs tr cs' → holders n cs' = [].
Proof.
  intros Hrec. apply holders_nil. intros Hin.
  apply list_elem_of_fmap in Hin as [x [Hx Hin]]. symmetry in Hx. revert Hx.
  apply (reconciled_no_holder _ _ _ _ _ Hrec); [|exact Hin].
  intros y Hy Hn. apply list_elem_of_fmap_2. now apply holders_elem.
Qed.

(** The state test of line 85, in words of the listing. *)
Lemma is_running_spec (c : container) :
  is_running c = true ↔ lower (State c) = "running".
Proof. unfold is_running. apply String.eqb_eq. Qed.

Lemma running_holders (cs : list container) :
  filter (λ c, is_running c = true) cs = filter (λ c, lower (State c) = "running") cs.
Proof. apply list_filter_iff. intros c. apply is_running_spec. Qed.

End Launch.

(** On a host in UTC, the creation times from 0001-01-02 to the end of
    year 9999 have a text. *)
Lemma utc_representable (c : container) :
  (-62135510400 <=? Created c) && (Created c <=? 253402300799) = true →
  representable (local_time:=utc) c.
Proof.
  intros H. unfold representable, fromtimestamp, utc, utc_fromtimestamp.
  rewrite H. now eexists.
Qed.

(** * The claims *)

(** C1 (the code departs from the claim).  The claim: the build step
    raises error 101 'Build Failed' if and only if no event of the build
    stream carries 'Successfully built'.  The program looks for the marker
    only inside [if verbose >= 1]; with the default verbosity 0 the events
    are never read.  Here the stream holds the marker and the step still
    raises error 101. *)
Theorem C1_quiet_build_fails_despite_marker :
  let o := default_options "alice" "." in
  let w := start (quiet_daemon []) in
  verbose o = 0 ∧
  (∃ s, fst (daemon_build (build_kwargs o) (daemon w)) = Reply s ∧
        fault s = None ∧ has_marker (items s) = true) ∧
  fst (build_step o w) = Raised (BuildRunError 101 "Build Failed") ∧
  main (local_time:=utc) 1 o w =
    (Done tt,
     World (quiet_daemon []) [CBuild (build_kwargs o)]
           [Print "BuildRunError: 101 - Build Failed"]).
Proof.
  cbv zeta. split; [reflexivity|]. split.
  - eexists. split; [reflexivity|]. split; reflexivity.
  - split.
    + vm_compute. reflexivity.
    + vm_compute. reflexivity.
Qed.

(** C5.  If the daemon's tag operation returns false, the push step
    raises error 102 whose message names '<repo>/<user>:<env>', and the
    tag request is the only request of the step: no push is issued.  In
    every run of the step, a push request among its requests means that
    the tag operation returned true, and the tag request came first. *)
Theorem C5_tag_failure_prevents_push
    {D : Type} {docker : Docker D} (o : options) (w : world D) :
  let t := daemon_tag (tag o) (repo_name o +:+ "/" +:+ user o) (env o) (daemon w) in
  let new_calls := drop (length (calls w)) (calls (snd (push_step o w))) in
  (fst t = Reply false →
   push_step o w =
   (Raised (BuildRunError 102
      ("Failed to tag image as " +:+ repo_name o +:+ "/" +:+ user o +:+ ":" +:+ env o)),
    World (snd t)
      (calls w ++ [CTag (tag o) (repo_name o +:+ "/" +:+ user o) (env o)])
      (stdout w))) ∧
  (∀ repository tg, CPush repository tg ∈ new_calls →
     fst t = Reply true ∧
     new_calls = [CTag (tag o) (repo_name o +:+ "/" +:+ user o) (env o);
                  CPush (repo_name o +:+ "/" +:+ user o) (env o)]).
Proof.
  cbv zeta.
  destruct (daemon_tag (tag o) (repo_name o +:+ "/" +:+ user o) (env o) (daemon w))
    as [[[|]|f] d1] eqn:Ht; simpl.
  - split; [discriminate|]. intros _ _ _. split; [reflexivity|].
    destruct (daemon_push (repo_name o +:+ "/" +:+ user o) (env o) d1) as [r d2] eqn:Hp.
    destruct (push_step_tagged o w d1 d2 r Ht Hp) as [-> _].
    now rewrite drop_app_length.
  - split.
    + intros _. now apply push_step_tag_false.
    + intros repository tg. rewrite (push_step_tag_false o w d1 Ht). simpl.
      rewrite drop_app_length. intros Hin.
      apply list_elem_of_singleton in Hin. discriminate.
  - split; [discriminate|].
    intros repository tg. rewrite (push_step_tag_fail o w f d1 Ht). simpl.
    rewrite drop_app_length. intros Hin.
    apply list_elem_of_singleton in Hin. discriminate.
Qed.

Lemma C5_witness :
  let o := default_options "alice" "." in
  let d := scripted [] good_build (Reply false) (Reply (Stream [] None)) in
  push_step o (start d) =
  (Raised (BuildRunError 102 "Failed to tag image as benjilev08/alice:dev"),
   World d [CTag "alice:dev" "benjilev08/alice" "dev"] []).
Proof.
  cbv zeta.
  exact (proj1 (C5_tag_failure_prevents_push
                  (default_options "alice" ".")
                  (start (scripted [] good_build (Reply false)
                            (Reply (Stream [] None)))))
               eq_refl).
Defined.

(** C6.  Once the image is tagged, a daemon API error raised by the push
    request or while its stream is read is caught and raised again as
    error 103 whose message names '<repo>/<user>:<env>': the step does
    not end in the API error itself. *)
Theorem C6_push_api_error_is_wrapped
    {D : Type} {docker : Docker D} (o : options) (w : world D)
    (d1 d2 : D) (r : reply stream) (explanation : string) :
  daemon_tag (tag o) (repo_name o +:+ "/" +:+ user o) (env o) (daemon w)
    = (Reply true, d1) →
  daemon_push (repo_name o +:+ "/" +:+ user o) (env o) d1 = (r, d2) →
  stream_failure r = Some (ApiFailure explanation) →
  fst (push_step o w) =
    Raised (BuildRunError 103
      ("Failed to push " +:+ repo_name o +:+ "/" +:+ user o +:+ ":" +:+ env o)) ∧
  (∀ e, fst (push_step o w) ≠ Raised (APIError e)).
Proof.
  intros Ht Hp Hf.
  destruct (push_step_tagged o w d1 d2 r Ht Hp) as (_ & _ & ->).
  rewrite Hf. split; [reflexivity | discriminate].
Qed.

Lemma C6_witness :
  let o := default_options "alice" "." in
  let denied := Stream [{["status" := "Preparing"]}]
                       (Some (ApiFailure "unauthorized")) in
  let d := scripted [] good_build (Reply true) (Reply denied) in
  fst (push_step o (start d)) =
  Raised (BuildRunError 103 "Failed to push benjilev08/alice:dev").
Proof.
  cbv zeta.
  set (denied := Stream [{["status" := "Preparing"]}]
                        (Some (ApiFailure "unauthorized"))).
  set (d := scripted [] good_build (Reply true) (Reply denied)).
  exact (proj1 (C6_push_api_error_is_wrapped
                  (default_options "alice" ".") (start d) d d (Reply denied)
                  "unauthorized" eq_refl eq_refl eq_refl)).
Defined.

(** C9.  When [BuildRun.main] ends in an exception: if it is the tool's
    own error, it is one of the three (101, 102, 103), [main] catches it,
    prints the one line 'BuildRunError: <code> - <message>' and ends
    normally; any other exception is not caught by [main] and leaves it
    unchanged. *)
Theorem C9_tool_errors_caught_at_top_level
    {D : Type} {docker : Docker D} {local_time : LocalTime}
    (fuel : nat) (o : options) (w w' : world D) (e : exn) :
  BuildRun_main fuel o w = (Raised e, w') →
  match e with
  | BuildRunError code message =>
      (code, message) ∈ tool_errors o ∧
      main fuel o w =
      (Done tt,
       World (daemon w') (calls w')
         (stdout w' ++ [Print ("BuildRunError: " +:+ str_int code +:+ " - " +:+ message)]))
  | _ => main fuel o w = (Raised e, w')
  end.
Proof.
  intros Hm. rewrite main_unfold, Hm.
  destruct e as [code message| | | | |]; try reflexivity.
  split; [|reflexivity].
  destruct (tidy_BuildRun_main fuel o w) as [_ He].
  apply (He (BuildRunError code message)). now rewrite Hm.
Qed.

Lemma C9_witness :
  let o := default_options "alice" "." in
  main (local_time:=utc) 1 o (start (quiet_daemon [])) =
    (Done tt,
     World (quiet_daemon []) [CBuild (build_kwargs o)]
           [Print "BuildRunError: 101 - Build Failed"]) ∧
  main (local_time:=utc) 1 o
    (start (scripted [] (Fail (ApiFailure "no daemon")) (Reply true)
              (Reply (Stream [] None)))) =
    (Raised (APIError "no daemon"),
     World (scripted [] (Fail (ApiFailure "no daemon")) (Reply true)
              (Reply (Stream [] None)))
           [CBuild (build_kwargs o)] []).
Proof.
  cbv zeta. split.
  - exact (proj2 (C9_tool_errors_caught_at_top_level (local_time:=utc) 1
                    (default_options "alice" ".") (start (quiet_daemon []))
                    (World (quiet_daemon [])
                       [CBuild (build_kwargs (default_options "alice" "."))] [])
                    (BuildRunError 101 "Build Failed") eq_refl)).
  - exact (C9_tool_errors_caught_at_top_level (local_time:=utc) 1
             (default_options "alice" ".")
             (start (scripted [] (Fail (ApiFailure "no daemon")) (Reply true)
                       (Reply (Stream [] None))))
             (World (scripted [] (Fail (ApiFailure "no daemon")) (Reply true)
                       (Reply (Stream [] None)))
                [CBuild (build_kwargs (default_options "alice" "."))] [])
             (APIError "no daemon") eq_refl).
Defined.

(** C10.  A run that builds first issues the build request, for the
    build context given, and the dockerfile it names is 'Dockerfile.<env>'
    when no override is supplied and the override, unchanged, otherwise. *)
Theorem C10_default_dockerfile
    {D : Type} {docker : Docker D} {local_time : LocalTime}
    (fuel : nat) (o : options) (w : world D) :
  build o = true →
  ∃ kw rest,
    calls (snd (BuildRun_main fuel o w)) = calls w ++ CBuild kw :: rest ∧
    bk_path kw = dir o ∧
    bk_dockerfile kw = match dockerfile o with
                       | None => "Dockerfile." +:+ env o
                       | Some f => f
                       end.
Proof.
  intros Hb. destruct (BuildRun_main_build_first fuel o w Hb) as [rest Hc].
  exists (build_kwargs o), rest. split; [exact Hc|]. split; reflexivity.
Qed.

Lemma C10_witness :
  ∃ kw rest,
    calls (snd (BuildRun_main (local_time:=utc) 1 (default_options "alice" ".")
                  (start (quiet_daemon []))))
      = [] ++ CBuild kw :: rest ∧
    bk_path kw = "." ∧
    bk_dockerfile kw = "Dockerfile.dev".
Proof.
  exact (C10_default_dockerfile (local_time:=utc) 1 (default_options "alice" ".")
           (start (quiet_daemon [])) eq_refl).
Defined.

(** C2 (the claim fails as stated: at verbosity 0 the tool does not poll
    at all).  Here the container is started, the wait is 5 seconds, and
    the run step ends with the run request: no listing of running
    containers is requested and no outcome is printed. *)
Lemma C2_no_poll_at_verbosity_0 :
  let o := run_only 0 5 in
  let w := start (quiet_daemon []) in
  let kw := {| rk_image := "alice:dev"; rk_name := "alice_dev"; rk_user := "alice";
               rk_ports := []; rk_volumes := []; rk_detach := true |} in
  wait o = 5 ∧
  fst (launch (local_time:=utc) 1 o w) = Done (Handle "0") ∧
  fst (run_step (local_time:=utc) 1 o w) = Done tt ∧
  calls (snd (run_step (local_time:=utc) 1 o w))
    = [CContainers true "^alice_dev$"; CRun kw] ∧
  stdout (snd (run_step (local_time:=utc) 1 o w)) = [].
Proof. cbv zeta. repeat split; vm_compute; reflexivity. Qed.

(** C2, amended.  At verbosity 1 or more, once the run request has
    returned a container object: the tool lists the running containers of
    the canonical name, sleeps one second after each listing that shows
    the name, and does so at most [wait + 1] times.  If the name is shown
    at all [wait + 1] listings, the last line printed is 'Success!'.  At
    the first listing that does not show it, the tool prints 'Died' with
    the seconds left, and that listing is its last request. *)
Theorem C2_countdown_when_verbose
    {D : Type} {docker : Docker D} {local_time : LocalTime}
    (fuel : nat) (o : options) (w w1 : world D) (id : string) (k : nat) :
  1 ≤ verbose o →
  launch fuel o w = (Done (Handle id), w1) →
  (k ≤ Z.to_nat (wait o + 1))%nat →
  (∀ j, (j < k)%nat →
        is_listed (name o) (poll_state (name o) j (daemon w1)) = true) →
  (k = Z.to_nat (wait o + 1) ∨
   is_absent (name o) (poll_state (name o) k (daemon w1)) = true) →
  ∃ w2,
    run_step fuel o w = (Done tt, w2) ∧
    calls w2 =
      calls w1 ++ rounds (name o) k
        ++ (if decide (k = Z.to_nat (wait o + 1)) then []
            else [CContainers false (name_filter (name o))]) ∧
    stdout w2 =
      stdout w1 ++ started_lines o id ++ running_lines k (wait o)
        ++ [if decide (k = Z.to_nat (wait o + 1))
            then Print (cr +:+ tab +:+ "Success!     ")
            else Print (cr +:+ tab +:+ str_int (wait o - Z.of_nat k) +:+ ": Died    ")].
Proof.
  intros Hv Hl Hk Hlisted Hend.
  unfold run_step. rewrite (bind_done _ _ _ _ _ Hl).
  assert ((1 <=? verbose o) = true) as -> by lia. rewrite when_true.
  rewrite (report_and_wait_eq o id k w1 Hk Hlisted Hend).
  eexists. split; [reflexivity|]. unfold countdown_end.
  destruct (decide (k = Z.to_nat (wait o + 1))) as [Heq|Hne]; cbn [daemon calls stdout].
  - rewrite <- Heq, app_nil_r, <- !app_assoc. split; reflexivity.
  - rewrite app_nil_r, <- !app_assoc. split; reflexivity.
Qed.

Lemma C2_witness :
  (∃ w2,
     run_step (local_time:=utc) 1 (run_only 1 2) (start (quiet_daemon [])) = (Done tt, w2) ∧
     calls w2 =
       calls (snd (launch (local_time:=utc) 1 (run_only 1 2) (start (quiet_daemon []))))
         ++ rounds "alice_dev" 3 ++ [] ∧
     stdout w2 =
       stdout (snd (launch (local_time:=utc) 1 (run_only 1 2) (start (quiet_daemon []))))
         ++ started_lines (run_only 1 2) "0" ++ running_lines 3 2
         ++ [Print (cr +:+ tab +:+ "Success!     ")]) ∧
  (∃ w2,
     run_step (local_time:=utc) 1 (run_only 1 2) (start (short_lived [] 2)) = (Done tt, w2) ∧
     calls w2 =
       calls (snd (launch (local_time:=utc) 1 (run_only 1 2) (start (short_lived [] 2))))
         ++ rounds "alice_dev" 2 ++ [CContainers false "^alice_dev$"] ∧
     stdout w2 =
       stdout (snd (launch (local_time:=utc) 1 (run_only 1 2) (start (short_lived [] 2))))
         ++ started_lines (run_only 1 2) "0" ++ running_lines 2 2
         ++ [Print (cr +:+ tab +:+ "0: Died    ")]).
Proof.
  split.
  - refine (C2_countdown_when_verbose (local_time:=utc) 1 (run_only 1 2)
              (start (quiet_daemon []))
              (snd (launch (local_time:=utc) 1 (run_only 1 2) (start (quiet_daemon []))))
              "0" 3 _ _ _ _ _).
    + simpl. lia.
    + vm_compute. reflexivity.
    + simpl. lia.
    + intros j Hj. destruct j as [|[|[|j]]]; [vm_compute; reflexivity..|lia].
    + left. reflexivity.
  - refine (C2_countdown_when_verbose (local_time:=utc) 1 (run_only 1 2)
              (start (short_lived [] 2))
              (snd (launch (local_time:=utc) 1 (run_only 1 2) (start (short_lived [] 2))))
              "0" 2 _ _ _ _ _).
    + simpl. lia.
    + vm_compute. reflexivity.
    + simpl. lia.
    + intros j Hj. destruct j as [|[|j]]; [vm_compute; reflexivity..|lia].
    + right. vm_compute. reflexivity.
Defined.

(** C3.  On a well-formed daemon, whatever containers hold the target
    name, as long as [datetime.fromtimestamp] accepts their creation
    times, reconciliation ends normally; afterwards no container holds the
    canonical name (so no two share it), and every rename it requested
    asked for a name that no container had at that moment, so that the
    renamed container alone has it.  The daemon stays well formed. *)
Theorem C3_names_unique_after_reconciliation
    {local_time : LocalTime} (fuel : nat) (o : options) (w : world fake) :
  wf (daemon w) →
  Forall representable (holders (name o) (fk_containers (daemon w))) →
  (length (fk_containers (daemon w)) < fuel)%nat →
  ∃ tr w',
    reconcile fuel o w = (Done tt, w') ∧
    calls w' = calls w ++ tr ∧
    daemon w' = replay tr (daemon w) ∧
    holders (name o) (fk_containers (daemon w')) = [] ∧
    renames_fresh tr (daemon w) ∧
    wf (daemon w').
Proof.
  intros [Hnd Hvalid] Hrep Hfuel.
  destruct (reconcile_fake fuel o w Hrep Hfuel) as (tr & cs' & os & Hrun & Hrec).
  destruct (reconciled_replay _ _ _ _ _ Hrec (daemon w) eq_refl) as [Hreplay Hfresh].
  destruct (reconciled_ids _ _ _ _ _ Hrec) as [Hids _].
  exists (CContainers true (name_filter (name o)) :: tr). eexists.
  split; [exact Hrun|]. cbn [daemon calls stdout].
  split; [reflexivity|]. split; [symmetry; exact Hreplay|]. split; [|split].
  - now apply (reconciled_clears _ _ _ _ Hrec).
  - split; [exact I | exact Hfresh].
  - split; cbn [fk_containers with_containers].
    + now rewrite Hids.
    + now apply (reconciled_valid _ _ _ _ _ Hrec).
Qed.

Lemma C3_witness :
  ∃ tr w',
    reconcile (local_time:=utc) 3 (run_only 0 5)
      (start (quiet_daemon [alice_dev; alice_dev_old])) = (Done tt, w') ∧
    calls w' = [] ++ tr ∧
    daemon w' = replay tr (quiet_daemon [alice_dev; alice_dev_old]) ∧
    holders "alice_dev" (fk_containers (daemon w')) = [] ∧
    renames_fresh tr (quiet_daemon [alice_dev; alice_dev_old]) ∧
    wf (daemon w').
Proof.
  refine (C3_names_unique_after_reconciliation (local_time:=utc) 3 (run_only 0 5)
            (start (quiet_daemon [alice_dev; alice_dev_old])) _ _ _).
  - split.
    + simpl. apply NoDup_cons. split; [|apply NoDup_singleton].
      intros Hin%list_elem_of_singleton. discriminate.
    + repeat constructor.
  - change (Forall (representable (local_time:=utc)) [alice_dev]).
    constructor; [now apply utc_representable | constructor].
  - simpl. lia.
Defined.

(** C4.  For a container the daemon lists under the target name and
    whose creation time [datetime.fromtimestamp] shows as the text <T'>,
    the loop body ends by renaming it to the first free name among
    '<name>_<T>', '<name>_<T>_1', '<name>_<T>_2', ..., where <T> is <T'>
    with spaces and colons replaced by underscores: every name before the
    one chosen is taken, the one chosen is free. *)
Theorem C4_rename_to_first_free_candidate
    {local_time : LocalTime} (fuel : nat) (o : options) (c : container)
    (created : string) (w : world fake) :
  wf (daemon w) →
  c ∈ fk_containers (daemon w) →
  Name c = name o →
  fromtimestamp (Created c) = Some created →
  (length (fk_containers (daemon w)) < fuel)%nat →
  ∃ j w',
    reconcile_one fuel o c w = (Done tt, w') ∧
    last (calls w') = Some (CRename (Id c) (nth_candidate (name o) created j)) ∧
    (nth_candidate (name o) created j ∉ (Name <$> fk_containers (daemon w))) ∧
    (∀ i, (i < j)%nat →
          nth_candidate (name o) created i ∈ (Name <$> fk_containers (daemon w))).
Proof.
  intros [Hnd Hvalid] Hc Hname Hcreated Hfuel.
  assert (name_safe (name o) = name o) as Hsafe.
  { rewrite Forall_forall in Hvalid. rewrite <- Hname.
    apply valid_name_eq, Hvalid, Hc. }
  destruct (reconcile_one_fake fuel o c w) as (j & Hfree & Htaken & Hrun);
    [now exists created | now apply list_elem_of_fmap_2 | exact Hfuel |].
  exists j. eexists. split; [exact Hrun|]. cbn [calls].
  rewrite <- !(tried_safe _ _ c _ Hsafe Hcreated). split; [|split].
  - rewrite !app_assoc. apply last_snoc.
  - exact Hfree.
  - intros i Hi. rewrite <- (tried_safe _ _ c _ Hsafe Hcreated). now apply Htaken.
Qed.

Lemma C4_witness :
  ∃ w',
    reconcile_one (local_time:=utc) 3 (run_only 0 5) alice_dev
      (start (quiet_daemon [alice_dev; alice_dev_old])) = (Done tt, w') ∧
    last (calls w') = Some (CRename "4f2a" "alice_dev_2020-01-02_03_04_05_1").
Proof.
  destruct (C4_rename_to_first_free_candidate (local_time:=utc) 3 (run_only 0 5)
              alice_dev "2020-01-02 03:04:05"
              (start (quiet_daemon [alice_dev; alice_dev_old])))
    as (j & w' & Hrun & Hlast & Hfree & Htaken).
  - split.
    + simpl. apply NoDup_cons. split; [|apply NoDup_singleton].
      intros Hin%list_elem_of_singleton. discriminate.
    + repeat constructor.
  - apply list_elem_of_here.
  - reflexivity.
  - vm_compute. reflexivity.
  - simpl. lia.
  - exists w'. split; [exact Hrun|].
    destruct j as [|[|j]].
    + exfalso. apply Hfree. apply list_elem_of_fmap. exists alice_dev_old.
      split; [vm_compute; reflexivity|].
      apply list_elem_of_further, list_elem_of_here.
    + exact Hlast.
    + exfalso. specialize (Htaken 1%nat ltac:(lia)).
      apply list_elem_of_fmap in Htaken as [x [Hx Hin]].
      apply elem_of_cons in Hin as [->|Hin]; [vm_compute in Hx; discriminate|].
      apply list_elem_of_singleton in Hin as ->. vm_compute in Hx. discriminate.
Defined.

(** C7.  On a well-formed daemon whose containers under the target name
    have creation times [datetime.fromtimestamp] accepts, between the
    first listing and the run request the tool issues only reconciliation
    requests: a stop for each container listed under the target name whose
    state, in lower case, is 'running', and for no other (a match in any
    other state is not stopped), and a rename for every container listed,
    whatever its state, in the order listed.  When the run request is
    issued no container has been created or deleted (same ids, same
    creation times), no container holds the canonical name, the containers
    of other names are as they were, and a renamed container shares its
    name with no other container. *)
Theorem C7_every_match_stopped_renamed_kept
    {local_time : LocalTime} (fuel : nat) (o : options) (kw : run_kwargs_t)
    (w : world fake) :
  wf (daemon w) →
  Forall representable (holders (name o) (fk_containers (daemon w))) →
  (length (fk_containers (daemon w)) < fuel)%nat →
  run_kwargs o = Some kw →
  ∃ tr,
    calls (snd (launch fuel o w)) =
      calls w ++ CContainers true (name_filter (name o)) :: tr ++ [CRun kw] ∧
    Forall is_reconcile_call tr ∧
    stop_ids tr =
      Id <$> filter (λ c, lower (State c) = "running")
                    (holders (name o) (fk_containers (daemon w))) ∧
    rename_ids tr = Id <$> holders (name o) (fk_containers (daemon w)) ∧
    Id <$> fk_containers (replay tr (daemon w)) = Id <$> fk_containers (daemon w) ∧
    Created <$> fk_containers (replay tr (daemon w))
      = Created <$> fk_containers (daemon w) ∧
    holders (name o) (fk_containers (replay tr (daemon w))) = [] ∧
    (∀ x, x ∈ fk_containers (daemon w) → Name x ≠ name o →
          x ∈ fk_containers (replay tr (daemon w))) ∧
    (∀ x y, x ∈ fk_containers (replay tr (daemon w)) →
            y ∈ fk_containers (replay tr (daemon w)) →
            Id x ∈ Id <$> holders (name o) (fk_containers (daemon w)) →
            Name x = Name y → x = y).
Proof.
  intros [Hnd Hvalid] Hrep Hfuel Hkw.
  destruct (launch_fake fuel o kw w Hkw Hrep Hfuel) as (tr & cs' & os & Hrec & Hrun).
  destruct (reconciled_replay _ _ _ _ _ Hrec (daemon w) eq_refl) as [Hreplay _].
  destruct (reconciled_ids _ _ _ _ _ Hrec) as [Hids Hcreated].
  destruct (reconciled_requests _ _ _ _ _ Hrec) as [Hstops Hrenames].
  exists tr. rewrite Hreplay. cbn [fk_containers with_containers].
  repeat split.
  - rewrite Hrun. unfold containers_run. rewrite request_calls.
    cbn [calls]. now rewrite <- app_assoc.
  - now apply (reconciled_calls _ _ _ _ _ Hrec).
  - rewrite Hstops. f_equal. apply running_holders.
  - exact Hrenames.
  - exact Hids.
  - exact Hcreated.
  - now apply (reconciled_clears _ _ _ _ Hrec).
  - intros x Hx Hne. apply (reconciled_untouched _ _ _ _ _ Hrec); [exact Hx|].
    intros Hin. apply list_elem_of_fmap in Hin as [m [Hm Hin]].
    apply holders_elem in Hin as [Hn Hin].
    apply Hne. rewrite <- Hn. f_equal. now apply (NoDup_ids_eq _ _ _ Hnd).
  - intros x y Hx Hy Hin Hn.
    apply (NoDup_ids_eq cs'); [now rewrite Hids | exact Hx | exact Hy |].
    apply (reconciled_unique _ _ _ _ _ Hrec (λ _, False)); auto.
    intros ? ? _ _ [].
Qed.

Lemma C7_witness :
  let kw := {| rk_image := "alice:dev"; rk_name := "alice_dev"; rk_user := "alice";
               rk_ports := []; rk_volumes := []; rk_detach := true |} in
  (let d := quiet_daemon [alice_dev; alice_dev_old] in
   ∃ tr,
     calls (snd (launch (local_time:=utc) 3 (run_only 0 5) (start d))) =
       [] ++ CContainers true "^alice_dev$" :: tr ++ [CRun kw] ∧
     Forall is_reconcile_call tr ∧
     stop_ids tr = ["4f2a"] ∧
     rename_ids tr = ["4f2a"] ∧
     Id <$> fk_containers (replay tr d) = ["4f2a"; "9c1e"] ∧
     Created <$> fk_containers (replay tr d) = [T1; T1] ∧
     holders "alice_dev" (fk_containers (replay tr d)) = [] ∧
     (∀ x, x ∈ [alice_dev; alice_dev_old] → Name x ≠ "alice_dev" →
           x ∈ fk_containers (replay tr d)) ∧
     (∀ x y, x ∈ fk_containers (replay tr d) →
             y ∈ fk_containers (replay tr d) →
             Id x ∈ ["4f2a"] →
             Name x = Name y → x = y)) ∧
  (let d := quiet_daemon [alice_dev_exited; alice_dev_old] in
   ∃ tr,
     calls (snd (launch (local_time:=utc) 3 (run_only 0 5) (start d))) =
       [] ++ CContainers true "^alice_dev$" :: tr ++ [CRun kw] ∧
     Forall is_reconcile_call tr ∧
     stop_ids tr = [] ∧
     rename_ids tr = ["b7d0"] ∧
     Id <$> fk_containers (replay tr d) = ["b7d0"; "9c1e"] ∧
     Created <$> fk_containers (replay tr d) = [T1; T1] ∧
     holders "alice_dev" (fk_containers (replay tr d)) = [] ∧
     (∀ x, x ∈ [alice_dev_exited; alice_dev_old] → Name x ≠ "alice_dev" →
           x ∈ fk_containers (replay tr d)) ∧
     (∀ x y, x ∈ fk_containers (replay tr d) →
             y ∈ fk_containers (replay tr d) →
             Id x ∈ ["b7d0"] →
             Name x = Name y → x = y)).
Proof.
  cbv zeta. split.
  - refine (C7_every_match_stopped_renamed_kept (local_time:=utc) 3 (run_only 0 5)
              _ (start (quiet_daemon [alice_dev; alice_dev_old])) _ _ _ eq_refl).
    + split.
      * simpl. apply NoDup_cons. split; [|apply NoDup_singleton].
        intros Hin%list_elem_of_singleton. discriminate.
      * repeat constructor.
    + change (Forall (representable (local_time:=utc)) [alice_dev]).
      constructor; [now apply utc_representable | constructor].
    + simpl. lia.
  - refine (C7_every_match_stopped_renamed_kept (local_time:=utc) 3 (run_only 0 5)
              _ (start (quiet_daemon [alice_dev_exited; alice_dev_old])) _ _ _ eq_refl).
    + split.
      * simpl. apply NoDup_cons. split; [|apply NoDup_singleton].
        intros Hin%list_elem_of_singleton. discriminate.
      * repeat constructor.
    + change (Forall (representable (local_time:=utc)) [alice_dev_exited]).
      constructor; [now apply utc_representable | constructor].
    + simpl. lia.
Defined.

(** C8.  Once reconciliation has run (on containers whose creation times
    [datetime.fromtimestamp] accepts, so that it ends normally), no
    container holds the canonical name, and running it again (before any
    container is created) is one listing that comes back empty: no stop,
    no rename, and the daemon is left as it is. *)
Theorem C8_second_reconciliation_finds_nothing
    {local_time : LocalTime} (fuel : nat) (o : options) (w : world fake) :
  Forall representable (holders (name o) (fk_containers (daemon w))) →
  (length (fk_containers (daemon w)) < fuel)%nat →
  ∃ w1,
    reconcile fuel o w = (Done tt, w1) ∧
    holders (name o) (fk_containers (daemon w1)) = [] ∧
    reconcile fuel o w1 =
    (Done tt,
     World (daemon w1)
           (calls w1 ++ [CContainers true (name_filter (name o))])
           (stdout w1 ++ if 1 <=? verbose o
                         then [Print ("No existing containers for " +:+ name o +:+ ".")]
                         else [])).
Proof.
  intros Hrep Hfuel.
  destruct (reconcile_fake fuel o w Hrep Hfuel) as (tr & cs' & os & Hrun & Hrec).
  apply reconciled_clears in Hrec.
  eexists. split; [exact Hrun|]. split; [exact Hrec|].
  now apply reconcile_no_match.
Qed.

Lemma C8_witness :
  ∃ w1,
    reconcile (local_time:=utc) 3 (run_only 0 5)
      (start (quiet_daemon [alice_dev; alice_dev_old])) = (Done tt, w1) ∧
    holders "alice_dev" (fk_containers (daemon w1)) = [] ∧
    reconcile (local_time:=utc) 3 (run_only 0 5) w1 =
    (Done tt,
     World (daemon w1) (calls w1 ++ [CContainers true "^alice_dev$"])
           (stdout w1 ++ [])).
Proof.
  refine (C8_second_reconciliation_finds_nothing (local_time:=utc) 3 (run_only 0 5)
            (start (quiet_daemon [alice_dev; alice_dev_old])) _ _).
  - change (Forall (representable (local_time:=utc)) [alice_dev]).
    constructor; [now apply utc_representable | constructor].
  - simpl. lia.
Defined.

(** * Further properties of the code *)

Section MoreOnBuild.
Context {D : Type} {docker : Docker D} {local_time : LocalTime}.

Lemma has_marker_spec (image : list event) :
  has_marker image = true ↔
  ∃ i text a b, i ∈ image ∧ i !! "stream" = Some text ∧
                text = a +:+ "Successfully built" +:+ b.
Proof.
  unfold has_marker. rewrite existsb_exists. split.
  - intros [i [Hi Hm]]. apply list_elem_of_In in Hi.
    destruct (i !! "stream") as [text|] eqn:Ht; [|discriminate].
    apply contains_spec in Hm as [a [b Hab]]. exists i, text, a, b. auto.
  - intros (i & text & a & b & Hi & Ht & Hab). exists i.
    split; [now apply list_elem_of_In|]. rewrite Ht. apply contains_spec. eauto.
Qed.

Lemma build_step_read (o : options) (w : world D) (s : stream) (d' : D) :
  1 ≤ verbose o →
  daemon_build (build_kwargs o) (daemon w) = (Reply s, d') →
  fst (build_step o w) =
  match fault s with
  | Some f => Raised (exn_of_failure f)
  | None => if has_marker (items s) then Done tt
            else Raised (BuildRunError 101 "Build Failed")
  end.
Proof.
  intros Hv Hb. unfold build_step. mrun.
  assert ((1 <=? verbose o) = true) as -> by lia.
  destruct (2 <=? verbose o); mloops; rewrite Hb; mloops;
    (destruct (fault s); [reflexivity|]);
    destruct (has_marker (items s)); reflexivity.
Qed.

End MoreOnBuild.

(** X1.  With the log shown (verbose >= 1), a build whose stream fails
    while it is read ends in that failure; a build whose stream ends
    normally succeeds exactly when some event has a 'stream' text in
    which 'Successfully built' occurs, and ends in error 101 otherwise.
    Events without a 'stream' key do not count. *)
Theorem X1_build_outcome_when_log_is_read
    {D : Type} {docker : Docker D}
    (o : options) (w : world D) (s : stream) (d' : D) :
  1 ≤ verbose o →
  daemon_build (build_kwargs o) (daemon w) = (Reply s, d') →
  match fault s with
  | Some f => fst (build_step o w) = Raised (exn_of_failure f)
  | None =>
      (fst (build_step o w) = Done tt ↔
       ∃ i text a b, i ∈ items s ∧ i !! "stream" = Some text ∧
                     text = a +:+ "Successfully built" +:+ b) ∧
      (fst (build_step o w) ≠ Done tt →
       fst (build_step o w) = Raised (BuildRunError 101 "Build Failed"))
  end.
Proof.
  intros Hv Hb. rewrite (build_step_read o w s d' Hv Hb).
  destruct (fault s) as [f|]; [reflexivity|].
  rewrite <- has_marker_spec.
  destruct (has_marker (items s)); split; try split; try congruence; auto.
Qed.

Lemma X1_witness :
  let o := {| user := "alice"; dir := "."; cache := true; pull := true; rm := false;
              detach := true; env := "dev"; wait := 5; push := false; run := false;
              build := true; repo_name := "benjilev08"; port := []; volume := [];
              dockerfile := None; verbose := 1 |} in
  (fst (build_step o (start (quiet_daemon []))) = Done tt ↔
   ∃ (i : event) text a b,
     i ∈ [{["stream" := "Step 1/1 : FROM scratch"]};
          {["stream" := "Successfully built 0123abcd"]}] ∧
     i !! "stream" = Some text ∧ text = a +:+ "Successfully built" +:+ b) ∧
  (fst (build_step o (start (quiet_daemon []))) ≠ Done tt →
   fst (build_step o (start (quiet_daemon [])))
   = Raised (BuildRunError 101 "Build Failed")).
Proof.
  cbv zeta.
  refine (X1_build_outcome_when_log_is_read _ (start (quiet_daemon []))
            (Stream [{["stream" := "Step 1/1 : FROM scratch"]};
                     {["stream" := "Successfully built 0123abcd"]}] None)
            (quiet_daemon []) _ eq_refl).
  simpl. lia.
Defined.

(** X2.  With the log hidden (verbose < 1) the events of the build are
    never read: whenever the daemon accepts the build request the step
    ends in error 101, whatever the stream holds, prints nothing, and its
    only request is the build request. *)
Theorem X2_build_always_fails_when_log_is_hidden
    {D : Type} {docker : Docker D}
    (o : options) (w : world D) (s : stream) (d' : D) :
  verbose o < 1 →
  daemon_build (build_kwargs o) (daemon w) = (Reply s, d') →
  build_step o w =
  (Raised (BuildRunError 101 "Build Failed"),
   World d' (calls w ++ [CBuild (build_kwargs o)]) (stdout w)).
Proof.
  intros Hv Hb. unfold build_step. mrun.
  assert ((1 <=? verbose o) = false) as -> by lia.
  assert ((2 <=? verbose o) = false) as -> by lia.
  now rewrite Hb.
Qed.

Lemma X2_witness :
  build_step (default_options "alice" ".") (start (quiet_daemon [])) =
  (Raised (BuildRunError 101 "Build Failed"),
   World (quiet_daemon []) ([] ++ [CBuild (build_kwargs (default_options "alice" "."))]) []).
Proof.
  refine (X2_build_always_fails_when_log_is_hidden (default_options "alice" ".")
            (start (quiet_daemon [])) _ (quiet_daemon []) _ eq_refl).
  simpl. lia.
Defined.

(** X3.  When the build step ends in an exception, [BuildRun.main] ends
    in the same exception and the build request is its only request: no
    container is listed, stopped, renamed or started and no image is
    tagged or pushed. *)
Theorem X3_failed_build_touches_nothing_else
    {D : Type} {docker : Docker D} {local_time : LocalTime}
    (fuel : nat) (o : options) (w : world D) (e : exn) :
  build o = true →
  fst (build_step o w) = Raised e →
  BuildRun_main fuel o w = (Raised e, snd (build_step o w)) ∧
  calls (snd (BuildRun_main fuel o w)) = calls w ++ [CBuild (build_kwargs o)].
Proof.
  intros Hb He. unfold BuildRun_main. rewrite Hb, when_true, bind_unfold.
  pose proof (build_step_calls o w) as Hc.
  destruct (build_step o w) as [[[]|e'|] w1]; simpl in He; try discriminate.
  injection He as ->. split; [reflexivity | exact Hc].
Qed.

Lemma X3_witness :
  let o := default_options "alice" "." in
  let w := start (quiet_daemon [alice_dev]) in
  BuildRun_main (local_time:=utc) 3 o w = (Raised (BuildRunError 101 "Build Failed"), snd (build_step o w)) ∧
  calls (snd (BuildRun_main (local_time:=utc) 3 o w)) = [] ++ [CBuild (build_kwargs o)].
Proof.
  cbv zeta.
  refine (X3_failed_build_touches_nothing_else (local_time:=utc) 3
            (default_options "alice" ".") (start (quiet_daemon [alice_dev]))
            (BuildRunError 101 "Build Failed") eq_refl _).
  vm_compute. reflexivity.
Defined.

Lemma split_nonempty (sep : ascii) (s : string) :
  ∃ x xs, split sep s = x :: xs.
Proof.
  destruct s as [|c s]; simpl; [eauto|].
  destruct (Ascii.eqb c sep); [eauto|].
  destruct (split sep s); eauto.
Qed.

(** [s.split(':')] has a second element exactly when [':' in s]. *)
Lemma split_colon (s : string) :
  (∃ k v rest, split ":" s = k :: v :: rest) ↔ contains ":" s = true.
Proof.
  induction s as [|c s IH].
  - split; [intros (k & v & rest & E); discriminate | discriminate].
  - change (contains ":" (String.String c s))
      with (String.prefix ":" (String.String c s) || contains ":" s).
    cbn [split String.prefix].
    destruct (Ascii.eqb_spec c ":") as [->|Hc].
    + split.
      * intros _. destruct (Ascii.ascii_dec ":" ":") as [_|E]; [|congruence].
        destruct s; reflexivity.
      * intros _. destruct (split_nonempty ":" s) as (x & xs & ->). eauto.
    + destruct (Ascii.ascii_dec ":" c) as [E|_]; [congruence|].
      rewrite orb_false_l, <- IH.
      destruct (split ":" s) as [|x [|y ys]].
      * split; intros (k & v & rest & E); discriminate.
      * split; intros (k & v & rest & E); discriminate.
      * split; intros _; eauto.
Qed.

Lemma ports_dict_none (port : list string) :
  ∀ acc, ports_dict port acc = None ↔ ∃ p, p ∈ port ∧ contains ":" p = false.
Proof.
  induction port as [|p port IH]; intros acc.
  - split; [discriminate | intros (p & Hp & _); now apply not_elem_of_nil in Hp].
  - cbn [ports_dict]. destruct (contains ":" p) eqn:Hc.
    + pose proof Hc as Hs. apply split_colon in Hs as (k & v & rest & ->). rewrite IH.
      split; intros (q & Hq & Hn); exists q; (split; [|exact Hn]).
      * now apply list_elem_of_further.
      * apply elem_of_cons in Hq as [->|Hq]; [congruence | exact Hq].
    + assert (∀ k v rest, split ":" p ≠ k :: v :: rest) as Hs.
      { intros k v rest E. apply not_true_iff_false in Hc. apply Hc, split_colon. eauto. }
      destruct (split ":" p) as [|x [|y ys]].
      * split; [|reflexivity]. intros _. exists p. split; [apply list_elem_of_here | exact Hc].
      * split; [|reflexivity]. intros _. exists p. split; [apply list_elem_of_here | exact Hc].
      * exfalso. now apply (Hs x y ys).
Qed.

Lemma volumes_dict_none (volume : list string) :
  ∀ acc, volumes_dict volume acc = None ↔ ∃ p, p ∈ volume ∧ contains ":" p = false.
Proof.
  induction volume as [|p volume IH]; intros acc.
  - split; [discriminate | intros (p & Hp & _); now apply not_elem_of_nil in Hp].
  - cbn [volumes_dict]. destruct (contains ":" p) eqn:Hc.
    + pose proof Hc as Hs. apply split_colon in Hs as (k & v & rest & ->). rewrite IH.
      split; intros (q & Hq & Hn); exists q; (split; [|exact Hn]).
      * now apply list_elem_of_further.
      * apply elem_of_cons in Hq as [->|Hq]; [congruence | exact Hq].
    + assert (∀ k v rest, split ":" p ≠ k :: v :: rest) as Hs.
      { intros k v rest E. apply not_true_iff_false in Hc. apply Hc, split_colon. eauto. }
      destruct (split ":" p) as [|x [|y ys]].
      * split; [|reflexivity]. intros _. exists p. split; [apply list_elem_of_here | exact Hc].
      * split; [|reflexivity]. intros _. exists p. split; [apply list_elem_of_here | exact Hc].
      * exfalso. now apply (Hs x y ys).
Qed.

Lemma run_kwargs_none (o : options) :
  run_kwargs o = None ↔ ∃ p, p ∈ port o ++ volume o ∧ contains ":" p = false.
Proof.
  unfold run_kwargs. setoid_rewrite elem_of_app.
  destruct (ports_dict (port o) []) as [ports|] eqn:Hp.
  - destruct (volumes_dict (volume o) []) as [volumes|] eqn:Hv.
    + split; [discriminate|]. intros (p & [Hin|Hin] & Hn).
      * assert (ports_dict (port o) [] = None) by (apply ports_dict_none; eauto).
        congruence.
      * assert (volumes_dict (volume o) [] = None) by (apply volumes_dict_none; eauto).
        congruence.
    + split; [|reflexivity]. intros _.
      apply volumes_dict_none in Hv as (p & Hin & Hn). eauto.
  - split; [|reflexivity]. intros _.
    apply ports_dict_none in Hp as (p & Hin & Hn). eauto.
Qed.

(** X4.  The keyword arguments of the run cannot be built exactly when
    some --port or --volume entry has no colon; the run step then ends in
    IndexError before any request is issued and before anything is
    printed, so no container is stopped or renamed. *)
Theorem X4_entry_without_colon_is_an_IndexError
    {D : Type} {docker : Docker D} {local_time : LocalTime}
    (fuel : nat) (o : options) (w : world D) :
  (run_kwargs o = None ↔ ∃ p, p ∈ port o ++ volume o ∧ contains ":" p = false) ∧
  (run_kwargs o = None → run_step fuel o w = (Raised IndexError, w)).
Proof.
  split; [apply run_kwargs_none|].
  intros Hk. unfold run_step, launch. rewrite Hk. reflexivity.
Qed.

Lemma X4_witness :
  run_step (local_time:=utc) 3 (with_ports ["80/tcp:8080"; "443"])
    (start (quiet_daemon [alice_dev]))
  = (Raised IndexError, start (quiet_daemon [alice_dev])).
Proof.
  refine (proj2 (X4_entry_without_colon_is_an_IndexError (local_time:=utc) 3
                   (with_ports ["80/tcp:8080"; "443"])
                   (start (quiet_daemon [alice_dev]))) eq_refl).
Defined.

(** X5.  The tag request is outside the [try]: when it raises, the push
    step ends in that very exception (an APIError stays an APIError, it
    does not become error 102 or 103), nothing is printed, and no push
    request is issued. *)
Theorem X5_tag_exception_is_not_wrapped
    {D : Type} {docker : Docker D}
    (o : options) (w : world D) (f : failure) (d' : D) :
  daemon_tag (tag o) (repo_name o +:+ "/" +:+ user o) (env o) (daemon w)
    = (Fail f, d') →
  push_step o w =
  (Raised (match f with
           | ApiFailure explanation => APIError explanation
           | OtherFailure what => OtherError what
           end),
   World d' (calls w ++ [CTag (tag o) (repo_name o +:+ "/" +:+ user o) (env o)])
         (stdout w)).
Proof.
  intros Ht. rewrite (push_step_tag_fail o w f d' Ht). now destruct f.
Qed.

Lemma X5_witness :
  let d := scripted [] good_build (Fail (ApiFailure "no such image"))
             (Reply (Stream [] None)) in
  push_step (default_options "alice" ".") (start d) =
  (Raised (APIError "no such image"),
   World d ([] ++ [CTag "alice:dev" "benjilev08/alice" "dev"]) []).
Proof.
  cbv zeta.
  exact (X5_tag_exception_is_not_wrapped (default_options "alice" ".")
           (start (scripted [] good_build (Fail (ApiFailure "no such image"))
                     (Reply (Stream [] None))))
           (ApiFailure "no such image") _ eq_refl).
Defined.

(** X6.  Once the image is tagged, the step issues exactly one push
    request after the tag request, and ends as the push ends: normally
    when the stream ends normally, in error 103 for an APIError, and in
    the exception itself for any other exception, which the [except]
    clause does not catch. *)
Theorem X6_push_outcome
    {D : Type} {docker : Docker D}
    (o : options) (w : world D) (d1 d2 : D) (r : reply stream) :
  daemon_tag (tag o) (repo_name o +:+ "/" +:+ user o) (env o) (daemon w)
    = (Reply true, d1) →
  daemon_push (repo_name o +:+ "/" +:+ user o) (env o) d1 = (r, d2) →
  calls (snd (push_step o w)) =
    calls w ++ [CTag (tag o) (repo_name o +:+ "/" +:+ user o) (env o);
                CPush (repo_name o +:+ "/" +:+ user o) (env o)] ∧
  fst (push_step o w) =
    match stream_failure r with
    | None => Done tt
    | Some (ApiFailure _) =>
        Raised (BuildRunError 103
          ("Failed to push " +:+ repo_name o +:+ "/" +:+ user o +:+ ":" +:+ env o))
    | Some (OtherFailure what) => Raised (OtherError what)
    end.
Proof.
  intros Ht Hp. destruct (push_step_tagged o w d1 d2 r Ht Hp) as (Hc & _ & Hr).
  split; [exact Hc | exact Hr].
Qed.

Lemma X6_witness :
  let broken := Stream [{["status" := "Pushing"]}] (Some (OtherFailure "ConnectionError")) in
  let d := scripted [] good_build (Reply true) (Reply broken) in
  calls (snd (push_step (default_options "alice" ".") (start d))) =
    [] ++ [CTag "alice:dev" "benjilev08/alice" "dev"; CPush "benjilev08/alice" "dev"] ∧
  fst (push_step (default_options "alice" ".") (start d)) =
    Raised (OtherError "ConnectionError").
Proof.
  cbv zeta.
  set (broken := Stream [{["status" := "Pushing"]}] (Some (OtherFailure "ConnectionError"))).
  set (d := scripted [] good_build (Reply true) (Reply broken)).
  exact (X6_push_outcome (default_options "alice" ".") (start d) d d (Reply broken)
           eq_refl eq_refl).
Defined.

Lemma push_step_image_calls {D : Type} {docker : Docker D} (o : options) (w : world D) :
  ∃ l, calls (snd (push_step o w)) = calls w ++ l ∧ Forall is_image_call l.
Proof.
  destruct (daemon_tag (tag o) (repo_name o +:+ "/" +:+ user o) (env o) (daemon w))
    as [[[|]|f] d1] eqn:Ht.
  - destruct (daemon_push (repo_name o +:+ "/" +:+ user o) (env o) d1) as [r d2] eqn:Hp.
    destruct (push_step_tagged o w d1 d2 r Ht Hp) as (Hc & _ & _).
    eexists. split; [exact Hc|]. repeat constructor.
  - rewrite (push_step_tag_false o w d1 Ht). eexists. split; [reflexivity|].
    repeat constructor.
  - rewrite (push_step_tag_fail o w f d1 Ht). eexists. split; [reflexivity|].
    repeat constructor.
Qed.

(** X7.  With --no-run the tool leaves the containers alone, whatever the
    daemon answers: every request it issues is a build, a tag or a push;
    it lists, stops, renames and starts no container and never sleeps. *)
Theorem X7_no_run_leaves_containers_alone
    {D : Type} {docker : Docker D} {local_time : LocalTime}
    (fuel : nat) (o : options) (w : world D) :
  run o = false →
  ∃ l, calls (snd (BuildRun_main fuel o w)) = calls w ++ l ∧
       Forall is_image_call l.
Proof.
  intros Hr. unfold BuildRun_main. rewrite Hr.
  assert (∃ l, calls (snd (when (build o) (build_step o) w)) = calls w ++ l ∧
               Forall is_image_call l) as (l1 & Hl1 & Hf1).
  { destruct (build o); cbn [when].
    - exists [CBuild (build_kwargs o)]. split; [apply build_step_calls|].
      repeat constructor.
    - exists []. split; [simpl; now rewrite app_nil_r | constructor]. }
  rewrite bind_unfold.
  destruct (when (build o) (build_step o) w) as [[[]|e|] w1]; cbn [snd] in Hl1;
    try (exists l1; split; [exact Hl1 | exact Hf1]).
  rewrite bind_unfold, when_false.
  assert (∃ l, calls (snd (when (push o) (push_step o) w1)) = calls w1 ++ l ∧
               Forall is_image_call l) as (l2 & Hl2 & Hf2).
  { destruct (push o); cbn [when].
    - apply push_step_image_calls.
    - exists []. split; [simpl; now rewrite app_nil_r | constructor]. }
  exists (l1 ++ l2). split; [|now apply Forall_app].
  now rewrite Hl2, Hl1, app_assoc.
Qed.

Lemma X7_witness :
  ∃ l, calls (snd (BuildRun_main (local_time:=utc) 3 build_and_push
                     (start (quiet_daemon [alice_dev])))) = [] ++ l ∧
       Forall is_image_call l.
Proof.
  exact (X7_no_run_leaves_containers_alone (local_time:=utc) 3 build_and_push
           (start (quiet_daemon [alice_dev])) eq_refl).
Defined.

Lemma liveness_poll_bounded
    {D : Type} {docker : Docker D} {local_time : LocalTime} (nm : string) (n : nat) :
  ∀ (wait : Z) (w : world D),
    n = Z.to_nat (wait + 1) →
    fst (liveness_poll n nm wait w) ≠ OutOfFuel ∧
    ∃ l, calls (snd (liveness_poll n nm wait w)) = calls w ++ l ∧
         (length (filter (λ c, is_poll c = true) l) ≤ n)%nat ∧
         Forall (λ c, c = CContainers false (name_filter nm) ∨ c = CSleep 1) l.
Proof.
  induction n as [|n IH]; intros wait w Hn.
  - assert ((0 <=? wait) = false) as Hw by lia.
    simpl. rewrite Hw. split; [discriminate|].
    exists []. simpl. rewrite app_nil_r.
    split; [reflexivity|]. split; [lia | constructor].
  - assert ((0 <=? wait) = true) as Hw by lia.
    cbn [liveness_poll]. rewrite Hw. unfold api_containers. mrun.
    destruct (daemon_containers false (name_filter nm) (daemon w)) as [[[|c cs]|f] d1].
    + cbn [fst snd daemon calls stdout]. split; [discriminate|].
      exists [CContainers false (name_filter nm)].
      split; [reflexivity|]. split; [simpl; lia | repeat constructor; auto].
    + cbn [daemon calls stdout].
      set (w2 := World (daemon_sleep 1 d1) _ _).
      destruct (IH (wait - 1) w2 ltac:(lia)) as [Hne (l & Hl & Hlen & Hall)].
      destruct (liveness_poll n nm (wait - 1) w2) as [[b|e|] w3]; cbn [fst snd] in *;
        try congruence;
        (split; [discriminate|]);
        exists (CContainers false (name_filter nm) :: CSleep 1 :: l);
        (split; [rewrite Hl; unfold w2; cbn [calls]; now rewrite <- !app_assoc|]);
        (split; [rewrite filter_cons_True by reflexivity;
                 rewrite filter_cons_False by discriminate; simpl; lia|]);
        (constructor; [now left|]); (constructor; [now right|]); exact Hall.
    + cbn [fst snd daemon calls stdout]. split; [discriminate|].
      exists [CContainers false (name_filter nm)].
      split; [reflexivity|]. split; [simpl; lia | repeat constructor; auto].
Qed.

(** X8.  Whatever the daemon answers, the countdown of lines 112-120
    ends after at most [wait + 1] listings of the running containers
    (none when wait is negative), and between its listings it does
    nothing but sleep one second. *)
Theorem X8_countdown_is_bounded
    {D : Type} {docker : Docker D} {local_time : LocalTime}
    (o : options) (w : world D) :
  fst (liveness_poll (Z.to_nat (wait o + 1)) (name o) (wait o) w) ≠ OutOfFuel ∧
  ∃ l, calls (snd (liveness_poll (Z.to_nat (wait o + 1)) (name o) (wait o) w))
         = calls w ++ l ∧
       (length (filter (λ c, is_poll c = true) l) ≤ Z.to_nat (wait o + 1))%nat ∧
       Forall (λ c, c = CContainers false (name_filter (name o)) ∨ c = CSleep 1) l.
Proof.
  destruct (liveness_poll_bounded (name o) (Z.to_nat (wait o + 1)) (wait o) w eq_refl)
    as [Hne (l & Hl & Hlen & Hall)].
  split; [exact Hne|]. exists l. split; [exact Hl|]. split; [exact Hlen | exact Hall].
Qed.

(** X9.  With a negative wait and verbose >= 1 the countdown does not
    run at all: after the run request has returned a container object the
    tool prints 'Success!' without having asked the daemon once whether
    the container is up. *)
Theorem X9_negative_wait_reports_success_unchecked
    {D : Type} {docker : Docker D} {local_time : LocalTime}
    (fuel : nat) (o : options) (w w1 : world D) (id : string) :
  wait o < 0 →
  1 ≤ verbose o →
  launch fuel o w = (Done (Handle id), w1) →
  run_step fuel o w =
  (Done tt,
   World (daemon w1) (calls w1)
         (stdout w1 ++ started_lines o id ++ [Print (cr +:+ tab +:+ "Success!     ")])).
Proof.
  intros Hw Hv Hl. unfold run_step. rewrite (bind_done _ _ _ _ _ Hl).
  assert ((1 <=? verbose o) = true) as -> by lia. rewrite when_true.
  assert (Z.to_nat (wait o + 1) = 0%nat) as Hn by lia.
  rewrite (report_and_wait_eq o id 0 w1); [| lia | intros j Hj; lia | now left].
  rewrite Hn. unfold countdown_end. simpl.
  now rewrite !app_nil_r, <- !app_assoc.
Qed.

Lemma X9_witness :
  run_step (local_time:=utc) 1 (run_only 1 (-1)) (start (quiet_daemon [])) =
  (Done tt,
   World (daemon (snd (launch (local_time:=utc) 1 (run_only 1 (-1)) (start (quiet_daemon [])))))
         (calls (snd (launch (local_time:=utc) 1 (run_only 1 (-1)) (start (quiet_daemon [])))))
         (stdout (snd (launch (local_time:=utc) 1 (run_only 1 (-1)) (start (quiet_daemon []))))
            ++ started_lines (run_only 1 (-1)) "0"
            ++ [Print (cr +:+ tab +:+ "Success!     ")])).
Proof.
  refine (X9_negative_wait_reports_success_unchecked (local_time:=utc) 1
            (run_only 1 (-1)) (start (quiet_daemon []))
            (snd (launch (local_time:=utc) 1 (run_only 1 (-1)) (start (quiet_daemon []))))
            "0" _ _ _).
  - simpl. lia.
  - simpl. lia.
  - vm_compute. reflexivity.
Defined.

(** X10.  When the run request returns the container's logs instead of
    a container object (as the client does for a run that is not
    detached), then with verbose >= 1 the run step ends in AttributeError
    right after the run request, with nothing more printed; and when the
    run step is reached from [main], after a build that succeeded or with
    the build switched off, [main] does not catch the exception. *)
Theorem X10_logs_instead_of_container_is_an_AttributeError
    {D : Type} {docker : Docker D} {local_time : LocalTime}
    (fuel : nat) (o : options) (w w1 : world D) (text : string) :
  1 ≤ verbose o →
  launch fuel o w = (Done (Logs text), w1) →
  run_step fuel o w = (Raised AttributeError, w1) ∧
  (∀ w0, run o = true →
         when (build o) (build_step o) w0 = (Done tt, w) →
         main fuel o w0 = (Raised AttributeError, w1)).
Proof.
  intros Hv Hl.
  assert (run_step fuel o w = (Raised AttributeError, w1)) as Hrun.
  { unfold run_step. rewrite (bind_done _ _ _ _ _ Hl).
    assert ((1 <=? verbose o) = true) as -> by lia. reflexivity. }
  split; [exact Hrun|]. intros w0 Hr Hb.
  rewrite main_unfold. unfold BuildRun_main.
  rewrite (bind_done _ _ _ _ _ Hb), Hr, when_true, bind_unfold, Hrun.
  reflexivity.
Qed.

Lemma X10_witness :
  let w0 := start (quiet_daemon []) in
  let w := snd (build_step build_no_detach w0) in
  let w1 := snd (launch (local_time:=utc) 1 build_no_detach w) in
  calls w = [CBuild (build_kwargs build_no_detach)] ∧
  run_step (local_time:=utc) 1 build_no_detach w = (Raised AttributeError, w1) ∧
  main (local_time:=utc) 1 build_no_detach w0 = (Raised AttributeError, w1).
Proof.
  cbv zeta. split; [vm_compute; reflexivity|].
  destruct (X10_logs_instead_of_container_is_an_AttributeError (local_time:=utc) 1
              build_no_detach
              (snd (build_step build_no_detach (start (quiet_daemon []))))
              (snd (launch (local_time:=utc) 1 build_no_detach
                      (snd (build_step build_no_detach (start (quiet_daemon []))))))
              "") as [Hstep Hmain].
  - simpl. lia.
  - vm_compute. reflexivity.
  - split; [exact Hstep|].
    apply (Hmain (start (quiet_daemon [])) eq_refl). vm_compute. reflexivity.
Defined.

Lemma NoDup_fmap_eq {A B : Type} (f : A → B) (l : list A) (x y : A) :
  NoDup (f <$> l) → x ∈ l → y ∈ l → f x = f y → x = y.
Proof.
  induction l as [|a l IH]; intros Hnd Hx Hy E.
  - now apply not_elem_of_nil in Hx.
  - rewrite fmap_cons in Hnd. apply NoDup_cons in Hnd as [Ha Hnd].
    apply elem_of_cons in Hx as [->|Hx]; apply elem_of_cons in Hy as [->|Hy].
    + reflexivity.
    + exfalso. apply Ha. rewrite E. now apply list_elem_of_fmap_2.
    + exfalso. apply Ha. rewrite <- E. now apply list_elem_of_fmap_2.
    + now apply IH.
Qed.

(** X11.  On a well-formed model daemon whose containers have pairwise
    distinct names (as the Docker daemon keeps them), and where
    [datetime.fromtimestamp] accepts the creation time of the container
    under the target name, reconciliation ends normally and leaves the
    names pairwise distinct: no rename ever collides with a container that
    is already there. *)
Theorem X11_names_stay_distinct
    {local_time : LocalTime} (fuel : nat) (o : options) (w : world fake) :
  wf (daemon w) →
  NoDup (Name <$> fk_containers (daemon w)) →
  Forall representable (holders (name o) (fk_containers (daemon w))) →
  (length (fk_containers (daemon w)) < fuel)%nat →
  ∃ w', reconcile fuel o w = (Done tt, w') ∧
        NoDup (Id <$> fk_containers (daemon w')) ∧
        NoDup (Name <$> fk_containers (daemon w')).
Proof.
  intros [Hids Hvalid] Hnames Hrep Hfuel.
  destruct (reconcile_fake fuel o w Hrep Hfuel) as (tr & cs' & os & Hrun & Hrec).
  destruct (reconciled_ids _ _ _ _ _ Hrec) as [Hids' _].
  eexists. split; [exact Hrun|]. cbn [daemon fk_containers with_containers].
  assert (NoDup (Id <$> cs')) as Hnd by now rewrite Hids'.
  split; [exact Hnd|].
  apply NoDup_fmap_2_strong; [|now apply NoDup_fmap_1 in Hnd].
  intros x y Hx Hy E. apply (NoDup_fmap_eq Id cs'); try assumption.
  apply (reconciled_unique _ _ _ _ _ Hrec (λ _, True)); auto.
  intros a b Ha Hb _ Hab. f_equal.
  now apply (NoDup_fmap_eq Name (fk_containers (daemon w))).
Qed.

Lemma X11_witness :
  ∃ w', reconcile (local_time:=utc) 3 (run_only 0 5)
          (start (quiet_daemon [alice_dev; alice_dev_old])) = (Done tt, w') ∧
        NoDup (Id <$> fk_containers (daemon w')) ∧
        NoDup (Name <$> fk_containers (daemon w')).
Proof.
  refine (X11_names_stay_distinct (local_time:=utc) 3 (run_only 0 5)
            (start (quiet_daemon [alice_dev; alice_dev_old])) _ _ _ _).
  - split.
    + simpl. apply NoDup_cons. split; [|apply NoDup_singleton].
      intros Hin%list_elem_of_singleton. discriminate.
    + repeat constructor.
  - simpl. apply NoDup_cons. split; [|apply NoDup_singleton].
    intros Hin%list_elem_of_singleton. discriminate.
  - change (Forall (representable (local_time:=utc)) [alice_dev]).
    constructor; [now apply utc_representable | constructor].
  - simpl. lia.
Defined.

Lemma run_kwargs_fields (o : options) (kw : run_kwargs_t) :
  run_kwargs o = Some kw → rk_name kw = name o ∧ rk_detach kw = detach o.
Proof.
  unfold run_kwargs. destruct (ports_dict (port o) []); [|discriminate].
  destruct (volumes_dict (volume o) []); [|discriminate].
  intros [= <-]. split; reflexivity.
Qed.

(** X12.  On the model daemon, when the canonical name is one the daemon
    accepts and [datetime.fromtimestamp] accepts the creation times of the
    containers under it, the run request that follows reconciliation is
    never refused for a name conflict: it succeeds, and the new container
    is then the only one under the canonical name. *)
Theorem X12_run_after_reconciliation_succeeds
    {local_time : LocalTime} (fuel : nat) (o : options) (kw : run_kwargs_t)
    (w : world fake) :
  valid_name (name o) = true →
  run_kwargs o = Some kw →
  Forall representable (holders (name o) (fk_containers (daemon w))) →
  (length (fk_containers (daemon w)) < fuel)%nat →
  ∃ id w1 c,
    launch fuel o w = (Done (if detach o then Handle id else Logs ""), w1) ∧
    holders (name o) (fk_containers (daemon w1)) = [c] ∧
    Id c = id ∧ Created c = fk_clock (daemon w).
Proof.
  intros Hvalid Hkw Hrep Hfuel.
  destruct (launch_fake fuel o kw w Hkw Hrep Hfuel) as (tr & cs' & os & Hrec & Hrun).
  destruct (run_kwargs_fields o kw Hkw) as [Hname Hdetach].
  apply reconciled_clears in Hrec.
  assert (existsb (has_name (name o)) cs' = false) as Hfree.
  { apply existsb_has_name. now apply holders_nil. }
  rewrite Hrun. unfold containers_run, request.
  cbn [daemon calls stdout daemon_run fake_docker]. unfold fake_run.
  cbn [fk_containers with_containers fk_clock fk_next_uptime fk_uptime].
  rewrite Hname, Hvalid, Hfree, Hdetach. cbn [negb].
  do 3 eexists. split; [reflexivity|]. cbn [daemon fk_containers].
  unfold holders. rewrite filter_app. fold (holders (name o) cs'). rewrite Hrec.
  rewrite filter_cons_True by (unfold has_name; apply String.eqb_refl).
  split; [reflexivity|]. split; reflexivity.
Qed.

Lemma X12_witness :
  ∃ id w1 c,
    launch (local_time:=utc) 3 (run_only 0 5)
      (start (quiet_daemon [alice_dev; alice_dev_old]))
      = (Done (if detach (run_only 0 5) then Handle id else Logs ""), w1) ∧
    holders "alice_dev" (fk_containers (daemon w1)) = [c] ∧
    Id c = id ∧ Created c = 1700000000.
Proof.
  refine (X12_run_after_reconciliation_succeeds (local_time:=utc) 3 (run_only 0 5)
            {| rk_image := "alice:dev"; rk_name := "alice_dev"; rk_user := "alice";
               rk_ports := []; rk_volumes := []; rk_detach := true |}
            (start (quiet_daemon [alice_dev; alice_dev_old])) _ eq_refl _ _).
  - vm_compute. reflexivity.
  - change (Forall (representable (local_time:=utc)) [alice_dev]).
    constructor; [now apply utc_representable | constructor].
  - simpl. lia.
Defined.

Section Silent.
Context {D : Type} {docker : Docker D} {local_time : LocalTime}.

Lemma silent_ret {A} (a : A) : silent (D:=D) (mret a).
Proof. intros w. reflexivity. Qed.

Lemma silent_raise {A} (e : exn) : silent (D:=D) (A:=A) (raise e).
Proof. intros w. reflexivity. Qed.

Lemma silent_out_of_fuel {A} : silent (D:=D) (A:=A) out_of_fuel.
Proof. intros w. reflexivity. Qed.

Lemma silent_request {A} (c : call) (op : D → reply A * D) : silent (request c op).
Proof.
  intros w. unfold request. destruct (op (daemon w)) as [[a|f] d']; reflexivity.
Qed.

Lemma silent_bind {A B} (m : M D A) (k : A → M D B) :
  silent m → (∀ a, silent (k a)) → silent (m ≫= k).
Proof.
  intros Hm Hk w. rewrite bind_unfold. specialize (Hm w).
  destruct (m w) as [[a|e|] w1]; simpl in *; [|exact Hm..].
  now rewrite Hk.
Qed.

Lemma silent_try_APIError {A} (m h : M D A) :
  silent m → silent h → silent (try_except_APIError m h).
Proof.
  intros Hm Hh w. unfold try_except_APIError. specialize (Hm w).
  destruct (m w) as [[a|e|] w1]; simpl in *; try exact Hm.
  destruct e; try exact Hm. now rewrite Hh.
Qed.

End Silent.

Ltac silent_step :=
  match goal with
  | |- silent (_ ≫= _) => apply silent_bind; [|intros ?]
  | |- silent (mret _) => apply silent_ret
  | |- silent (request _ _) => apply silent_request
  | |- silent out_of_fuel => apply silent_out_of_fuel
  | |- silent (try_except_APIError _ _) => apply silent_try_APIError
  | |- silent (raise _) => apply silent_raise
  | |- silent (timestamp _) => unfold timestamp
  | |- silent (rename_candidate _ _) => unfold rename_candidate
  | |- silent (rename_numbered _ _ _) => unfold rename_numbered
  | |- silent (match ?x with _ => _ end) => destruct x
  end.

Ltac quiet o Hv1 Hv2 :=
  unfold when; rewrite ?Hv1, ?Hv2; cbv beta iota; repeat silent_step.

Section SilentSteps.
Context {D : Type} {docker : Docker D} {local_time : LocalTime}.
Variable o : options.
Hypothesis Hv1 : (1 <=? verbose o) = false.
Hypothesis Hv2 : (2 <=? verbose o) = false.

Lemma silent_build_step : silent (D:=D) (build_step o).
Proof. unfold build_step, api_build. quiet o Hv1 Hv2. Qed.

Lemma silent_find_free fuel n c rename count :
  silent (D:=D) (find_free fuel n c rename count).
Proof.
  revert rename count. induction fuel as [|fuel IH]; intros rename count; simpl.
  - apply silent_out_of_fuel.
  - unfold api_containers. repeat silent_step. apply IH.
Qed.

Lemma silent_reconcile_all fuel cs : silent (D:=D) (reconcile_all fuel o cs).
Proof.
  induction cs as [|c cs IH]; simpl; [apply silent_ret|].
  apply silent_bind; [|intros _; exact IH].
  unfold reconcile_one, api_stop, api_rename. quiet o Hv1 Hv2.
  apply silent_find_free.
Qed.

Lemma silent_run_step fuel : silent (D:=D) (run_step fuel o).
Proof.
  unfold run_step, launch, reconcile, api_containers, containers_run.
  quiet o Hv1 Hv2. apply silent_reconcile_all.
Qed.

Lemma silent_push_log lines : silent (D:=D) (push_log o lines).
Proof.
  induction lines as [|line lines IH]; simpl; [apply silent_ret|].
  rewrite Hv2. apply silent_bind; [apply silent_ret | intros _; exact IH].
Qed.

Lemma silent_push_step : silent (D:=D) (push_step o).
Proof.
  unfold push_step, api_tag, api_push, end_of_stream. quiet o Hv1 Hv2.
  apply silent_push_log.
Qed.

Lemma silent_BuildRun_main fuel : silent (D:=D) (BuildRun_main fuel o).
Proof.
  unfold BuildRun_main.
  apply silent_bind; [|intros _; apply silent_bind; [|intros _]].
  - destruct (build o); [apply silent_build_step | apply silent_ret].
  - destruct (run o); [apply silent_run_step | apply silent_ret].
  - destruct (push o); [apply silent_push_step | apply silent_ret].
Qed.

End SilentSteps.

(** X13.  At verbosity 0 [BuildRun.main] prints nothing, whatever the
    daemon answers and however it ends; the only thing [main] can print
    is the one line of a tool error. *)
Theorem X13_nothing_printed_at_verbosity_0
    {D : Type} {docker : Docker D} {local_time : LocalTime}
    (fuel : nat) (o : options) (w : world D) :
  verbose o < 1 →
  stdout (snd (BuildRun_main fuel o w)) = stdout w ∧
  (stdout (snd (main fuel o w)) = stdout w ∨
   ∃ code message,
     fst (BuildRun_main fuel o w) = Raised (BuildRunError code message) ∧
     stdout (snd (main fuel o w))
       = stdout w ++ [Print ("BuildRunError: " +:+ str_int code +:+ " - " +:+ message)]).
Proof.
  intros Hv.
  assert (stdout (snd (BuildRun_main fuel o w)) = stdout w) as Hs.
  { apply silent_BuildRun_main; lia. }
  split; [exact Hs|]. rewrite main_unfold.
  destruct (BuildRun_main fuel o w) as [[[]|e|] w1]; cbn [fst snd] in *; auto.
  destruct e; auto. right. do 2 eexists. split; [reflexivity|].
  cbn [stdout]. now rewrite Hs.
Qed.

Lemma X13_witness :
  stdout (snd (BuildRun_main (local_time:=utc) 3 (run_only 0 5)
                 (start (quiet_daemon [alice_dev; alice_dev_old])))) = [] ∧
  (stdout (snd (main (local_time:=utc) 3 (run_only 0 5)
                  (start (quiet_daemon [alice_dev; alice_dev_old])))) = [] ∨
   ∃ code message,
     fst (BuildRun_main (local_time:=utc) 3 (run_only 0 5)
            (start (quiet_daemon [alice_dev; alice_dev_old])))
       = Raised (BuildRunError code message) ∧
     stdout (snd (main (local_time:=utc) 3 (run_only 0 5)
                    (start (quiet_daemon [alice_dev; alice_dev_old]))))
       = [] ++ [Print ("BuildRunError: " +:+ str_int code +:+ " - " +:+ message)]).
Proof.
  refine (X13_nothing_printed_at_verbosity_0 (local_time:=utc) 3 (run_only 0 5)
            (start (quiet_daemon [alice_dev; alice_dev_old])) _).
  simpl. lia.
Defined.

Section Issues.
Context {D : Type} {docker : Docker D} {local_time : LocalTime}.
Variable P : call → Prop.

Lemma issues_nothing {A} (m : M D A) :
  (∀ w, calls (snd (m w)) = calls w) → issues P m.
Proof. intros Hm w. exists []. rewrite Hm, app_nil_r. split; [reflexivity | constructor]. Qed.

Lemma issues_request {A} (c : call) (op : D → reply A * D) :
  P c → issues P (request c op).
Proof.
  intros Hc w. exists [c]. rewrite request_calls. split; [reflexivity|].
  now constructor.
Qed.

Lemma issues_bind {A B} (m : M D A) (k : A → M D B) :
  issues P m → (∀ a, issues P (k a)) → issues P (m ≫= k).
Proof.
  intros Hm Hk w. rewrite bind_unfold. destruct (Hm w) as (l & Hl & HP).
  destruct (m w) as [[a|e|] w1]; simpl in *; [|eauto..].
  destruct (Hk a w1) as (l' & Hl' & HP'). exists (l ++ l').
  split; [now rewrite Hl', Hl, app_assoc | now apply Forall_app].
Qed.

End Issues.

Ltac issues_step :=
  match goal with
  | |- issues _ (_ ≫= _) => apply issues_bind; [|intros ?]
  | |- issues _ (request _ _) => apply issues_request; exact I
  | |- issues _ (mret _) => apply issues_nothing; reflexivity
  | |- issues _ (raise _) => apply issues_nothing; reflexivity
  | |- issues _ out_of_fuel => apply issues_nothing; reflexivity
  | |- issues _ (print _) => apply issues_nothing; reflexivity
  | |- issues _ (when ?b _) => destruct b; cbn [when]
  | |- issues _ (timestamp _) => unfold timestamp
  | |- issues _ (rename_candidate _ _) => unfold rename_candidate
  | |- issues _ (rename_numbered _ _ _) => unfold rename_numbered
  | |- issues _ (match ?x with _ => _ end) => destruct x
  end.

Section IssuesSteps.
Context {D : Type} {docker : Docker D} {local_time : LocalTime}.

Lemma issues_find_free fuel n c rename count :
  issues (D:=D) is_reconcile_call (find_free fuel n c rename count).
Proof.
  revert rename count. induction fuel as [|fuel IH]; intros rename count; simpl.
  - apply issues_nothing. reflexivity.
  - unfold api_containers. repeat issues_step. apply IH.
Qed.

Lemma issues_reconcile_all fuel o cs :
  issues (D:=D) is_reconcile_call (reconcile_all fuel o cs).
Proof.
  induction cs as [|c cs IH]; simpl; [apply issues_nothing; reflexivity|].
  apply issues_bind; [|intros _; exact IH].
  unfold reconcile_one, api_stop, api_rename. repeat issues_step.
  apply issues_find_free.
Qed.

Lemma issues_reconcile fuel o : issues (D:=D) is_reconcile_call (reconcile fuel o).
Proof.
  unfold reconcile, api_containers. repeat issues_step.
  apply issues_reconcile_all.
Qed.

End IssuesSteps.

(** X14.  For every daemon: reconciliation issues only listings by
    name, stops and renames, and the run request is issued exactly when
    reconciliation ended normally, right after its last request.  When
    reconciliation raises (a listing, a stop or a rename refused, a
    creation time without a text) or the search for a free name does not
    end, [launch] ends the same way in the same world: no container is
    started. *)
Theorem X14_no_run_request_unless_reconciled
    {D : Type} {docker : Docker D} {local_time : LocalTime}
    (fuel : nat) (o : options) (kw : run_kwargs_t) (w : world D) :
  run_kwargs o = Some kw →
  ∃ l, Forall is_reconcile_call l ∧
       calls (snd (reconcile fuel o (args_shown o kw w))) = calls w ++ l ∧
       match fst (reconcile fuel o (args_shown o kw w)) with
       | Done _ => calls (snd (launch fuel o w)) = calls w ++ l ++ [CRun kw]
       | Raised e =>
           launch fuel o w = (Raised e, snd (reconcile fuel o (args_shown o kw w)))
       | OutOfFuel =>
           launch fuel o w = (OutOfFuel, snd (reconcile fuel o (args_shown o kw w)))
       end.
Proof.
  intros Hkw. rewrite (launch_unfold fuel o kw w Hkw), bind_unfold.
  destruct (issues_reconcile fuel o (args_shown o kw w)) as (l & Hl & HP).
  exists l. split; [exact HP|]. cbn [args_shown calls] in Hl.
  split; [exact Hl|].
  destruct (reconcile fuel o (args_shown o kw w)) as [[[]|e|] w1];
    cbn [fst snd] in *; [|reflexivity..].
  unfold containers_run. now rewrite request_calls, Hl, app_assoc.
Qed.

Lemma X14_witness :
  let kw := {| rk_image := "alice:dev"; rk_name := "alice_dev"; rk_user := "alice";
               rk_ports := []; rk_volumes := []; rk_detach := true |} in
  (let w := start (quiet_daemon [alice_dev; alice_dev_old]) in
   ∃ l, Forall is_reconcile_call l ∧
        calls (snd (reconcile (local_time:=utc) 3 (run_only 0 5) w)) = [] ++ l ∧
        calls (snd (launch (local_time:=utc) 3 (run_only 0 5) w))
          = [] ++ l ++ [CRun kw]) ∧
  (let w := start (quiet_daemon [alice_dev_undated]) in
   ∃ l, Forall is_reconcile_call l ∧
        calls (snd (reconcile (local_time:=utc) 3 (run_only 0 5) w)) = [] ++ l ∧
        launch (local_time:=utc) 3 (run_only 0 5) w =
          (Raised TimestampError,
           snd (reconcile (local_time:=utc) 3 (run_only 0 5) w))).
Proof.
  cbv zeta. split.
  - exact (X14_no_run_request_unless_reconciled (local_time:=utc) 3 (run_only 0 5) _
             (start (quiet_daemon [alice_dev; alice_dev_old])) eq_refl).
  - exact (X14_no_run_request_unless_reconciled (local_time:=utc) 3 (run_only 0 5) _
             (start (quiet_daemon [alice_dev_undated])) eq_refl).
Defined.

(** X15.  On the model daemon, with fuel for the search, reconciliation
    ends normally exactly when [datetime.fromtimestamp] accepts the
    creation time of every container listed under the target name, and
    ends in the exception of line 89 exactly when it refuses one. *)
Theorem X15_reconciliation_ends_iff_creation_times_have_text
    {local_time : LocalTime} (fuel : nat) (o : options) (w : world fake) :
  (length (fk_containers (daemon w)) < fuel)%nat →
  ((∃ w', reconcile fuel o w = (Done tt, w')) ↔
   Forall representable (holders (name o) (fk_containers (daemon w)))) ∧
  ((∃ w', reconcile fuel o w = (Raised TimestampError, w')) ↔
   ¬ Forall representable (holders (name o) (fk_containers (daemon w)))).
Proof.
  intros Hfuel.
  destruct (first_unrepresentable (holders (name o) (fk_containers (daemon w))))
    as [Hall | (pre & c & post & Hh & Hpre & Hc)].
  - destruct (reconcile_fake fuel o w Hall Hfuel) as (tr & cs' & os & Hrun & _).
    split; split.
    + intros _. exact Hall.
    + intros _. eexists. exact Hrun.
    + intros [w' Hw']. rewrite Hrun in Hw'. discriminate.
    + intros Hn. contradiction.
  - destruct (reconcile_raises fuel o w pre c post Hh Hpre Hc Hfuel)
      as (tr & cs' & os & Hrun & _).
    assert (¬ Forall representable (holders (name o) (fk_containers (daemon w))))
      as Hnot.
    { rewrite Hh. intros Hall. apply Forall_app in Hall as [_ Hall].
      apply Forall_cons in Hall as [Hc' _]. contradiction. }
    split; split.
    + intros [w' Hw']. rewrite Hrun in Hw'. discriminate.
    + intros Hall. contradiction.
    + intros _. exact Hnot.
    + intros _. eexists. exact Hrun.
Qed.

Lemma X15_witness :
  (∃ w', reconcile (local_time:=utc) 3 (run_only 0 5)
           (start (quiet_daemon [alice_dev; alice_dev_old])) = (Done tt, w')) ∧
  (∃ w', reconcile (local_time:=utc) 3 (run_only 0 5)
           (start (quiet_daemon [alice_dev_undated; alice_dev_old]))
         = (Raised TimestampError, w')).
Proof.
  split.
  - apply (X15_reconciliation_ends_iff_creation_times_have_text (local_time:=utc)
             3 (run_only 0 5) (start (quiet_daemon [alice_dev; alice_dev_old]))).
    + simpl. lia.
    + change (Forall (representable (local_time:=utc)) [alice_dev]).
      constructor; [now apply utc_representable | constructor].
  - apply (X15_reconciliation_ends_iff_creation_times_have_text (local_time:=utc)
             3 (run_only 0 5)
             (start (quiet_daemon [alice_dev_undated; alice_dev_old]))).
    + simpl. lia.
    + change (¬ Forall (representable (local_time:=utc)) [alice_dev_undated]).
      intros Hall. apply Forall_cons in Hall as [[text Htext] _].
      vm_compute in Htext. discriminate.
Defined.

(** X16.  On a well-formed model daemon, when [datetime.fromtimestamp]
    refuses the creation time of a container listed under the target name
    (and accepts those listed before it), the run is given up half way:
    the containers listed before are renamed, this one is stopped if it
    was listed as running, then line 89 raises.  The container is not
    renamed and still holds the canonical name, no run request is issued,
    and nothing catches the exception. *)
Theorem X16_refused_creation_time_stops_but_does_not_restart
    {local_time : LocalTime} (fuel : nat) (o : options) (kw : run_kwargs_t)
    (w : world fake) (pre : list container) (c : container)
    (post : list container) :
  wf (daemon w) →
  run_kwargs o = Some kw →
  holders (name o) (fk_containers (daemon w)) = pre ++ c :: post →
  Forall representable pre →
  ¬ representable c →
  (length (fk_containers (daemon w)) < fuel)%nat →
  ∃ tr w',
    launch fuel o w = (Raised TimestampError, w') ∧
    run_step fuel o w = (Raised TimestampError, w') ∧
    (∀ w0, run o = true →
           when (build o) (build_step o) w0 = (Done tt, w) →
           main fuel o w0 = (Raised TimestampError, w')) ∧
    calls w' = calls w ++ CContainers true (name_filter (name o))
                 :: tr ++ (if is_running c then [CStop (Id c)] else []) ∧
    Forall is_reconcile_call tr ∧
    rename_ids tr = Id <$> pre ∧
    (if is_running c then set_state "exited" c else c)
      ∈ holders (name o) (fk_containers (daemon w')).
Proof.
  intros [Hnd Hvalid] Hkw Hh Hpre Hc Hfuel.
  destruct (launch_raises fuel o kw w pre c post Hkw Hh Hpre Hc Hfuel)
    as (tr & cs' & os & Hrec & Hrun).
  assert (c ∈ holders (name o) (fk_containers (daemon w))) as Hin.
  { rewrite Hh. apply elem_of_app. right. apply list_elem_of_here. }
  apply holders_elem in Hin as [Hname Hin].
  assert (Id c ∉ Id <$> pre) as Hfresh.
  { intros Hid. apply list_elem_of_fmap in Hid as [p [Hid Hp]].
    assert (p ∈ holders (name o) (fk_containers (daemon w))) as Hp'.
    { rewrite Hh. apply elem_of_app. now left. }
    apply holders_elem in Hp' as [_ Hp'].
    assert (c = p) as -> by now apply (NoDup_ids_eq _ _ _ Hnd).
    rewrite Forall_forall in Hpre. apply Hc, Hpre, Hp. }
  pose proof (reconciled_untouched _ _ _ _ _ Hrec c Hin Hfresh) as Hc'.
  assert (run_step fuel o w =
          (Raised TimestampError,
           World (with_containers (daemon w) (stopped c cs'))
                 (calls w ++ CContainers true (name_filter (name o))
                    :: tr ++ (if is_running c then [CStop (Id c)] else []))
                 (stdout w ++ os))) as Hstep.
  { unfold run_step. now rewrite (bind_raised _ _ _ _ _ Hrun). }
  do 2 eexists. split; [exact Hrun|]. split; [exact Hstep|].
  cbn [daemon calls stdout fk_containers with_containers].
  split; [|split; [reflexivity|split; [|split]]].
  - intros w0 Hr Hb. rewrite main_unfold. unfold BuildRun_main.
    rewrite (bind_done _ _ _ _ _ Hb), Hr, when_true, bind_unfold, Hstep.
    reflexivity.
  - now apply (reconciled_calls _ _ _ _ _ Hrec).
  - now apply (reconciled_requests _ _ _ _ _ Hrec).
  - apply holders_elem. unfold stopped.
    destruct (is_running c); [|now split].
    split; [exact Hname|]. unfold update. apply list_elem_of_fmap.
    exists c. split; [|exact Hc'].
    unfold has_id. now rewrite String.eqb_refl.
Qed.

Lemma X16_witness :
  ∃ tr w',
    launch (local_time:=utc) 3 (run_only 0 5)
      (start (quiet_daemon [alice_dev_undated; alice_dev_old]))
      = (Raised TimestampError, w') ∧
    run_step (local_time:=utc) 3 (run_only 0 5)
      (start (quiet_daemon [alice_dev_undated; alice_dev_old]))
      = (Raised TimestampError, w') ∧
    (∀ w0, run (run_only 0 5) = true →
           when (build (run_only 0 5)) (build_step (run_only 0 5)) w0
             = (Done tt, start (quiet_daemon [alice_dev_undated; alice_dev_old])) →
           main (local_time:=utc) 3 (run_only 0 5) w0
             = (Raised TimestampError, w')) ∧
    calls w' = [] ++ CContainers true "^alice_dev$" :: tr ++ [CStop "e3c5"] ∧
    Forall is_reconcile_call tr ∧
    rename_ids tr = [] ∧
    set_state "exited" alice_dev_undated
      ∈ holders "alice_dev" (fk_containers (daemon w')).
Proof.
  refine (X16_refused_creation_time_stops_but_does_not_restart (local_time:=utc)
            3 (run_only 0 5)
            {| rk_image := "alice:dev"; rk_name := "alice_dev"; rk_user := "alice";
               rk_ports := []; rk_volumes := []; rk_detach := true |}
            (start (quiet_daemon [alice_dev_undated; alice_dev_old]))
            [] alice_dev_undated [] _ eq_refl eq_refl _ _ _).
  - split.
    + simpl. apply NoDup_cons. split; [|apply NoDup_singleton].
      intros Hin%list_elem_of_singleton. discriminate.
    + repeat constructor.
  - constructor.
  - intros [text Htext]. vm_compute in Htext. discriminate.
  - simpl. lia.
Defined.
